(** * smokeshow: span hierarchy, test lifecycle, redaction and aggregation

  A shallow embedding of the Python package [smokeshow]
  (sensitive.py, spans.py, config.py, actions.py, test_case.py,
  browser.py) and the properties of its specification.

  Conventions of the embedding.
  - A Python [str] is a [string] holding its UTF-8 encoding: equality,
    concatenation, emptiness and [in] on the encodings are those of the
    strings. Where the code looks at characters ([str.lower], the
    [re.IGNORECASE] search) the encoding is decoded into code points and
    the case tables of the interpreter are consulted ([Unicode]).
  - Python [int] is [Z]; [len] results are [nat].
  - The browser driver (Playwright page) and the id generator of the
    tracer are interfaces: a type class and a record of functions.
  - A span is the record of what this package does to it: the name and
    attributes it is created with and the calls made on it afterwards.
    A span that is ended is appended to the list of finished spans, as an
    in-memory exporter sees them. Leaving the [with] block of the
    tracer's own context manager appears as the single call [ScopeExit];
    what that exit does to the span is written out in [Telemetry].
  - An exception is a value carrying its class, whether the class derives
    from [Exception], and its message; a computation returns or raises.
  - A test body is a list of statements written against the test-case
    interface; a suite body is a list of test cases. *)

From Stdlib Require Import Bool Arith ZArith NArith List Ascii String Lia.
From Stdlib Require Import DecimalString.
From Stdlib Require QArith_base.
Import ListNotations.

Local Open Scope string_scope.
Local Open Scope list_scope.

(* ================================================================== *)
(** ** Characters: code points, UTF-8 and the case tables *)

Module Unicode.

Local Open Scope N_scope.

(** *** UTF-8 *)

(** A byte that belongs to no well-formed sequence is read as a value of
    its own above every code point, so that decoding loses nothing. *)
Definition stray (b : N) : N := 1114112 + b.

(** The payload of the [k]-th byte of [s] when it is a continuation byte. *)
Definition continuation (s : string) (k : nat) : option N :=
  match String.get k s with
  | Some c =>
      let n := N_of_ascii c in
      if (128 <=? n) && (n <? 192) then Some (n - 128) else None
  | None => None
  end.

(** The character that starts with the byte [b] followed by [rest], and
    the number of bytes of [rest] it takes. Overlong forms and values
    above U+10FFFF are not characters. *)
Definition head_point (b : ascii) (rest : string) : N * nat :=
  let n := N_of_ascii b in
  if n <? 128 then (n, 0%nat)
  else if n <? 192 then (stray n, 0%nat)
  else if n <? 224 then
    match continuation rest 0 with
    | Some x1 =>
        let c := (n - 192) * 64 + x1 in
        if 128 <=? c then (c, 1%nat) else (stray n, 0%nat)
    | None => (stray n, 0%nat)
    end
  else if n <? 240 then
    match continuation rest 0, continuation rest 1 with
    | Some x1, Some x2 =>
        let c := (n - 224) * 4096 + x1 * 64 + x2 in
        if 2048 <=? c then (c, 2%nat) else (stray n, 0%nat)
    | _, _ => (stray n, 0%nat)
    end
  else if n <? 248 then
    match continuation rest 0, continuation rest 1, continuation rest 2 with
    | Some x1, Some x2, Some x3 =>
        let c := (n - 240) * 262144 + x1 * 4096 + x2 * 64 + x3 in
        if (65536 <=? c) && (c <? 1114112) then (c, 3%nat) else (stray n, 0%nat)
    | _, _, _ => (stray n, 0%nat)
    end
  else (stray n, 0%nat).

(** The characters of a string; [skip] bytes at the front belong to the
    character before. *)
Fixpoint decode_from (skip : nat) (s : string) : list N :=
  match s with
  | EmptyString => []
  | String b rest =>
      match skip with
      | S k => decode_from k rest
      | O => let '(c, used) := head_point b rest in c :: decode_from used rest
      end
  end.

Definition decode (s : string) : list N := decode_from 0 s.

Definition byte_string (n : N) : string := String (ascii_of_N n) EmptyString.

Definition encode_point (c : N) : string :=
  if c <? 128 then byte_string c
  else if c <? 2048 then
    (byte_string (192 + c / 64) ++ byte_string (128 + c mod 64))%string
  else if c <? 65536 then
    (byte_string (224 + c / 4096) ++ byte_string (128 + (c / 64) mod 64)
     ++ byte_string (128 + c mod 64))%string
  else if c <? 1114112 then
    (byte_string (240 + c / 262144) ++ byte_string (128 + (c / 4096) mod 64)
     ++ byte_string (128 + (c / 64) mod 64) ++ byte_string (128 + c mod 64))%string
  else byte_string (c - 1114112).

Fixpoint encode (l : list N) : string :=
  match l with
  | [] => EmptyString
  | c :: l' => (encode_point c ++ encode l')%string
  end.

(** *** The case tables of the interpreter (Unicode 14.0, CPython 3.11) *)

(** Simple lower-case mapping: an entry [(first, last, step, target)] maps
    [first], [first + step], ... up to [last] to [target],
    [target + step], ...; a character in no entry is its own lower case. *)
Definition LOWERCASE : list (N * N * N * N) :=
  [(65, 90, 1, 97); (192, 214, 1, 224); (216, 222, 1, 248);
   (256, 302, 2, 257); (304, 304, 1, 105); (306, 310, 2, 307);
   (313, 327, 2, 314); (330, 374, 2, 331); (376, 376, 1, 255);
   (377, 381, 2, 378); (385, 385, 1, 595); (386, 388, 2, 387);
   (390, 390, 1, 596); (391, 391, 1, 392); (393, 394, 1, 598);
   (395, 395, 1, 396); (398, 398, 1, 477); (399, 399, 1, 601);
   (400, 400, 1, 603); (401, 401, 1, 402); (403, 403, 1, 608);
   (404, 404, 1, 611); (406, 406, 1, 617); (407, 407, 1, 616);
   (408, 408, 1, 409); (412, 412, 1, 623); (413, 413, 1, 626);
   (415, 415, 1, 629); (416, 420, 2, 417); (422, 422, 1, 640);
   (423, 423, 1, 424); (425, 425, 1, 643); (428, 428, 1, 429);
   (430, 430, 1, 648); (431, 431, 1, 432); (433, 434, 1, 650);
   (435, 437, 2, 436); (439, 439, 1, 658); (440, 440, 1, 441);
   (444, 444, 1, 445); (452, 452, 1, 454); (453, 453, 1, 454);
   (455, 455, 1, 457); (456, 456, 1, 457); (458, 458, 1, 460);
   (459, 475, 2, 460); (478, 494, 2, 479); (497, 497, 1, 499);
   (498, 500, 2, 499); (502, 502, 1, 405); (503, 503, 1, 447);
   (504, 542, 2, 505); (544, 544, 1, 414); (546, 562, 2, 547);
   (570, 570, 1, 11365); (571, 571, 1, 572); (573, 573, 1, 410);
   (574, 574, 1, 11366); (577, 577, 1, 578); (579, 579, 1, 384);
   (580, 580, 1, 649); (581, 581, 1, 652); (582, 590, 2, 583);
   (880, 882, 2, 881); (886, 886, 1, 887); (895, 895, 1, 1011);
   (902, 902, 1, 940); (904, 906, 1, 941); (908, 908, 1, 972);
   (910, 911, 1, 973); (913, 929, 1, 945); (931, 939, 1, 963);
   (975, 975, 1, 983); (984, 1006, 2, 985); (1012, 1012, 1, 952);
   (1015, 1015, 1, 1016); (1017, 1017, 1, 1010); (1018, 1018, 1, 1019);
   (1021, 1023, 1, 891); (1024, 1039, 1, 1104); (1040, 1071, 1, 1072);
   (1120, 1152, 2, 1121); (1162, 1214, 2, 1163); (1216, 1216, 1, 1231);
   (1217, 1229, 2, 1218); (1232, 1326, 2, 1233); (1329, 1366, 1, 1377);
   (4256, 4293, 1, 11520); (4295, 4295, 1, 11559); (4301, 4301, 1, 11565);
   (5024, 5103, 1, 43888); (5104, 5109, 1, 5112); (7312, 7354, 1, 4304);
   (7357, 7359, 1, 4349); (7680, 7828, 2, 7681); (7838, 7838, 1, 223);
   (7840, 7934, 2, 7841); (7944, 7951, 1, 7936); (7960, 7965, 1, 7952);
   (7976, 7983, 1, 7968); (7992, 7999, 1, 7984); (8008, 8013, 1, 8000);
   (8025, 8031, 2, 8017); (8040, 8047, 1, 8032); (8072, 8079, 1, 8064);
   (8088, 8095, 1, 8080); (8104, 8111, 1, 8096); (8120, 8121, 1, 8112);
   (8122, 8123, 1, 8048); (8124, 8124, 1, 8115); (8136, 8139, 1, 8050);
   (8140, 8140, 1, 8131); (8152, 8153, 1, 8144); (8154, 8155, 1, 8054);
   (8168, 8169, 1, 8160); (8170, 8171, 1, 8058); (8172, 8172, 1, 8165);
   (8184, 8185, 1, 8056); (8186, 8187, 1, 8060); (8188, 8188, 1, 8179);
   (8486, 8486, 1, 969); (8490, 8490, 1, 107); (8491, 8491, 1, 229);
   (8498, 8498, 1, 8526); (8544, 8559, 1, 8560); (8579, 8579, 1, 8580);
   (9398, 9423, 1, 9424); (11264, 11311, 1, 11312); (11360, 11360, 1, 11361);
   (11362, 11362, 1, 619); (11363, 11363, 1, 7549); (11364, 11364, 1, 637);
   (11367, 11371, 2, 11368); (11373, 11373, 1, 593); (11374, 11374, 1, 625);
   (11375, 11375, 1, 592); (11376, 11376, 1, 594); (11378, 11378, 1, 11379);
   (11381, 11381, 1, 11382); (11390, 11391, 1, 575); (11392, 11490, 2, 11393);
   (11499, 11501, 2, 11500); (11506, 11506, 1, 11507); (42560, 42604, 2, 42561);
   (42624, 42650, 2, 42625); (42786, 42798, 2, 42787); (42802, 42862, 2, 42803);
   (42873, 42875, 2, 42874); (42877, 42877, 1, 7545); (42878, 42886, 2, 42879);
   (42891, 42891, 1, 42892); (42893, 42893, 1, 613); (42896, 42898, 2, 42897);
   (42902, 42920, 2, 42903); (42922, 42922, 1, 614); (42923, 42923, 1, 604);
   (42924, 42924, 1, 609); (42925, 42925, 1, 620); (42926, 42926, 1, 618);
   (42928, 42928, 1, 670); (42929, 42929, 1, 647); (42930, 42930, 1, 669);
   (42931, 42931, 1, 43859); (42932, 42946, 2, 42933); (42948, 42948, 1, 42900);
   (42949, 42949, 1, 642); (42950, 42950, 1, 7566); (42951, 42953, 2, 42952);
   (42960, 42960, 1, 42961); (42966, 42968, 2, 42967); (42997, 42997, 1, 42998);
   (65313, 65338, 1, 65345); (66560, 66599, 1, 66600); (66736, 66771, 1, 66776);
   (66928, 66938, 1, 66967); (66940, 66954, 1, 66979); (66956, 66962, 1, 66995);
   (66964, 66965, 1, 67003); (68736, 68786, 1, 68800); (71840, 71871, 1, 71872);
   (93760, 93791, 1, 93792); (125184, 125217, 1, 125218)].

Definition CASE_IGNORABLE : list (N * N) :=
  [(39, 39); (46, 46); (58, 58); (94, 94); (96, 96);
   (168, 168); (173, 173); (175, 175); (180, 180); (183, 184);
   (688, 879); (884, 885); (890, 890); (900, 901); (903, 903);
   (1155, 1161); (1369, 1369); (1375, 1375); (1425, 1469); (1471, 1471);
   (1473, 1474); (1476, 1477); (1479, 1479); (1524, 1524); (1536, 1541);
   (1552, 1562); (1564, 1564); (1600, 1600); (1611, 1631); (1648, 1648);
   (1750, 1757); (1759, 1768); (1770, 1773); (1807, 1807); (1809, 1809);
   (1840, 1866); (1958, 1968); (2027, 2037); (2042, 2042); (2045, 2045);
   (2070, 2093); (2137, 2139); (2184, 2184); (2192, 2193); (2200, 2207);
   (2249, 2306); (2362, 2362); (2364, 2364); (2369, 2376); (2381, 2381);
   (2385, 2391); (2402, 2403); (2417, 2417); (2433, 2433); (2492, 2492);
   (2497, 2500); (2509, 2509); (2530, 2531); (2558, 2558); (2561, 2562);
   (2620, 2620); (2625, 2626); (2631, 2632); (2635, 2637); (2641, 2641);
   (2672, 2673); (2677, 2677); (2689, 2690); (2748, 2748); (2753, 2757);
   (2759, 2760); (2765, 2765); (2786, 2787); (2810, 2815); (2817, 2817);
   (2876, 2876); (2879, 2879); (2881, 2884); (2893, 2893); (2901, 2902);
   (2914, 2915); (2946, 2946); (3008, 3008); (3021, 3021); (3072, 3072);
   (3076, 3076); (3132, 3132); (3134, 3136); (3142, 3144); (3146, 3149);
   (3157, 3158); (3170, 3171); (3201, 3201); (3260, 3260); (3263, 3263);
   (3270, 3270); (3276, 3277); (3298, 3299); (3328, 3329); (3387, 3388);
   (3393, 3396); (3405, 3405); (3426, 3427); (3457, 3457); (3530, 3530);
   (3538, 3540); (3542, 3542); (3633, 3633); (3636, 3642); (3654, 3662);
   (3761, 3761); (3764, 3772); (3782, 3782); (3784, 3789); (3864, 3865);
   (3893, 3893); (3895, 3895); (3897, 3897); (3953, 3966); (3968, 3972);
   (3974, 3975); (3981, 3991); (3993, 4028); (4038, 4038); (4141, 4144);
   (4146, 4151); (4153, 4154); (4157, 4158); (4184, 4185); (4190, 4192);
   (4209, 4212); (4226, 4226); (4229, 4230); (4237, 4237); (4253, 4253);
   (4348, 4348); (4957, 4959); (5906, 5908); (5938, 5939); (5970, 5971);
   (6002, 6003); (6068, 6069); (6071, 6077); (6086, 6086); (6089, 6099);
   (6103, 6103); (6109, 6109); (6155, 6159); (6211, 6211); (6277, 6278);
   (6313, 6313); (6432, 6434); (6439, 6440); (6450, 6450); (6457, 6459);
   (6679, 6680); (6683, 6683); (6742, 6742); (6744, 6750); (6752, 6752);
   (6754, 6754); (6757, 6764); (6771, 6780); (6783, 6783); (6823, 6823);
   (6832, 6862); (6912, 6915); (6964, 6964); (6966, 6970); (6972, 6972);
   (6978, 6978); (7019, 7027); (7040, 7041); (7074, 7077); (7080, 7081);
   (7083, 7085); (7142, 7142); (7144, 7145); (7149, 7149); (7151, 7153);
   (7212, 7219); (7222, 7223); (7288, 7293); (7376, 7378); (7380, 7392);
   (7394, 7400); (7405, 7405); (7412, 7412); (7416, 7417); (7468, 7530);
   (7544, 7544); (7579, 7679); (8125, 8125); (8127, 8129); (8141, 8143);
   (8157, 8159); (8173, 8175); (8189, 8190); (8203, 8207); (8216, 8217);
   (8228, 8228); (8231, 8231); (8234, 8238); (8288, 8292); (8294, 8303);
   (8305, 8305); (8319, 8319); (8336, 8348); (8400, 8432); (11388, 11389);
   (11503, 11505); (11631, 11631); (11647, 11647); (11744, 11775); (11823, 11823);
   (12293, 12293); (12330, 12333); (12337, 12341); (12347, 12347); (12441, 12446);
   (12540, 12542); (40981, 40981); (42232, 42237); (42508, 42508); (42607, 42610);
   (42612, 42621); (42623, 42623); (42652, 42655); (42736, 42737); (42752, 42785);
   (42864, 42864); (42888, 42890); (42994, 42996); (43000, 43001); (43010, 43010);
   (43014, 43014); (43019, 43019); (43045, 43046); (43052, 43052); (43204, 43205);
   (43232, 43249); (43263, 43263); (43302, 43309); (43335, 43345); (43392, 43394);
   (43443, 43443); (43446, 43449); (43452, 43453); (43471, 43471); (43493, 43494);
   (43561, 43566); (43569, 43570); (43573, 43574); (43587, 43587); (43596, 43596);
   (43632, 43632); (43644, 43644); (43696, 43696); (43698, 43700); (43703, 43704);
   (43710, 43711); (43713, 43713); (43741, 43741); (43756, 43757); (43763, 43764);
   (43766, 43766); (43867, 43871); (43881, 43883); (44005, 44005); (44008, 44008);
   (44013, 44013); (64286, 64286); (64434, 64450); (65024, 65039); (65043, 65043);
   (65056, 65071); (65106, 65106); (65109, 65109); (65279, 65279); (65287, 65287);
   (65294, 65294); (65306, 65306); (65342, 65342); (65344, 65344); (65392, 65392);
   (65438, 65439); (65507, 65507); (65529, 65531); (66045, 66045); (66272, 66272);
   (66422, 66426); (67456, 67461); (67463, 67504); (67506, 67514); (68097, 68099);
   (68101, 68102); (68108, 68111); (68152, 68154); (68159, 68159); (68325, 68326);
   (68900, 68903); (69291, 69292); (69446, 69456); (69506, 69509); (69633, 69633);
   (69688, 69702); (69744, 69744); (69747, 69748); (69759, 69761); (69811, 69814);
   (69817, 69818); (69821, 69821); (69826, 69826); (69837, 69837); (69888, 69890);
   (69927, 69931); (69933, 69940); (70003, 70003); (70016, 70017); (70070, 70078);
   (70089, 70092); (70095, 70095); (70191, 70193); (70196, 70196); (70198, 70199);
   (70206, 70206); (70367, 70367); (70371, 70378); (70400, 70401); (70459, 70460);
   (70464, 70464); (70502, 70508); (70512, 70516); (70712, 70719); (70722, 70724);
   (70726, 70726); (70750, 70750); (70835, 70840); (70842, 70842); (70847, 70848);
   (70850, 70851); (71090, 71093); (71100, 71101); (71103, 71104); (71132, 71133);
   (71219, 71226); (71229, 71229); (71231, 71232); (71339, 71339); (71341, 71341);
   (71344, 71349); (71351, 71351); (71453, 71455); (71458, 71461); (71463, 71467);
   (71727, 71735); (71737, 71738); (71995, 71996); (71998, 71998); (72003, 72003);
   (72148, 72151); (72154, 72155); (72160, 72160); (72193, 72202); (72243, 72248);
   (72251, 72254); (72263, 72263); (72273, 72278); (72281, 72283); (72330, 72342);
   (72344, 72345); (72752, 72758); (72760, 72765); (72767, 72767); (72850, 72871);
   (72874, 72880); (72882, 72883); (72885, 72886); (73009, 73014); (73018, 73018);
   (73020, 73021); (73023, 73029); (73031, 73031); (73104, 73105); (73109, 73109);
   (73111, 73111); (73459, 73460); (78896, 78904); (92912, 92916); (92976, 92982);
   (92992, 92995); (94031, 94031); (94095, 94111); (94176, 94177); (94179, 94180);
   (110576, 110579); (110581, 110587); (110589, 110590); (113821, 113822); (113824, 113827);
   (118528, 118573); (118576, 118598); (119143, 119145); (119155, 119170); (119173, 119179);
   (119210, 119213); (119362, 119364); (121344, 121398); (121403, 121452); (121461, 121461);
   (121476, 121476); (121499, 121503); (121505, 121519); (122880, 122886); (122888, 122904);
   (122907, 122913); (122915, 122916); (122918, 122922); (123184, 123197); (123566, 123566);
   (123628, 123631); (125136, 125142); (125252, 125259); (127995, 127999); (917505, 917505);
   (917536, 917631); (917760, 917999)].

Definition CASED : list (N * N) :=
  [(65, 90); (97, 122); (170, 170); (181, 181); (186, 186);
   (192, 214); (216, 246); (248, 442); (444, 447); (452, 659);
   (661, 687); (880, 883); (886, 887); (891, 893); (895, 895);
   (902, 902); (904, 906); (908, 908); (910, 929); (931, 1013);
   (1015, 1153); (1162, 1327); (1329, 1366); (1376, 1416); (4256, 4293);
   (4295, 4295); (4301, 4301); (4304, 4346); (4349, 4351); (5024, 5109);
   (5112, 5117); (7296, 7304); (7312, 7354); (7357, 7359); (7424, 7467);
   (7531, 7543); (7545, 7578); (7680, 7957); (7960, 7965); (7968, 8005);
   (8008, 8013); (8016, 8023); (8025, 8025); (8027, 8027); (8029, 8029);
   (8031, 8061); (8064, 8116); (8118, 8124); (8126, 8126); (8130, 8132);
   (8134, 8140); (8144, 8147); (8150, 8155); (8160, 8172); (8178, 8180);
   (8182, 8188); (8450, 8450); (8455, 8455); (8458, 8467); (8469, 8469);
   (8473, 8477); (8484, 8484); (8486, 8486); (8488, 8488); (8490, 8493);
   (8495, 8500); (8505, 8505); (8508, 8511); (8517, 8521); (8526, 8526);
   (8544, 8575); (8579, 8580); (9398, 9449); (11264, 11387); (11390, 11492);
   (11499, 11502); (11506, 11507); (11520, 11557); (11559, 11559); (11565, 11565);
   (42560, 42605); (42624, 42651); (42786, 42863); (42865, 42887); (42891, 42894);
   (42896, 42954); (42960, 42961); (42963, 42963); (42965, 42969); (42997, 42998);
   (43002, 43002); (43824, 43866); (43872, 43880); (43888, 43967); (64256, 64262);
   (64275, 64279); (65313, 65338); (65345, 65370); (66560, 66639); (66736, 66771);
   (66776, 66811); (66928, 66938); (66940, 66954); (66956, 66962); (66964, 66965);
   (66967, 66977); (66979, 66993); (66995, 67001); (67003, 67004); (68736, 68786);
   (68800, 68850); (71840, 71903); (93760, 93823); (119808, 119892); (119894, 119964);
   (119966, 119967); (119970, 119970); (119973, 119974); (119977, 119980); (119982, 119993);
   (119995, 119995); (119997, 120003); (120005, 120069); (120071, 120074); (120077, 120084);
   (120086, 120092); (120094, 120121); (120123, 120126); (120128, 120132); (120134, 120134);
   (120138, 120144); (120146, 120485); (120488, 120512); (120514, 120538); (120540, 120570);
   (120572, 120596); (120598, 120628); (120630, 120654); (120656, 120686); (120688, 120712);
   (120714, 120744); (120746, 120770); (120772, 120779); (122624, 122633); (122635, 122654);
   (125184, 125251); (127280, 127305); (127312, 127337); (127344, 127369)].

Definition in_ranges (table : list (N * N)) (c : N) : bool :=
  existsb (fun r => (fst r <=? c) && (c <=? snd r)) table.

(** [Case_Ignorable]. *)
Definition is_case_ignorable (c : N) : bool := in_ranges CASE_IGNORABLE c.

(** [Cased], as the final-sigma rule consults it: on characters that are
    not case-ignorable. *)
Definition is_cased (c : N) : bool := in_ranges CASED c.

Definition hit (entry : N * N * N * N) (c : N) : option N :=
  let '(first, last, step, target) := entry in
  if (first <=? c) && (c <=? last) && ((c - first) mod step =? 0)
  then Some (target + (c - first)) else None.

Fixpoint lookup (table : list (N * N * N * N)) (c : N) : option N :=
  match table with
  | [] => None
  | entry :: table' =>
      match hit entry c with
      | Some d => Some d
      | None => lookup table' c
      end
  end.

(** The simple lower case of a character (what [re] compares under
    [re.IGNORECASE]). *)
Definition tolower (c : N) : N :=
  match lookup LOWERCASE c with
  | Some d => d
  | None => c
  end.

(** The full lower case of a character: U+0130 alone gives two characters. *)
Definition tolower_full (c : N) : list N :=
  if c =? 304 then [105; 775] else [tolower c].

(** *** [str.lower] *)

Fixpoint skip_ignorable (l : list N) : option N :=
  match l with
  | [] => None
  | c :: l' => if is_case_ignorable c then skip_ignorable l' else Some c
  end.

(** U+03A3 is a final sigma when a cased character comes before it and
    none comes after it, case-ignorable characters skipped on both sides.
    [before] holds the characters before it, the nearest first. *)
Definition final_sigma (before after : list N) : bool :=
  match skip_ignorable before with
  | Some c => is_cased c
  | None => false
  end
  && match skip_ignorable after with
     | Some c => negb (is_cased c)
     | None => true
     end.

Fixpoint lower_from (before l : list N) : list N :=
  match l with
  | [] => []
  | c :: l' =>
      (if c =? 931
       then [if final_sigma before l' then 962 else 963]
       else tolower_full c)
      ++ lower_from (c :: before) l'
  end.

Definition lower_points (l : list N) : list N := lower_from [] l.

End Unicode.

(* ================================================================== *)
(** ** Python primitives used by the package *)

Module Py.

(** [s.lower()]: every character gives its full lower case, and a capital
    sigma gives the final or the medial small sigma by its context. *)
Definition lower (s : string) : string :=
  Unicode.encode (Unicode.lower_points (Unicode.decode s)).
#[global] Arguments lower : simpl never.

(** [s.startswith(p)]. *)
Fixpoint startswith (p s : string) : bool :=
  match p, s with
  | EmptyString, _ => true
  | String a p', String b s' => Ascii.eqb a b && startswith p' s'
  | String _ _, EmptyString => false
  end.

(** [needle in hay] on strings. *)
Fixpoint contains (needle hay : string) : bool :=
  startswith needle hay
  || match hay with
     | EmptyString => false
     | String _ hay' => contains needle hay'
     end.

(** The string made of one double quote. *)
Definition dquote : string := String (ascii_of_nat 34) EmptyString.

(** Truth value of a string: [if s]. *)
Definition truthy (s : string) : bool :=
  match s with EmptyString => false | _ => true end.

(** [a or b] on strings. *)
Definition str_or (a b : string) : string := if truthy a then a else b.

(** [str(n)] / [f"{n}"] for an int. *)
Definition str_of_int (z : Z) : string := NilZero.string_of_int (Z.to_int z).

(** Lower-case hexadecimal digit of a value below 16. *)
Definition hex_digit (d : N) : ascii :=
  if (d <? 10)%N then ascii_of_N (48 + d) else ascii_of_N (87 + d).

(** Hexadecimal digits of [n], most significant first, prepended to [acc]. *)
Fixpoint hex_aux (fuel : nat) (n : N) (acc : string) : string :=
  match fuel with
  | O => acc
  | S fuel' =>
      let acc' := String (hex_digit (n mod 16)) acc in
      if (n / 16 =? 0)%N then acc' else hex_aux fuel' (n / 16) acc'
  end.

(** [format(n, "x")] for [n >= 0]. *)
Definition hex (n : N) : string :=
  hex_aux (S (N.to_nat (N.log2 n))) n EmptyString.

Fixpoint zeros (k : nat) : string :=
  match k with O => EmptyString | S k' => String "0" (zeros k') end.

(** [format(n, "0<width>x")] for [n >= 0]: zero padding on the left up to
    [width], never truncating. *)
Definition format_0x (width : nat) (n : N) : string :=
  let digits := hex n in
  zeros (width - String.length digits) ++ digits.

(** [template % args] for a template whose only directives are [%s],
    given at least as many arguments as directives. *)
Fixpoint percent_format (template : string) (args : list string) : string :=
  match template with
  | String "%" (String "s" rest) =>
      match args with
      | a :: args' => a ++ percent_format rest args'
      | [] => String "%" (String "s" (percent_format rest []))
      end
  | String c rest => String c (percent_format rest args)
  | EmptyString => EmptyString
  end.

(** Exceptions. [exc_is_exception] tells whether the class derives from
    [Exception] (what [except Exception] catches) or only from
    [BaseException] (task cancellation, keyboard interrupt, exit). *)
Record exn : Type := mk_exn {
  exc_class : string;
  exc_is_exception : bool;
  exc_message : string
}.

(** [str(e)]. *)
Definition str_exn (e : exn) : string := exc_message e.

Definition AssertionError (msg : string) : exn := mk_exn "AssertionError" true msg.
Definition AttributeError (msg : string) : exn := mk_exn "AttributeError" true msg.
Definition KeyError (key : string) : exn := mk_exn "KeyError" true ("'" ++ key ++ "'").

(** Outcome of a call: a value or a raised exception. *)
Inductive result (A : Type) : Type :=
| Ok (a : A)
| Raise (e : exn).
Arguments Ok {A} a.
Arguments Raise {A} e.

(** A [dict] with string keys: insertion ordered, assignment to a key that
    is present replaces its value in place. *)
Definition dict (V : Type) : Type := list (string * V).

Fixpoint dict_set {V} (k : string) (v : V) (d : dict V) : dict V :=
  match d with
  | [] => [(k, v)]
  | (k', v') :: d' =>
      if String.eqb k' k then (k, v) :: d' else (k', v') :: dict_set k v d'
  end.

Fixpoint dict_get {V} (k : string) (d : dict V) : option V :=
  match d with
  | [] => None
  | (k', v') :: d' => if String.eqb k' k then Some v' else dict_get k d'
  end.

(** [d.update(e)]. *)
Definition dict_update {V} (d e : dict V) : dict V :=
  fold_left (fun acc kv => dict_set (fst kv) (snd kv) acc) e d.

End Py.

Import Py.

(* ================================================================== *)
(** ** sensitive.py *)

Module Sensitive.

(** The compiled pattern [(password|passwd|card|cvv|ssn|credit|secret|token)]
    with [re.IGNORECASE]: an alternation of literals. *)
Definition _SENSITIVE_PATTERNS : list string :=
  ["password"; "passwd"; "card"; "cvv"; "ssn"; "credit"; "secret"; "token"].

Definition REDACTED : string := "[REDACTED]".

(** The characters a lower-case letter of a pattern accepts besides those
    it is the lower case of ([re._casefix._EXTRA_CASES], the entries of the
    letters that occur in the pattern): the dotless i for [i], the long s
    for [s]. *)
Definition extra_cases (lo : N) : list N :=
  if (lo =? 105)%N then [305%N]
  else if (lo =? 115)%N then [383%N]
  else [].

(** One character of the subject against one character of the pattern
    under [re.IGNORECASE]: the engine lower-cases the subject character and
    looks it up among the lower-cased pattern character and its extra
    cases. *)
Definition char_matches (p c : N) : bool :=
  let lo := Unicode.tolower p in
  existsb (N.eqb (Unicode.tolower c)) (lo :: extra_cases lo).

(** A literal matched at the start of the subject. *)
Fixpoint match_literal_ignorecase (lit s : list N) : bool :=
  match lit, s with
  | [], _ => true
  | p :: lit', c :: s' => char_matches p c && match_literal_ignorecase lit' s'
  | _ :: _, [] => false
  end.

(** The alternation tried at the start of [s], branches in order. *)
Definition match_alternation (alts : list (list N)) (s : list N) : bool :=
  existsb (fun lit => match_literal_ignorecase lit s) alts.

(** [pattern.search(s)] as a truth value: the alternation tried at every
    position from left to right. *)
Fixpoint re_search (alts : list (list N)) (s : list N) : bool :=
  match_alternation alts s
  || match s with
     | [] => false
     | _ :: s' => re_search alts s'
     end.

Definition is_sensitive_selector (selector : string) : bool :=
  re_search (map Unicode.decode _SENSITIVE_PATTERNS) (Unicode.decode selector).
#[global] Arguments is_sensitive_selector : simpl never.

Definition redact_if_needed (value selector : string) (sensitive : bool) : string :=
  if sensitive || is_sensitive_selector selector then REDACTED else value.

(** The redaction rule in the words of the specification. A character
    [c] is the small letter [p] up to case when it is the letter, its
    capital, or one of the letters that Unicode case-maps onto them: the
    long s (U+017F) for s, the Kelvin sign (U+212A) for k, the dotted
    capital I (U+0130) and the dotless i (U+0131) for i. *)
Definition same_letter (p c : N) : Prop :=
  (c = p \/ c + 32 = p
   \/ (p = 115 /\ c = 383) \/ (p = 107 /\ c = 8490)
   \/ (p = 105 /\ (c = 304 \/ c = 305)))%N.

(** [w] is a case-insensitive substring of [s]: some run of characters of
    [s] spells [w] letter by letter up to case. *)
Definition ci_substring (w s : string) : Prop :=
  exists pre mid post,
    Unicode.decode s = pre ++ mid ++ post
    /\ Forall2 same_letter (Unicode.decode w) mid.

Definition should_redact (selector : string) (explicit_flag : bool) : Prop :=
  explicit_flag = true
  \/ exists w,
       In w ["password"; "passwd"; "card"; "cvv"; "ssn"; "credit"; "secret"; "token"]
       /\ ci_substring w selector.

End Sensitive.

(* ================================================================== *)
(** ** The telemetry interface (OpenTelemetry API as the package uses it) *)

Module Telemetry.

(** Attribute values: strings, ints, bools and the numbers of the
    navigation timing entry, which are passed through untouched. *)
Inductive attr_value : Type :=
| AStr (s : string)
| AInt (z : Z)
| ABool (b : bool)
| ANum (q : QArith_base.Q).

Inductive status_code : Type := UNSET | OK | ERROR.

(** The operations the package performs on a span after creating it.
    [ScopeExit exc] is the exit of [with tracer.start_as_current_span(...)],
    which ends the span on every path; [End] is an explicit [span.end()]. *)
Inductive span_call : Type :=
| SetAttribute (key : string) (value : attr_value)
| SetStatus (code : status_code) (description : option string)
| RecordException (e : exn)
| End
| ScopeExit (exc : option exn).

Record span_context : Type := mk_span_context {
  trace_id : N;
  span_id : N
}.

(** A trace context: the span it carries, if any. *)
Definition context : Type := option span_context.

Record span : Type := mk_span {
  span_name : string;
  span_parent : context;
  get_span_context : span_context;
  span_init_attributes : dict attr_value;
  span_calls : list span_call
}.

(** The tracer, reduced to its id generator: the ids handed out at the
    [k]-th span creation. *)
Record Tracer : Type := mk_tracer {
  generate_trace_id : nat -> N;
  generate_span_id : nat -> N
}.

Record Logger : Type := mk_logger { logger_name : string }.

Inductive log_level : Type := LOG_ERROR.

(** One call of a logging method: the template and its arguments, as a
    [LogRecord] keeps them. *)
Record log_record : Type := mk_log_record {
  log_logger : Logger;
  log_levelno : log_level;
  log_msg : string;
  log_args : list string
}.

(** [record.getMessage()]. *)
Definition getMessage (r : log_record) : string :=
  percent_format (log_msg r) (log_args r).

Definition call (c : span_call) (s : span) : span :=
  mk_span (span_name s) (span_parent s) (get_span_context s)
          (span_init_attributes s) (span_calls s ++ [c]).

Definition set_span_in_context (s : span) : context := Some (get_span_context s).

(** *** Views of a span *)

Definition apply_attribute (d : dict attr_value) (c : span_call) : dict attr_value :=
  match c with
  | SetAttribute k v => dict_set k v d
  | _ => d
  end.

(** The attributes of the span, creation-time ones first. *)
Definition attributes (s : span) : dict attr_value :=
  fold_left apply_attribute (span_calls s) (span_init_attributes s).

(** Every attribute recorded on the span in the order of recording: the
    creation-time ones, then one entry per [set_attribute] call. *)
Definition attribute_writes (s : span) : list (string * attr_value) :=
  span_init_attributes s
  ++ flat_map (fun c => match c with SetAttribute k v => [(k, v)] | _ => [] end)
                (span_calls s).

Definition status_calls (s : span) : list (status_code * option string) :=
  flat_map (fun c => match c with SetStatus c d => [(c, d)] | _ => [] end)
           (span_calls s).

(** The status last set by the package ([UNSET] when it set none). *)
Definition status (s : span) : status_code * option string :=
  last (status_calls s) (UNSET, None).

Definition recorded_exceptions (s : span) : list exn :=
  flat_map (fun c => match c with RecordException e => [e] | _ => [] end)
           (span_calls s).

(** How many times the span was ended. *)
Definition end_count (s : span) : nat :=
  List.length (filter (fun c => match c with End | ScopeExit _ => true | _ => false end)
                        (span_calls s)).

(** *** The span as it is exported *)

(** What leaving the block of [tracer.start_as_current_span] does to the
    span before it ends it ([opentelemetry.trace.use_span], with
    [record_exception] and [set_status_on_exception] left at [True]): an
    exception that derives from [Exception] is recorded and the status is
    set to ERROR with the description [<Class>: <message>]; a normal exit,
    and an exception outside [Exception], add nothing. *)
Definition scope_exit_calls (exc : option exn) : list span_call :=
  match exc with
  | Some e =>
      if exc_is_exception e
      then [RecordException e;
            SetStatus ERROR (Some (exc_class e ++ ": " ++ str_exn e)%string)]
      else []
  | None => []
  end.

(** The calls the span has received once every exit is written out. *)
Definition exported_calls (s : span) : list span_call :=
  flat_map (fun c => match c with
                     | ScopeExit exc => scope_exit_calls exc ++ [End]
                     | _ => [c]
                     end)
           (span_calls s).

(** [Span.set_status] of the SDK: a status that is OK stays, and UNSET is
    never set. *)
Definition set_status (st : status_code * option string) (c : span_call)
  : status_code * option string :=
  match c with
  | SetStatus code description =>
      match fst st, code with
      | OK, _ => st
      | _, UNSET => st
      | _, _ => (code, description)
      end
  | _ => st
  end.

(** The status the span is exported with. *)
Definition exported_status (s : span) : status_code * option string :=
  fold_left set_status (exported_calls s) (UNSET, None).

(** The exceptions the span is exported with, those the exit recorded
    included. *)
Definition exported_exceptions (s : span) : list exn :=
  flat_map (fun c => match c with RecordException e => [e] | _ => [] end)
           (exported_calls s).

End Telemetry.

Import Telemetry.

(* ================================================================== *)
(** ** The browser driver interface (Playwright as the package uses it) *)

Record Response : Type := mk_response { response_status : Z }.

(** The page is a state; every awaited driver call returns a value or raises
  and leaves a new page state. [page_url] is the [url] property. The
  launch is [async_playwright().start()], then
  [getattr(playwright, browser_type).launch(headless=...)] (which raises
  when Playwright has no such browser type, or cannot start it), then
  [browser.new_context(viewport={"width": ..., "height": ...})] and
  [context.new_page()]. *)
Class Driver (Page Element : Type) : Type := {
playwright_start : Page -> result unit * Page;
browser_launch : string -> bool -> Page -> result unit * Page;
browser_new_context : Z -> Z -> Page -> result unit * Page;
context_new_page : Page -> result unit * Page;
page_url : Page -> string;
page_goto : string -> string -> Page -> result (option Response) * Page;
page_evaluate : string -> Page -> result (option (dict attr_value)) * Page;
page_click : string -> Page -> result unit * Page;
page_fill : string -> string -> Page -> result unit * Page;
page_wait_for_selector : string -> string -> Z -> Page -> result Element * Page;
element_text_content : Element -> Page -> result (option string) * Page;
page_query_selector_all : string -> Page -> result (list Element) * Page;
browser_close : Page -> result unit * Page;
playwright_stop : Page -> result unit * Page
}.

(* ================================================================== *)
(** ** The world and the monad of effects *)

(** What the package acts on: the page, the object that owns the result
  callback ([Owner]: the suite object, or a recording stub in unit tests), the
  number of spans created so far, the finished spans in the order they
  ended, the log records emitted, and the number of telemetry flushes. *)
Record world (Page Owner : Type) : Type := mk_world {
w_page : Page;
w_owner : Owner;
w_spans_started : nat;
w_finished : list span;
w_logs : list log_record;
w_flushes : nat
}.
Arguments mk_world {Page Owner}.
Arguments w_page {Page Owner}.
Arguments w_owner {Page Owner}.
Arguments w_spans_started {Page Owner}.
Arguments w_finished {Page Owner}.
Arguments w_logs {Page Owner}.
Arguments w_flushes {Page Owner}.

Module Eff.

(** A computation over a state [St] that returns or raises. *)
Definition M (St A : Type) : Type := St -> result A * St.

Definition ret {St A} (a : A) : M St A := fun s => (Ok a, s).

Definition bind {St A B} (m : M St A) (k : A -> M St B) : M St B :=
  fun s =>
    match m s with
    | (Ok a, s') => k a s'
    | (Raise e, s') => (Raise e, s')
    end.

Definition raise {St A} (e : exn) : M St A := fun s => (Raise e, s).

Definition gets {St A} (f : St -> A) : M St A := fun s => (Ok (f s), s).

Definition modify {St} (f : St -> St) : M St unit := fun s => (Ok tt, f s).

(** [try: body / except Exception: pass]. *)
Definition try_except_Exception_pass {St} (body : M St unit) : M St unit :=
  fun s =>
    match body s with
    | (Ok tt, s') => (Ok tt, s')
    | (Raise e, s') =>
        if exc_is_exception e then (Ok tt, s') else (Raise e, s')
    end.

(** The exception a result carries, as [__exit__] receives it. *)
Definition exc_val {A} (r : result A) : option exn :=
  match r with Ok _ => None | Raise e => Some e end.

End Eff.

Import Eff.

Declare Scope eff_scope.
Delimit Scope eff_scope with eff.
Notation "x <- m ;; k" := (bind m (fun x => k))
(at level 61, m at next level, right associativity) : eff_scope.
Notation "m ;; k" := (bind m (fun _ => k))
(at level 61, right associativity) : eff_scope.
Local Open Scope eff_scope.

Section WorldOps.
Context {Page Owner : Type}.

Definition set_page (p : Page) (w : world Page Owner) : world Page Owner :=
  mk_world p (w_owner w) (w_spans_started w) (w_finished w) (w_logs w) (w_flushes w).

Definition set_owner (o : Owner) (w : world Page Owner) : world Page Owner :=
  mk_world (w_page w) o (w_spans_started w) (w_finished w) (w_logs w) (w_flushes w).

(** A span that ends reaches the exporter. *)
Definition export (s : span) (w : world Page Owner) : world Page Owner :=
  mk_world (w_page w) (w_owner w) (w_spans_started w) (w_finished w ++ [s])
           (w_logs w) (w_flushes w).

Definition emit_log (r : log_record) (w : world Page Owner) : world Page Owner :=
  mk_world (w_page w) (w_owner w) (w_spans_started w) (w_finished w)
           (w_logs w ++ [r]) (w_flushes w).

Definition force_flush : M (world Page Owner) unit :=
  modify (fun w => mk_world (w_page w) (w_owner w) (w_spans_started w)
                              (w_finished w) (w_logs w) (S (w_flushes w))).

(** [tracer.start_span(name, context=ctx, attributes=attrs)]: a child of
    the span in [ctx] shares its trace id, a root span gets a new one. *)
Definition start_span (tracer : Tracer) (name : string) (ctx : context)
           (attrs : dict attr_value) : M (world Page Owner) span :=
  fun w =>
    let k := w_spans_started w in
    let tid := match ctx with
                 | Some parent => trace_id parent
                 | None => generate_trace_id tracer k
                 end in
    (Ok (mk_span name ctx (mk_span_context tid (generate_span_id tracer k)) attrs []),
     mk_world (w_page w) (w_owner w) (S k) (w_finished w) (w_logs w) (w_flushes w)).

(** A driver call on the page of the world. *)
Definition on_page {A} (op : Page -> result A * Page) : M (world Page Owner) A :=
  fun w => let '(r, p) := op (w_page w) in (r, set_page p w).

End WorldOps.

(* ================================================================== *)
(** ** spans.py *)

Module Spans.
Section Spans.
Context {Page Owner : Type}.

(** [get_git_info()]: [sha] and [branch] are the outputs of the two
    [git rev-parse] calls, [None] when the call raised. *)
Definition get_git_info (sha branch : option string) : dict attr_value :=
  let info := [] in
  let info := match sha with
                | Some v => dict_set "vcs.commit.sha" (AStr v) info
                | None => info
                end in
  let info := match branch with
                | Some v => dict_set "vcs.branch" (AStr v) info
                | None => info
                end in
  info.

(** Truth value of the [selector] argument ([None] or a string). *)
Definition selector_given (selector : option string) : option string :=
  match selector with
  | Some s => if truthy s then Some s else None
  | None => None
  end.

Definition action_name (action_type : string) (selector : option string) : string :=
  match selector_given selector with
  | Some s => (action_type ++ "(" ++ s ++ ")")%string
  | None => action_type
  end.

Definition action_attrs (action_type : string) (selector : option string)
           (extra_attrs : dict attr_value) : dict attr_value :=
  let attrs := [("test.action.type", AStr action_type)] in
  let attrs := match selector_given selector with
                 | Some s => dict_set "test.action.selector" (AStr s) attrs
                 | None => attrs
                 end in
  dict_update attrs extra_attrs.

(** [action_span(tracer, parent_ctx, action_type, selector, **extra_attrs)]:
    the context manager [tracer.start_as_current_span(name, context,
    attributes)]; entering it creates the span. *)
Definition action_span (tracer : Tracer) (parent_ctx : context)
           (action_type : string) (selector : option string)
           (extra_attrs : dict attr_value) : M (world Page Owner) span :=
  start_span tracer (action_name action_type selector) parent_ctx
             (action_attrs action_type selector extra_attrs).

(** The [with ... as span:] statement: the body runs with the span at
    hand; leaving the block, normally or by an exception, ends the span
    and lets the exception through. The exit is handed the exception of
    the body; what it records on the span before ending it is
    [Telemetry.scope_exit_calls]. *)
Definition with_span {A} (cm : M (world Page Owner) span)
           (body : M (span * world Page Owner) A) : M (world Page Owner) A :=
  fun w =>
    match cm w with
    | (Raise e, w1) => (Raise e, w1)
    | (Ok sp, w1) =>
        let '(r, st) := body (sp, w1) in
        (r, export (call (ScopeExit (exc_val r)) (fst st)) (snd st))
    end.

(** A call on the span of the enclosing [with]. *)
Definition on_span (c : span_call) : M (span * world Page Owner) unit :=
  fun st => (Ok tt, (call c (fst st), snd st)).

(** A computation on the world, run next to an object [X] it leaves alone
    (the span of a [with] body, the test case of a test body). *)
Definition in_world {X A} (m : M (world Page Owner) A) : M (X * world Page Owner) A :=
  fun st => let '(r, w) := m (snd st) in (r, (fst st, w)).

End Spans.
End Spans.

Import Spans.

(* ================================================================== *)
(** ** actions.py *)

Module Actions.

(** The script [navigate] evaluates in the page. *)
Definition NAVIGATION_TIMING_SCRIPT : string :=
"() => {
                    const entries = performance.getEntriesByType('navigation');
                    if (entries.length === 0) return null;
                    const nav = entries[0];
                    return {
                        domContentLoaded: nav.domContentLoadedEventEnd - nav.startTime,
                        loadEvent: nav.loadEventEnd - nav.startTime,
                        transferSize: nav.transferSize || 0,
                        domInteractive: nav.domInteractive - nav.startTime,
                    };
                }".

(** The instrumentor: its tracer and parent context (the page is the page
    of the world). *)
Record ActionInstrumentor : Type := mk_instrumentor {
  _tracer : Tracer;
  _ctx : context
}.

Section Actions.
Context {Page Element Owner : Type} `{Driver Page Element}.

Local Abbreviation W := (world Page Owner).
Local Abbreviation B := (span * world Page Owner)%type.

(** [self._page.url], read when the statement runs. *)
Definition current_url : M B string := gets (fun st => page_url (w_page (snd st))).

Definition page_call {A} (op : Page -> result A * Page) : M B A :=
  in_world (on_page op).

(** [d[key]]. *)
Definition getitem (d : dict attr_value) (key : string) : M B attr_value :=
  match dict_get key d with
  | Some v => ret v
  | None => raise (KeyError key)
  end.

Definition set_page_url : M B unit :=
  u <- current_url ;;
  on_span (SetAttribute "test.action.page_url" (AStr u)).

Definition navigate (self : ActionInstrumentor) (url : string) : M W unit :=
  with_span
    (action_span (_tracer self) (_ctx self) "navigate" None
                   [("test.action.target_url", AStr url)])
    (set_page_url ;;
     response <- page_call (page_goto url "domcontentloaded") ;;
     match response with
     | Some r =>
         on_span (SetAttribute "test.navigation.response_status"
                                 (AInt (response_status r)))
     | None => ret tt
     end ;;
     try_except_Exception_pass
       (timing <- page_call (page_evaluate NAVIGATION_TIMING_SCRIPT) ;;
        match timing with
        | Some ((_ :: _) as t) =>
            v <- getitem t "domContentLoaded" ;;
            on_span (SetAttribute "test.navigation.dom_content_loaded_ms" v) ;;
            v <- getitem t "loadEvent" ;;
            on_span (SetAttribute "test.navigation.load_event_ms" v) ;;
            v <- getitem t "transferSize" ;;
            on_span (SetAttribute "test.navigation.transfer_size_bytes" v) ;;
            v <- getitem t "domInteractive" ;;
            on_span (SetAttribute "test.navigation.dom_interactive_ms" v)
        | Some [] | None => ret tt
        end) ;;
     on_span (SetStatus OK None)).

Definition click (self : ActionInstrumentor) (selector : string) : M W unit :=
  with_span
    (action_span (_tracer self) (_ctx self) "click" (Some selector) [])
    (set_page_url ;;
     page_call (page_click selector) ;;
     on_span (SetStatus OK None)).

Definition fill (self : ActionInstrumentor) (selector value : string)
           (sensitive : bool) : M W unit :=
  with_span
    (action_span (_tracer self) (_ctx self) "fill" (Some selector) [])
    (set_page_url ;;
     let redacted := Sensitive.redact_if_needed value selector sensitive in
     on_span (SetAttribute "test.action.input_value" (AStr redacted)) ;;
     page_call (page_fill selector value) ;;
     on_span (SetStatus OK None)).

Definition assert_visible (self : ActionInstrumentor) (selector : string) : M W unit :=
  with_span
    (action_span (_tracer self) (_ctx self) "assert_visible" (Some selector) [])
    (set_page_url ;;
     page_call (page_wait_for_selector selector "visible" 5000) ;;
     on_span (SetAttribute "test.action.result" (AStr "success")) ;;
     on_span (SetStatus OK None)).

Definition assert_text_message (expected text : string) : string :=
  ("Expected '" ++ expected ++ "' in '" ++ text ++ "'")%string.

Definition assert_text (self : ActionInstrumentor) (selector expected : string)
  : M W unit :=
  with_span
    (action_span (_tracer self) (_ctx self) "assert_text" (Some selector) [])
    (set_page_url ;;
     element <- page_call (page_wait_for_selector selector "visible" 5000) ;;
     text <- page_call (element_text_content element) ;;
     match text with
     | None => raise (AttributeError "'NoneType' object has no attribute 'lower'")
     | Some text =>
         if contains (lower expected) (lower text) then
           on_span (SetAttribute "test.action.result" (AStr "success")) ;;
           on_span (SetStatus OK None)
         else
           on_span (SetAttribute "test.action.result" (AStr "failed")) ;;
           on_span (SetStatus ERROR (Some (assert_text_message expected text))) ;;
           raise (AssertionError (assert_text_message expected text))
     end).

Definition assert_count_status (expected_count : Z) (actual : nat) : string :=
  ("Expected " ++ str_of_int expected_count ++ " elements, got "
   ++ str_of_int (Z.of_nat actual))%string.

Definition assert_count_message (selector : string) (expected_count : Z)
           (actual : nat) : string :=
  ("Expected " ++ str_of_int expected_count ++ " elements matching '"
   ++ selector ++ "', got " ++ str_of_int (Z.of_nat actual))%string.

Definition assert_count (self : ActionInstrumentor) (selector : string)
           (expected_count : Z) : M W unit :=
  with_span
    (action_span (_tracer self) (_ctx self) "assert_count" (Some selector) [])
    (set_page_url ;;
     elements <- page_call (page_query_selector_all selector) ;;
     let actual := List.length elements in
     on_span (SetAttribute "test.action.result"
                  (AStr (if (Z.of_nat actual =? expected_count)%Z
                         then "success" else "failed"))) ;;
     if (Z.of_nat actual =? expected_count)%Z then
       on_span (SetStatus OK None)
     else
       on_span (SetStatus ERROR (Some (assert_count_status expected_count actual))) ;;
       raise (AssertionError (assert_count_message selector expected_count actual))).

Definition assert_url (self : ActionInstrumentor) (pattern : string) : M W unit :=
  with_span
    (action_span (_tracer self) (_ctx self) "assert_url" None [])
    (set_page_url ;;
     u <- current_url ;;
     if contains pattern u then
       on_span (SetAttribute "test.action.result" (AStr "success")) ;;
       on_span (SetStatus OK None)
     else
       on_span (SetAttribute "test.action.result" (AStr "failed")) ;;
       u1 <- current_url ;;
       on_span (SetStatus ERROR
                    (Some ("Expected '" ++ pattern ++ "' in URL '" ++ u1 ++ "'")%string)) ;;
       u2 <- current_url ;;
       raise (AssertionError ("Expected '" ++ pattern ++ "' in URL, got " ++ u2)%string)).

End Actions.
End Actions.

Import Actions.

(* ================================================================== *)
(** ** config.py *)

Module Config.

Record SmokeshowConfig : Type := mk_config {
  service_name : string;
  suite_name : string;
  base_url : string;
  otlp_endpoint : string;
  otlp_insecure : bool;
  environment : string;
  trigger : string;
  browser_type : string;
  headless : bool;
  viewport_width : Z;
  viewport_height : Z
}.

(** The keyword arguments of a constructor call: [None] for an argument the
    caller leaves out. *)
Record kwargs : Type := mk_kwargs {
  kw_service_name : option string;
  kw_suite_name : option string;
  kw_base_url : option string;
  kw_otlp_endpoint : option string;
  kw_otlp_insecure : option bool;
  kw_environment : option string;
  kw_trigger : option string;
  kw_browser_type : option string;
  kw_headless : option bool;
  kw_viewport_width : option Z;
  kw_viewport_height : option Z
}.

Definition no_kwargs : kwargs :=
  mk_kwargs None None None None None None None None None None None.

(** [os.environ]. *)
Definition environ : Type := dict string.

(** [os.environ.get(key, default)]. *)
Definition environ_get (env : environ) (key default : string) : string :=
  match dict_get key env with
  | Some v => v
  | None => default
  end.

Definition arg {A} (given : option A) (default : A) : A :=
  match given with
  | Some a => a
  | None => default
  end.

(** The generated [__init__]: each field takes the argument or the
    declared default. *)
Definition fields_of_kwargs (kw : kwargs) : SmokeshowConfig :=
  mk_config (arg (kw_service_name kw) "")
            (arg (kw_suite_name kw) "")
            (arg (kw_base_url kw) "")
            (arg (kw_otlp_endpoint kw) "")
            (arg (kw_otlp_insecure kw) true)
            (arg (kw_environment kw) "")
            (arg (kw_trigger kw) "")
            (arg (kw_browser_type kw) "")
            (arg (kw_headless kw) true)
            (arg (kw_viewport_width kw) 1280%Z)
            (arg (kw_viewport_height kw) 720%Z).

(** [value in ("false", "0", "no")]. *)
Definition is_false_word (v : string) : bool :=
  existsb (String.eqb v) ["false"; "0"; "no"].

(** [__post_init__]: one line per [if] of the source; the other fields are
    left as they are. *)
Definition __post_init__ (env : environ) (self : SmokeshowConfig) : SmokeshowConfig :=
  mk_config
    (if negb (truthy (service_name self))
     then environ_get env "OTEL_SERVICE_NAME" "playwright-otel"
     else service_name self)
    (suite_name self)
    (base_url self)
    (if negb (truthy (otlp_endpoint self))
     then environ_get env "OTEL_EXPORTER_OTLP_ENDPOINT" "http://localhost:4317"
     else otlp_endpoint self)
    (otlp_insecure self)
    (if negb (truthy (environment self))
     then environ_get env "PLAYWRIGHT_OTEL_ENVIRONMENT" "development"
     else environment self)
    (if negb (truthy (trigger self))
     then environ_get env "PLAYWRIGHT_OTEL_TRIGGER" "manual"
     else trigger self)
    (if negb (truthy (browser_type self))
     then environ_get env "PLAYWRIGHT_OTEL_BROWSER" "chromium"
     else browser_type self)
    (match dict_get "PLAYWRIGHT_OTEL_HEADLESS" env with
     | Some headless_env =>
         if headless self
         then negb (is_false_word (lower headless_env))
         else headless self
     | None => headless self
     end)
    (viewport_width self)
    (viewport_height self).

(** [SmokeshowConfig(...)] called with the arguments [kw] in the
    environment [env]. *)
Definition SmokeshowConfig_new (env : environ) (kw : kwargs) : SmokeshowConfig :=
  __post_init__ env (fields_of_kwargs kw).

(** [SmokeshowConfig.from_env] called with [overrides]. *)
Definition from_env (env : environ) (overrides : kwargs) : SmokeshowConfig :=
  SmokeshowConfig_new env overrides.

(** What [InstrumentedBrowser.__init__] does with its own keyword
    arguments: it fills in its defaults and passes every option to
    [SmokeshowConfig] by keyword. *)
Definition browser_kwargs (kw : kwargs) : kwargs :=
  mk_kwargs (Some (arg (kw_service_name kw) ""))
            (Some (arg (kw_suite_name kw) ""))
            (Some (arg (kw_base_url kw) ""))
            (Some (arg (kw_otlp_endpoint kw) ""))
            (Some (arg (kw_otlp_insecure kw) true))
            (Some (arg (kw_environment kw) ""))
            (Some (arg (kw_trigger kw) ""))
            (Some (arg (kw_browser_type kw) ""))
            (Some (arg (kw_headless kw) true))
            (Some (arg (kw_viewport_width kw) 1280%Z))
            (Some (arg (kw_viewport_height kw) 720%Z)).

End Config.

(* ================================================================== *)
(** ** test_case.py *)

Module TestCase.

(** The object: the constructor arguments and the three fields
    [__aenter__] fills in. The page is the page of the world;
    [_record_result] acts on the owner of the callback. *)
Record TestCase (Owner : Type) : Type := mk_test_case {
  _tracer : option Tracer;
  _suite_ctx : context;
  _record_result : bool -> Owner -> Owner;
  _logger : option Logger;
  _suite_name : string;
  _name : string;
  _case_id : string;
  _tags : string;
  _description : string;
  _case_span : option span;
  _case_ctx : context;
  _actions : option ActionInstrumentor
}.
Arguments mk_test_case {Owner}.
Arguments _tracer {Owner}.
Arguments _suite_ctx {Owner}.
Arguments _record_result {Owner}.
Arguments _logger {Owner}.
Arguments _suite_name {Owner}.
Arguments _name {Owner}.
Arguments _case_id {Owner}.
Arguments _tags {Owner}.
Arguments _description {Owner}.
Arguments _case_span {Owner}.
Arguments _case_ctx {Owner}.
Arguments _actions {Owner}.

(** The template of the failure log. The dash after the suite name is
    U+2014, kept here as its UTF-8 bytes. *)
Definition FAILURE_LOG_TEMPLATE : string :=
  "Test case FAILED: %s [%s] — %s (url=%s, trace_id=%s, span_id=%s)".

(** What Python raises for [None.attr]. *)
Definition none_has_no (attr : string) : exn :=
  AttributeError ("'NoneType' object has no attribute '" ++ attr ++ "'").

Section TestCase.
Context {Page Element Owner : Type} `{Driver Page Element}.

Local Abbreviation W := (world Page Owner).

(** [TestCase(tracer, suite_ctx, page, record_result_fn, *, logger, ...)]. *)
Definition __init__ (tracer : option Tracer) (suite_ctx : context)
           (record_result_fn : bool -> Owner -> Owner) (logger : option Logger)
           (suite_name name case_id tags description : string) : TestCase Owner :=
  mk_test_case tracer suite_ctx record_result_fn logger suite_name name case_id
               tags description None None None.

Definition with_case_span (self : TestCase Owner) (sp : span) : TestCase Owner :=
  mk_test_case (_tracer self) (_suite_ctx self) (_record_result self) (_logger self)
               (_suite_name self) (_name self) (_case_id self) (_tags self)
               (_description self) (Some sp) (_case_ctx self) (_actions self).

Definition case_span_name (name : string) : string :=
  ("test(" ++ dquote ++ name ++ dquote ++ ")")%string.

Definition enter_attrs (self : TestCase Owner) : dict attr_value :=
  let attrs := [("test.case.name", AStr (_name self))] in
  let attrs := if truthy (_case_id self)
               then dict_set "test.case.id" (AStr (_case_id self)) attrs else attrs in
  let attrs := if truthy (_tags self)
               then dict_set "test.case.tags" (AStr (_tags self)) attrs else attrs in
  let attrs := if truthy (_description self)
               then dict_set "test.case.description" (AStr (_description self)) attrs
               else attrs in
  attrs.

Definition __aenter__ (self : TestCase Owner) : M W (TestCase Owner) :=
  let attrs := enter_attrs self in
  match _tracer self with
  | None => raise (none_has_no "start_span")
  | Some tracer =>
      sp <- start_span tracer (case_span_name (_name self))
                       (_suite_ctx self) attrs ;;
      let case_ctx := set_span_in_context sp in
      ret (mk_test_case (_tracer self) (_suite_ctx self) (_record_result self)
                        (_logger self) (_suite_name self) (_name self)
                        (_case_id self) (_tags self) (_description self)
                        (Some sp) case_ctx
                        (Some (mk_instrumentor tracer case_ctx)))
  end.

(** [self._record_result(passed)]: the callback acts on its owner. *)
Definition record_result (self : TestCase Owner) (passed : bool) : M W unit :=
  modify (fun w => set_owner (_record_result self passed (w_owner w)) w).

Definition failure_log (self : TestCase Owner) (logger : Logger) (sp : span)
           (exc : exn) (url : string) : log_record :=
  let trace_id := format_0x 32 (trace_id (get_span_context sp)) in
  let span_id := format_0x 16 (span_id (get_span_context sp)) in
  let case_label := str_or (_case_id self) (_name self) in
  mk_log_record logger LOG_ERROR FAILURE_LOG_TEMPLATE
                [case_label; _suite_name self; str_exn exc; url; trace_id; span_id].

(** [__aexit__(exc_type, exc_val, exc_tb)]; the returned [false] tells
    [async with] not to suppress the exception. *)
Definition __aexit__ (self : TestCase Owner) (exc_val : option exn) : M W bool :=
  match _case_span self with
  | None => raise (none_has_no "set_attribute")
  | Some sp =>
      sp <- match exc_val with
            | Some exc =>
                let sp := call (SetAttribute "test.case.result" (AStr "failed")) sp in
                let sp := call (SetAttribute "test.case.failure_reason"
                                             (AStr (str_exn exc))) sp in
                url <- gets (fun w : W => page_url (w_page w)) ;;
                let sp := call (SetAttribute "test.case.failure_url" (AStr url)) sp in
                let sp := call (SetStatus ERROR (Some (str_exn exc))) sp in
                let sp := call (RecordException exc) sp in
                record_result self false ;;
                match _logger self with
                | Some logger =>
                    url <- gets (fun w : W => page_url (w_page w)) ;;
                    modify (emit_log (failure_log self logger sp exc url))
                | None => ret tt
                end ;;
                ret sp
            | None =>
                let sp := call (SetAttribute "test.case.result" (AStr "passed")) sp in
                let sp := call (SetStatus OK None) sp in
                record_result self true ;;
                ret sp
            end ;;
      modify (export (call End sp)) ;;
      ret false
  end.

(** *** Delegated actions *)

Definition delegate (self : TestCase Owner) (method : string)
           (f : ActionInstrumentor -> M W unit) : M W unit :=
  match _actions self with
  | Some actions => f actions
  | None => raise (none_has_no method)
  end.

Definition navigate (self : TestCase Owner) (url : string) : M W unit :=
  delegate self "navigate" (fun a => Actions.navigate a url).

Definition click (self : TestCase Owner) (selector : string) : M W unit :=
  delegate self "click" (fun a => Actions.click a selector).

Definition fill (self : TestCase Owner) (selector value : string) (sensitive : bool)
  : M W unit :=
  delegate self "fill" (fun a => Actions.fill a selector value sensitive).

Definition assert_visible (self : TestCase Owner) (selector : string) : M W unit :=
  delegate self "assert_visible" (fun a => Actions.assert_visible a selector).

Definition assert_text (self : TestCase Owner) (selector expected : string) : M W unit :=
  delegate self "assert_text" (fun a => Actions.assert_text a selector expected).

Definition assert_count (self : TestCase Owner) (selector : string) (expected_count : Z)
  : M W unit :=
  delegate self "assert_count" (fun a => Actions.assert_count a selector expected_count).

Definition assert_url (self : TestCase Owner) (pattern : string) : M W unit :=
  delegate self "assert_url" (fun a => Actions.assert_url a pattern).

(** *** Escape hatches *)

(** [set_attribute(key, value)]: a call on the case span the object holds. *)
Definition set_attribute (self : TestCase Owner) (key : string) (value : attr_value)
  : result (TestCase Owner) :=
  match _case_span self with
  | Some sp => Ok (with_case_span self (call (SetAttribute key value) sp))
  | None => Raise (none_has_no "set_attribute")
  end.

(** [action_span(action_type, selector, **extra_attrs)]. *)
Definition action_span (self : TestCase Owner) (action_type : string)
           (selector : option string) (extra_attrs : dict attr_value) : M W span :=
  match _tracer self with
  | Some tracer =>
      Spans.action_span tracer (_case_ctx self) action_type selector extra_attrs
  | None => raise (none_has_no "start_as_current_span")
  end.

End TestCase.
End TestCase.

(* ================================================================== *)
(** ** Test bodies: programs written against the test-case interface *)

Module Script.

(** One statement of a test body: the seven instrumented actions, the two
    escape hatches, and a [raise] of the test's own. A custom action span
    is used as [with test.action_span(...) as span:] with the given calls
    on the span and, possibly, an exception raised inside the block. *)
Inductive step : Type :=
| Navigate (url : string)
| Click (selector : string)
| Fill (selector value : string) (sensitive : bool)
| AssertVisible (selector : string)
| AssertText (selector expected : string)
| AssertCount (selector : string) (expected_count : Z)
| AssertUrl (pattern : string)
| CaseAttribute (key : string) (value : attr_value)
| CustomAction (action_type : string) (selector : option string)
               (extra_attrs : dict attr_value) (calls : list span_call)
               (exc : option exn)
| RaiseExn (e : exn).

Section Script.
Context {Page Element Owner : Type} `{Driver Page Element}.

Local Abbreviation W := (world Page Owner).
Local Abbreviation TC := (TestCase.TestCase Owner).

Definition custom_body (calls : list span_call) (exc : option exn) : M (span * W) unit :=
  fold_right (fun c k => on_span c ;; k)
             (match exc with Some e => raise e | None => ret tt end)
             calls.

(** A statement run on the test case [t] the body holds. *)
Definition run_step (s : step) : M (TC * W) unit :=
  fun st =>
    let t := fst st in
    match s with
    | Navigate url => in_world (TestCase.navigate t url) st
    | Click selector => in_world (TestCase.click t selector) st
    | Fill selector value sensitive =>
        in_world (TestCase.fill t selector value sensitive) st
    | AssertVisible selector => in_world (TestCase.assert_visible t selector) st
    | AssertText selector expected =>
        in_world (TestCase.assert_text t selector expected) st
    | AssertCount selector expected_count =>
        in_world (TestCase.assert_count t selector expected_count) st
    | AssertUrl pattern => in_world (TestCase.assert_url t pattern) st
    | CaseAttribute key value =>
        match TestCase.set_attribute t key value with
        | Ok t' => (Ok tt, (t', snd st))
        | Raise e => (Raise e, st)
        end
    | CustomAction action_type selector extra_attrs calls exc =>
        in_world (with_span (TestCase.action_span t action_type selector extra_attrs)
                            (custom_body calls exc)) st
    | RaiseExn e => (Raise e, st)
    end.

Fixpoint run_body (body : list step) : M (TC * W) unit :=
  match body with
  | [] => ret tt
  | s :: body' => run_step s ;; run_body body'
  end.

(** [async with tc as t: body]: [__aenter__], the body, then [__aexit__]
    with the exception of the body if it raised one; the exception goes on
    to the caller unless [__aexit__] returns true. *)
Definition async_with (tc : TC) (body : list step) : M W unit :=
  fun w =>
    match TestCase.__aenter__ tc w with
    | (Raise e, w1) => (Raise e, w1)
    | (Ok t, w1) =>
        let '(r, st) := run_body body (t, w1) in
        match TestCase.__aexit__ (fst st) (exc_val r) (snd st) with
        | (Raise e', w3) => (Raise e', w3)
        | (Ok suppress, w3) =>
            match r with
            | Ok _ => (Ok tt, w3)
            | Raise e => if suppress then (Ok tt, w3) else (Raise e, w3)
            end
        end
    end.

End Script.
End Script.

(* ================================================================== *)
(** ** browser.py *)

Module Browser.

Import Config.

(** The suite object: the fields the package itself reads and writes (the
    provider, Playwright and browser handles stay with their
    collaborators). [__init__] assigns all of them but [_logger], which
    exists from [__aenter__] on: [None] stands for the missing attribute. *)
Record InstrumentedBrowser : Type := mk_browser {
  _config : SmokeshowConfig;
  _tracer : option Tracer;
  _suite_span : option span;
  _suite_ctx : context;
  _logger : option Logger;
  _passed : Z;
  _failed : Z;
  _total : Z
}.

(** What [__aenter__] obtains from outside the package: the tracer of the
    provider it registers, [uuid.uuid4()], the current time in ISO format,
    and the outputs of the two git calls. *)
Record Ambient : Type := mk_ambient {
  amb_tracer : Tracer;
  amb_uuid4 : string;
  amb_now_isoformat : string;
  amb_git_sha : option string;
  amb_git_branch : option string
}.

(** A test case of a suite run as its caller writes it: the arguments of
    [browser.test_case], the body, and whether the caller catches the
    failure of the case and goes on ([try: ... except: pass]) or lets it
    end the suite body. *)
Record case_run : Type := mk_case_run {
  cr_name : string;
  cr_case_id : string;
  cr_tags : string;
  cr_description : string;
  cr_body : list Script.step;
  cr_caught : bool
}.

Definition __init__ (env : environ) (kw : kwargs) : InstrumentedBrowser :=
  mk_browser (SmokeshowConfig_new env (browser_kwargs kw))
             None None None None 0%Z 0%Z 0%Z.

(** [_record_result(passed)], the callback a test case calls on its close. *)
Definition _record_result (passed : bool) (self : InstrumentedBrowser)
  : InstrumentedBrowser :=
  if passed
  then mk_browser (_config self) (_tracer self) (_suite_span self) (_suite_ctx self)
                  (_logger self) (_passed self + 1)%Z (_failed self) (_total self)
  else mk_browser (_config self) (_tracer self) (_suite_span self) (_suite_ctx self)
                  (_logger self) (_passed self) (_failed self + 1)%Z (_total self).

Definition suite_result (passed failed : Z) : string :=
  if (failed =? 0)%Z then "passed"
  else if (passed =? 0)%Z then "failed"
  else "partial".

Section Browser.
Context {Page Element : Type} `{Driver Page Element}.

Local Abbreviation W := (world Page InstrumentedBrowser).

Definition suite_attrs (cfg : SmokeshowConfig) (amb : Ambient) : dict attr_value :=
  dict_update
    [("test.suite.name", AStr (suite_name cfg));
     ("test.suite.id", AStr (amb_uuid4 amb));
     ("test.run.trigger", AStr (trigger cfg));
     ("test.run.timestamp", AStr (amb_now_isoformat amb));
     ("test.target.base_url", AStr (base_url cfg));
     ("test.target.environment", AStr (environment cfg));
     ("test.browser.name", AStr (browser_type cfg));
     ("test.browser.headless", ABool (headless cfg));
     ("test.viewport.width", AInt (viewport_width cfg));
     ("test.viewport.height", AInt (viewport_height cfg))]
    (get_git_info (amb_git_sha amb) (amb_git_branch amb)).

(** [__aenter__]: the tracer and the logger are set up, the suite span is
    started as a root span and kept with its context; then Playwright is
    started, the browser launched, and a context and a page opened. An
    exception of one of these four calls leaves [__aenter__]. *)
Definition __aenter__ (amb : Ambient) : M W unit :=
  self <- gets w_owner ;;
  let cfg := _config self in
  let tracer := amb_tracer amb in
  let logger := mk_logger "smokeshow.test_results" in
  sp <- start_span tracer ("suite(" ++ suite_name cfg ++ ")")%string None
                   (suite_attrs cfg amb) ;;
  modify (set_owner (mk_browser cfg (Some tracer) (Some sp) (set_span_in_context sp)
                                (Some logger) (_passed self) (_failed self)
                                (_total self))) ;;
  on_page playwright_start ;;
  on_page (browser_launch (browser_type cfg) (headless cfg)) ;;
  on_page (browser_new_context (viewport_width cfg) (viewport_height cfg)) ;;
  on_page context_new_page.

Definition __aexit__ (exc_val : option exn) : M W bool :=
  self <- gets w_owner ;;
  match _suite_span self with
  | None => raise (TestCase.none_has_no "set_attribute")
  | Some sp =>
      let sp := call (SetAttribute "test.suite.total_tests" (AInt (_total self))) sp in
      let sp := call (SetAttribute "test.suite.passed" (AInt (_passed self))) sp in
      let sp := call (SetAttribute "test.suite.failed" (AInt (_failed self))) sp in
      let result := suite_result (_passed self) (_failed self) in
      let sp := call (SetAttribute "test.suite.result" (AStr result)) sp in
      let sp := call End sp in
      modify (fun w => export sp
                (set_owner (mk_browser (_config self) (_tracer self) (Some sp)
                                       (_suite_ctx self) (_logger self)
                                       (_passed self) (_failed self) (_total self)) w)) ;;
      on_page browser_close ;;
      on_page playwright_stop ;;
      force_flush ;;
      force_flush ;;
      ret false
  end.

(** What Python raises for an attribute the suite object does not have. *)
Definition has_no_attribute (attr : string) : exn :=
  AttributeError ("'InstrumentedBrowser' object has no attribute '" ++ attr ++ "'").

(** [test_case(name=..., case_id=..., tags=..., description=...)]: the
    case is counted, then the arguments of [TestCase(...)] are read off
    the suite object; reading [self._logger] raises on a suite that was
    not entered. *)
Definition test_case (name case_id tags description : string)
  : M W (TestCase.TestCase InstrumentedBrowser) :=
  modify (fun w =>
            let self := w_owner w in
            set_owner (mk_browser (_config self) (_tracer self) (_suite_span self)
                                  (_suite_ctx self) (_logger self) (_passed self)
                                  (_failed self) (_total self + 1)%Z) w) ;;
  self <- gets w_owner ;;
  match _logger self with
  | None => raise (has_no_attribute "_logger")
  | Some logger =>
      ret (TestCase.__init__ (_tracer self) (_suite_ctx self) _record_result
                             (Some logger) (suite_name (_config self))
                             name case_id tags description)
  end.

(** The suite body: the cases one after the other. Next to the world it
    returns what the caller saw of each case it ran, in order: the outcome
    of its [async with] statement. *)
Fixpoint run_cases (cases : list case_run) (w : W)
  : list (result unit) * (result unit * W) :=
  match cases with
  | [] => ([], (Ok tt, w))
  | c :: cases' =>
      match test_case (cr_name c) (cr_case_id c) (cr_tags c) (cr_description c) w with
      | (Raise e, w1) => ([], (Raise e, w1))
      | (Ok tc, w1) =>
          let '(r, w2) := Script.async_with tc (cr_body c) w1 in
          match r with
          | Ok _ =>
              let '(seen, out) := run_cases cases' w2 in (r :: seen, out)
          | Raise e =>
              if cr_caught c
              then let '(seen, out) := run_cases cases' w2 in (r :: seen, out)
              else ([r], (Raise e, w2))
          end
      end
  end.

(** [async with InstrumentedBrowser(...) as browser: cases]. *)
Definition run_suite (amb : Ambient) (cases : list case_run) (w : W)
  : list (result unit) * (result unit * W) :=
  match __aenter__ amb w with
  | (Raise e, w1) => ([], (Raise e, w1))
  | (Ok _, w1) =>
      let '(seen, (r, w2)) := run_cases cases w1 in
      match __aexit__ (exc_val r) w2 with
      | (Raise e', w3) => (seen, (Raise e', w3))
      | (Ok suppress, w3) =>
          match r with
          | Ok _ => (seen, (Ok tt, w3))
          | Raise e => (seen, (if suppress then Ok tt else Raise e, w3))
          end
      end
  end.

(** The world a suite starts in: the object built by the constructor, the
    page of the browser, nothing traced or logged yet. *)
Definition initial_world (env : environ) (kw : kwargs) (page : Page) : W :=
  mk_world page (__init__ env kw) 0 [] [] 0.

End Browser.
End Browser.

(* ================================================================== *)
(** ** A scripted page, for running the package on concrete inputs *)

Module Fake.

Inductive driver_call : Type :=
| CallGoto (url wait_until : string)
| CallEvaluate (script : string)
| CallClick (selector : string)
| CallFill (selector value : string)
| CallWaitForSelector (selector state : string) (timeout : Z)
| CallTextContent
| CallQuerySelectorAll (selector : string)
| CallBrowserClose
| CallPlaywrightStop
| CallPlaywrightStart
| CallLaunch (browser_type : string) (headless : bool)
| CallNewContext (width height : Z)
| CallNewPage.

(** A page whose calls answer with scripted results and are recorded. A
    navigation that succeeds moves the page to the target. *)
Record FakePage : Type := mk_fake {
  fake_url : string;
  fake_launch : result unit;
  fake_goto : result (option Response);
  fake_evaluate : result (option (dict attr_value));
  fake_click : result unit;
  fake_fill : result unit;
  fake_wait_for_selector : result unit;
  fake_text_content : result (option string);
  fake_query_selector_all : result (list unit);
  fake_calls : list driver_call
}.

Definition record (c : driver_call) (p : FakePage) : FakePage :=
  mk_fake (fake_url p) (fake_launch p) (fake_goto p) (fake_evaluate p) (fake_click p) (fake_fill p)
          (fake_wait_for_selector p) (fake_text_content p)
          (fake_query_selector_all p) (fake_calls p ++ [c]).

Definition moved_to (url : string) (p : FakePage) : FakePage :=
  mk_fake url (fake_launch p) (fake_goto p) (fake_evaluate p) (fake_click p) (fake_fill p)
          (fake_wait_for_selector p) (fake_text_content p)
          (fake_query_selector_all p) (fake_calls p).

Definition fake_page_goto (url wait_until : string) (p : FakePage)
  : result (option Response) * FakePage :=
  let p := record (CallGoto url wait_until) p in
  match fake_goto p with
  | Ok r => (Ok r, moved_to url p)
  | Raise e => (Raise e, p)
  end.

#[export] Instance fake_driver : Driver FakePage unit := {
  playwright_start := fun p => (Ok tt, record CallPlaywrightStart p);
  browser_launch := fun browser_type headless p =>
                 (fake_launch p, record (CallLaunch browser_type headless) p);
  browser_new_context := fun width height p =>
                 (Ok tt, record (CallNewContext width height) p);
  context_new_page := fun p => (Ok tt, record CallNewPage p);
  page_url := fake_url;
  page_goto := fake_page_goto;
  page_evaluate := fun script p => (fake_evaluate p, record (CallEvaluate script) p);
  page_click := fun selector p => (fake_click p, record (CallClick selector) p);
  page_fill := fun selector value p =>
                 (fake_fill p, record (CallFill selector value) p);
  page_wait_for_selector := fun selector state timeout p =>
                 (fake_wait_for_selector p,
                  record (CallWaitForSelector selector state timeout) p);
  element_text_content := fun _ p => (fake_text_content p, record CallTextContent p);
  page_query_selector_all := fun selector p =>
                 (fake_query_selector_all p, record (CallQuerySelectorAll selector) p);
  browser_close := fun p => (Ok tt, record CallBrowserClose p);
  playwright_stop := fun p => (Ok tt, record CallPlaywrightStop p)
}.

(** The page of the unit tests: a browser that launches, at
    [http://localhost:8080/], responses with status 200, no timing entry,
    the heading [Hello World], no element matched by a query. *)
Definition mock_page : FakePage :=
  mk_fake "http://localhost:8080/" (Ok tt) (Ok (Some (mk_response 200))) (Ok None)
          (Ok tt) (Ok tt) (Ok tt) (Ok (Some "Hello World")) (Ok []) [].

(** A tracer that numbers its spans, within the width of the ids. *)
Definition counting_tracer : Tracer :=
  mk_tracer (fun k => (N.of_nat k + 1) mod 2 ^ 128)%N
            (fun k => (N.of_nat k + 1) mod 2 ^ 64)%N.

(** The world of a unit test on [page]: the owner of the callback is the
    list of the results it was called with. *)
Definition test_world (page : FakePage) : world FakePage (list bool) :=
  mk_world page [] 0 [] [] 0.

Definition recording_callback (passed : bool) (seen : list bool) : list bool :=
  seen ++ [passed].

Definition instrumentor : ActionInstrumentor :=
  mk_instrumentor counting_tracer (Some (mk_span_context 7 7)).

(** The test case of the unit tests, with a logger. *)
Definition login_case : TestCase.TestCase (list bool) :=
  TestCase.__init__ (Some counting_tracer) (Some (mk_span_context 255 9))
                    recording_callback (Some (mk_logger "smokeshow.test_results"))
                    "test-smoke" "test-login" "TC-001" "smoke,auth" "Test user login".

Definition RuntimeError (msg : string) : exn := mk_exn "RuntimeError" true msg.

(** [async with tc: raise RuntimeError("boom")] after a navigation. *)
Definition boom_body : list Script.step :=
  [Script.Navigate "http://localhost:8080/fail";
   Script.RaiseExn (RuntimeError "boom")].

Definition boom_run : result unit * world FakePage (list bool) :=
  Script.async_with login_case boom_body (test_world mock_page).

(** The stages of that run: the test case and the world after
    [__aenter__], and after the body. *)
Definition value_or {A} (r : result A) (default : A) : A :=
  match r with Ok a => a | Raise _ => default end.

Definition boom_entered : TestCase.TestCase (list bool) * world FakePage (list bool) :=
  let '(r, w) := TestCase.__aenter__ login_case (test_world mock_page) in
  (value_or r login_case, w).

Definition boom_raised : TestCase.TestCase (list bool) * world FakePage (list bool) :=
  snd (Script.run_body boom_body boom_entered).

(** The suite of the unit tests: a case that passes, then a case that
    fails and whose failure the caller catches. *)
Definition ambient : Browser.Ambient :=
  Browser.mk_ambient counting_tracer "b9c0a0de-0000-4000-8000-000000000001"
                     "2024-01-01T00:00:00+00:00" None None.

Definition pass_and_fail : list Browser.case_run :=
  [Browser.mk_case_run "passes" "TC-P" "" ""
                       [Script.Navigate "http://localhost:8080/"] true;
   Browser.mk_case_run "fails" "TC-F" "" ""
                       [Script.RaiseExn (RuntimeError "intentional")] true].

Definition pass_and_fail_run :=
  Browser.run_suite ambient pass_and_fail
                    (Browser.initial_world [] Config.no_kwargs mock_page).

(** The suite after [__aenter__], and the suite span it holds. *)
Definition suite_entered : world FakePage Browser.InstrumentedBrowser :=
  snd (Browser.__aenter__ ambient (Browser.initial_world [] Config.no_kwargs mock_page)).

Definition suite_root : span :=
  match Browser._suite_span (w_owner suite_entered) with
  | Some sp => sp
  | None => mk_span "" None (mk_span_context 0 0) [] []
  end.

(** A page whose heading reads [text]. *)
Definition page_with_heading (text : string) : FakePage :=
  mk_fake "http://localhost:8080/" (Ok tt) (Ok (Some (mk_response 200))) (Ok None)
          (Ok tt) (Ok tt) (Ok tt) (Ok (Some text)) (Ok []) [].

(** A page on which the list items are three, or one. *)
Definition page_with_elements (n : nat) : FakePage :=
  mk_fake "http://localhost:8080/" (Ok tt) (Ok (Some (mk_response 200))) (Ok None)
          (Ok tt) (Ok tt) (Ok tt) (Ok (Some "Hello World")) (Ok (repeat tt n)) [].

(** A page whose navigation timing cannot be read: the evaluation raises
    [timing_failure]. *)
Definition page_without_timing (timing_failure : exn) : FakePage :=
  mk_fake "http://localhost:8080/" (Ok tt) (Ok (Some (mk_response 200))) (Raise timing_failure)
          (Ok tt) (Ok tt) (Ok tt) (Ok (Some "Hello World")) (Ok []) [].

(** A page on which no element ever becomes visible: the wait times out. *)
Definition TimeoutError (msg : string) : exn := mk_exn "TimeoutError" true msg.

Definition page_never_visible : FakePage :=
  mk_fake "http://localhost:8080/" (Ok tt) (Ok (Some (mk_response 200))) (Ok None)
          (Ok tt) (Ok tt) (Raise (TimeoutError "Timeout 5000ms exceeded."))
          (Ok (Some "Hello World")) (Ok []) [].

(** A page with a navigation timing entry; [timing] is what the timing
    script returns. *)
Definition page_with_timing (timing : dict attr_value) : FakePage :=
  mk_fake "http://localhost:8080/" (Ok tt) (Ok (Some (mk_response 200))) (Ok (Some timing))
          (Ok tt) (Ok tt) (Ok tt) (Ok (Some "Hello World")) (Ok []) [].

Definition full_timing : dict attr_value :=
  [("domContentLoaded", AInt 150); ("loadEvent", AInt 300);
   ("transferSize", AInt 1024); ("domInteractive", AInt 100)].

(** A constructor call that asks for a headless browser and nothing else,
    and an environment that asks for a headed one. *)
Definition headless_true : Config.kwargs :=
  Config.mk_kwargs None None None None None None None None (Some true) None None.

Definition headed_environ : Config.environ :=
  [("PLAYWRIGHT_OTEL_HEADLESS", "false")].

(** A navigation followed by a click, on the page of the unit tests. *)
Definition after_navigation : world FakePage (list bool) :=
  snd (navigate instrumentor "http://localhost:8080/next" (test_world mock_page)).

(** A Playwright error: its class is [Error] and derives from
    [Exception]. *)
Definition PlaywrightError (msg : string) : exn := mk_exn "Error" true msg.

(** A machine on which the browser cannot be launched. *)
Definition page_without_browser : FakePage :=
  mk_fake "about:blank" (Raise (PlaywrightError "Executable doesn't exist"))
          (Ok None) (Ok None) (Ok tt) (Ok tt) (Ok tt) (Ok None) (Ok []) [].

(** A page on which the button is gone when it is clicked. *)
Definition page_detached : FakePage :=
  mk_fake "http://localhost:8080/" (Ok tt) (Ok (Some (mk_response 200))) (Ok None)
          (Raise (PlaywrightError "element is not attached")) (Ok tt) (Ok tt)
          (Ok (Some "Hello World")) (Ok []) [].

(** [async with tc: await t.navigate(...)]: a body that returns. *)
Definition pass_body : list Script.step :=
  [Script.Navigate "http://localhost:8080/"].

Definition pass_run : result unit * world FakePage (list bool) :=
  Script.async_with login_case pass_body (test_world mock_page).

Definition pass_returned : TestCase.TestCase (list bool) * world FakePage (list bool) :=
  snd (Script.run_body pass_body boom_entered).

(** The case span the entered test case holds. *)
Definition login_span : span :=
  match TestCase._case_span (fst boom_entered) with
  | Some sp => sp
  | None => mk_span "" None (mk_span_context 0 0) [] []
  end.

(** [async with tc: raise RuntimeError()]: an exception without message,
    as a bare [assert] or [raise E()] produces. *)
Definition bare_raise_run : result unit * world FakePage (list bool) :=
  Script.async_with login_case [Script.RaiseExn (RuntimeError "")]
                    (test_world mock_page).

End Fake.

(* ================================================================== *)
(** ** Observations: the vocabulary of the properties *)

Module Obs.

(** [m] leaves the part [proj] of the state as it found it, whether it
    returns or raises. *)
Definition keeps {St A O : Type} (proj : St -> O) (m : M St A) : Prop :=
  forall s, proj (snd (m s)) = proj s.

(** The part of the world no action touches: the owner of the callback,
    the log and the flush count. *)
Definition quiet {Page Owner} (w : world Page Owner) : Owner * list log_record * nat :=
  (w_owner w, w_logs w, w_flushes w).

(** *** Reading hexadecimal strings *)

Definition is_hex_digit (c : ascii) : bool :=
  let n := N_of_ascii c in
  ((48 <=? n) && (n <=? 57) || (97 <=? n) && (n <=? 102))%N.

Fixpoint all_chars (P : ascii -> bool) (s : string) : bool :=
  match s with
  | EmptyString => true
  | String c s' => P c && all_chars P s'
  end.

Definition digit_value (c : ascii) : N :=
  let n := N_of_ascii c in
  if (n <=? 57)%N then (n - 48)%N else (n - 87)%N.

(** The number a string of hexadecimal digits denotes, read after [acc]. *)
Fixpoint hex_value_from (acc : N) (s : string) : N :=
  match s with
  | EmptyString => acc
  | String c s' => hex_value_from (16 * acc + digit_value c) s'
  end.

Definition hex_value (s : string) : N := hex_value_from 0 s.

(** *** Spans *)

(** [sp] with the calls [cs] made on it, in order. *)
Definition add_calls (cs : list span_call) (sp : span) : span :=
  mk_span (span_name sp) (span_parent sp) (get_span_context sp)
          (span_init_attributes sp) (span_calls sp ++ cs).

Definition is_set_attribute (c : span_call) : bool :=
  match c with SetAttribute _ _ => true | _ => false end.

(** What [TestCase.__aexit__] does to the case span on each path. *)
Definition failure_calls (e : exn) (url : string) : list span_call :=
  [SetAttribute "test.case.result" (AStr "failed");
   SetAttribute "test.case.failure_reason" (AStr (str_exn e));
   SetAttribute "test.case.failure_url" (AStr url);
   SetStatus ERROR (Some (str_exn e));
   RecordException e;
   End].

Definition success_calls : list span_call :=
  [SetAttribute "test.case.result" (AStr "passed");
   SetStatus OK None;
   End].

(** The case span holds nothing but attribute writes so far. *)
Definition only_attributes (cs : list span_call) : Prop :=
  forallb is_set_attribute cs = true.

(** The state of a test body that started from the entered test case
    [t1]: the same object, its case span with further attribute writes. *)
Definition body_state_of {Owner} (t1 t : TestCase.TestCase Owner) : Prop :=
  exists sp1 extra,
    TestCase._case_span t1 = Some sp1
    /\ only_attributes (span_calls sp1 ++ extra)
    /\ t = TestCase.with_case_span t1 (add_calls extra sp1).

(** Ids as OpenTelemetry defines them: 128-bit trace ids, 64-bit span ids. *)
Definition ids_in_range (tracer : Tracer) : Prop :=
  forall k, (generate_trace_id tracer k < 2 ^ 128)%N
            /\ (generate_span_id tracer k < 2 ^ 64)%N.

Definition context_in_range (ctx : context) : Prop :=
  match ctx with
  | Some c => (trace_id c < 2 ^ 128)%N
  | None => True
  end.

(** [c] writes the attribute [key]. *)
Definition sets_key (key : string) (c : span_call) : bool :=
  match c with
  | SetAttribute k _ => String.eqb k key
  | _ => false
  end.

(** What every instrumented action leaves behind: one more finished span,
    created with the name and attributes of [action_span]; the first thing
    done to it is the write of [test.action.page_url] with the URL the
    page had when the action was invoked, and nothing done to it later
    writes [test.action.selector]. *)
Definition action_recorded {Page Owner} (url_at_call : string)
           (before after : world Page Owner) (action_type : string)
           (selector : option string) (extra_attrs : dict attr_value) : Prop :=
  exists sp rest,
    w_finished after = w_finished before ++ [sp]
    /\ span_name sp = action_name action_type selector
    /\ span_init_attributes sp = action_attrs action_type selector extra_attrs
    /\ span_calls sp
       = SetAttribute "test.action.page_url" (AStr url_at_call) :: rest
    /\ forallb (fun c => negb (sets_key "test.action.selector" c)) rest = true.

(** The attributes recorded on the span of an action, in order: those it
    is created with, then [test.action.page_url] with the URL the page had
    when the action was invoked, then whatever the action records later. *)
Definition page_url_after_creation {Page Owner} (url_at_call : string)
           (before after : world Page Owner) (action_type : string)
           (selector : option string) (extra_attrs : dict attr_value) : Prop :=
  exists sp later,
    w_finished after = w_finished before ++ [sp]
    /\ attribute_writes sp
       = action_attrs action_type selector extra_attrs
         ++ ("test.action.page_url", AStr url_at_call) :: later.

(** [c] ends the span. *)
Definition is_end (c : span_call) : bool :=
  match c with End | ScopeExit _ => true | _ => false end.

(** [sp] was ended once, by the exit of its [with] block, which received
    [exc]; nothing was done to the span after that. *)
Definition closed_by_scope_exit (exc : option exn) (sp : span) : Prop :=
  last (span_calls sp) End = ScopeExit exc /\ end_count sp = 1.

(** [sp] belongs to the trace [T] as the child of a span of that trace. *)
Definition descends (T : N) (sp : span) : Prop :=
  trace_id (get_span_context sp) = T
  /\ exists parent, span_parent sp = Some parent /\ trace_id parent = T.

(** From [w] to [w'] some spans were started, all of them finished by
    [w'], each a descendant in the trace [T], and nothing else happened to
    the list of finished spans. *)
Definition grown {Page Owner} (T : N) (w w' : world Page Owner) : Prop :=
  exists news,
    w_finished w' = w_finished w ++ news
    /\ Forall (descends T) news
    /\ w_spans_started w' = w_spans_started w + List.length news.

(** What [InstrumentedBrowser.__aexit__] does to the suite span. *)
Definition suite_exit_calls (total passed failed : Z) (result : string)
  : list span_call :=
  [SetAttribute "test.suite.total_tests" (AInt total);
   SetAttribute "test.suite.passed" (AInt passed);
   SetAttribute "test.suite.failed" (AInt failed);
   SetAttribute "test.suite.result" (AStr result);
   End].

(** The suite object [b'] is [b] up to its three counters. *)
Definition same_suite (b b' : Browser.InstrumentedBrowser) : Prop :=
  Browser._config b' = Browser._config b
  /\ Browser._tracer b' = Browser._tracer b
  /\ Browser._suite_span b' = Browser._suite_span b
  /\ Browser._suite_ctx b' = Browser._suite_ctx b
  /\ Browser._logger b' = Browser._logger b.

(** *** Results *)

Definition is_ok {A} (r : result A) : bool :=
  match r with Ok _ => true | Raise _ => false end.

Definition count_passed (seen : list (result unit)) : nat :=
  List.length (filter is_ok seen).

Definition count_failed (seen : list (result unit)) : nat :=
  List.length (filter (fun r => negb (is_ok r)) seen).

End Obs.

Import Obs.

(* ================================================================== *)
(** * Properties *)

#[local] Existing Instance Fake.fake_driver.

(** ** Strings *)

Module StrFacts.

Lemma append_nil_r (s : string) : (s ++ "")%string = s.
Proof. induction s as [|c s IH]; simpl; [reflexivity | now rewrite IH]. Qed.

Lemma append_assoc (a b c : string) : ((a ++ b) ++ c = a ++ (b ++ c))%string.
Proof. induction a as [|x a IH]; simpl; [reflexivity | now rewrite IH]. Qed.

Lemma length_append (a b : string) :
  String.length (a ++ b) = String.length a + String.length b.
Proof. induction a as [|x a IH]; simpl; [reflexivity | now rewrite IH]. Qed.

Lemma append_eq_nil (a b : string) : (a ++ b)%string = "" -> a = "" /\ b = "".
Proof. destruct a; simpl; [auto | discriminate]. Qed.

Lemma startswith_iff (p s : string) :
  startswith p s = true <-> exists post, s = (p ++ post)%string.
Proof.
  revert s; induction p as [|a p IH]; intros s; simpl.
  - split; [intros _; now exists s | reflexivity].
  - destruct s as [|b s].
    + split; [discriminate | intros [post E]; discriminate].
    + rewrite andb_true_iff, Ascii.eqb_eq, IH. split.
      * intros [-> [post ->]]. now exists post.
      * intros [post E]. injection E as -> ->. split; [reflexivity | now exists post].
Qed.

(** [in] on strings decides the occurrence of the needle. *)
Lemma contains_iff (needle hay : string) :
  contains needle hay = true
  <-> exists pre post, hay = (pre ++ needle ++ post)%string.
Proof.
  induction hay as [|c hay IH]; simpl.
  - rewrite orb_false_r, startswith_iff. split.
    + intros [post E]. now exists ""%string, post.
    + intros [pre [post E]]. destruct pre; [now exists post | discriminate].
  - rewrite orb_true_iff, IH. split.
    + intros [Hs | [pre [post ->]]].
      * apply startswith_iff in Hs as [post E]. now exists ""%string, post.
      * now exists (String c pre), post.
    + intros [pre [post E]]. destruct pre as [|x pre]; simpl in E.
      * left. apply startswith_iff. now exists post.
      * right. injection E as _ ->. now exists pre, post.
Qed.

(** The case tables, as far as the letters of the patterns go. *)
Module UnicodeFacts.

Import Unicode.
Local Open Scope N_scope.

(** The entries of a table that can give a value between [lo] and [hi],
    and those that hold a character between [lo] and [hi]. *)
Definition reaches (lo hi : N) (entry : N * N * N * N) : bool :=
  let '(first, last, _, target) := entry in
  (target <=? hi) && (lo <=? target + (last - first)).

Definition covers (lo hi : N) (entry : N * N * N * N) : bool :=
  let '(first, last, _, _) := entry in
  (first <=? hi) && (lo <=? last).

Lemma hit_bounds (entry : N * N * N * N) (c d : N) :
  hit entry c = Some d ->
  let '(first, last, _, target) := entry in
  first <= c /\ c <= last /\ d = target + (c - first).
Proof.
  destruct entry as [[[first last] step] target]. unfold hit.
  destruct ((first <=? c) && (c <=? last) && ((c - first) mod step =? 0)) eqn:E;
    [| discriminate].
  intros [= <-]. apply andb_true_iff in E as [E _].
  apply andb_true_iff in E as [E1 E2].
  apply N.leb_le in E1, E2. auto.
Qed.

Lemma lookup_some (table : list (N * N * N * N)) (c d : N) :
  lookup table c = Some d ->
  exists entry, In entry table /\ hit entry c = Some d.
Proof.
  induction table as [|entry table IH]; simpl; [discriminate |].
  destruct (hit entry c) as [d'|] eqn:E.
  - intros [= <-]. exists entry. auto.
  - intros Hl. destruct (IH Hl) as [entry' [Hin Hhit]]. exists entry'. auto.
Qed.

Lemma lookup_reaches (lo hi : N) (table : list (N * N * N * N)) (c d : N) :
  lookup table c = Some d -> lo <= d <= hi ->
  exists entry, In entry (filter (reaches lo hi) table) /\ hit entry c = Some d.
Proof.
  intros Hl Hd. destruct (lookup_some table c d Hl) as [entry [Hin Hhit]].
  exists entry. split; [| exact Hhit]. apply filter_In. split; [exact Hin |].
  pose proof (hit_bounds entry c d Hhit) as Hb.
  destruct entry as [[[first last] step] target]. destruct Hb as [H1 [H2 ->]].
  unfold reaches. apply andb_true_iff. split; apply N.leb_le; lia.
Qed.

Lemma lookup_covers (lo hi : N) (table : list (N * N * N * N)) (c d : N) :
  lookup table c = Some d -> lo <= c <= hi ->
  exists entry, In entry (filter (covers lo hi) table) /\ hit entry c = Some d.
Proof.
  intros Hl Hc. destruct (lookup_some table c d Hl) as [entry [Hin Hhit]].
  exists entry. split; [| exact Hhit]. apply filter_In. split; [exact Hin |].
  pose proof (hit_bounds entry c d Hhit) as Hb.
  destruct entry as [[[first last] step] target]. destruct Hb as [H1 [H2 _]].
  unfold covers. apply andb_true_iff. split; apply N.leb_le; lia.
Qed.

(** The characters from [lo] on, [n] of them. *)
Definition enum (lo : N) (n : nat) : list N := map N.of_nat (seq (N.to_nat lo) n).

Lemma in_enum (lo : N) (n : nat) (c : N) :
  lo <= c < lo + N.of_nat n -> In c (enum lo n).
Proof.
  intros Hc. unfold enum. apply in_map_iff. exists (N.to_nat c).
  split; [apply N2Nat.id |]. apply in_seq. lia.
Qed.

Lemma small_letters_fixed (p : N) : 97 <= p <= 122 -> tolower p = p.
Proof.
  intros Hp.
  assert (Hall : forallb (fun c => tolower c =? c) (enum 97 26) = true)
    by (vm_compute; reflexivity).
  rewrite forallb_forall in Hall. apply N.eqb_eq, Hall, in_enum. lia.
Qed.

Lemma capitals_lowered (c : N) : 65 <= c <= 90 -> tolower c = c + 32.
Proof.
  intros Hc.
  assert (Hall : forallb (fun c => tolower c =? c + 32) (enum 65 26) = true)
    by (vm_compute; reflexivity).
  rewrite forallb_forall in Hall. apply N.eqb_eq, Hall, in_enum. lia.
Qed.

(** The characters whose lower case is a small ASCII letter. *)
Lemma tolower_small_letter (p c : N) :
  97 <= p <= 122 ->
  (tolower c = p
   <-> c = p \/ c + 32 = p \/ (p = 105 /\ c = 304) \/ (p = 107 /\ c = 8490)).
Proof.
  intros Hp. split.
  - unfold tolower. destruct (lookup LOWERCASE c) as [d|] eqn:Hl; [| auto].
    intros ->. destruct (lookup_reaches 97 122 LOWERCASE c p Hl Hp)
      as [entry [Hin Hhit]].
    vm_compute in Hin.
    destruct Hin as [<- | [<- | [<- | []]]];
      apply hit_bounds in Hhit; cbv beta iota in Hhit; lia.
  - intros [-> | [Hc | [[-> ->] | [-> ->]]]].
    + now apply small_letters_fixed.
    + rewrite capitals_lowered; lia.
    + vm_compute. reflexivity.
    + vm_compute. reflexivity.
Qed.

(** The dotless i and the long s are the lower case of themselves only. *)
Lemma tolower_extra_case (q c : N) :
  q = 305 \/ q = 383 -> (tolower c = q <-> c = q).
Proof.
  intros Hq. split.
  - unfold tolower. destruct (lookup LOWERCASE c) as [d|] eqn:Hl; [| auto].
    intros ->.
    assert (Hr : 305 <= q <= 383) by lia.
    destruct (lookup_reaches 305 383 LOWERCASE c q Hl Hr) as [entry [Hin Hhit]].
    exfalso. revert Hin Hhit.
    assert (Hall : forallb
                     (fun entry =>
                        let '(first, last, step, target) := entry in
                        forallb (fun x => negb (match hit entry x with
                                                | Some d => (d =? 305) || (d =? 383)
                                                | None => false
                                                end))
                                (enum first (S (N.to_nat (last - first)))))
                     (filter (reaches 305 383) LOWERCASE) = true)
      by (vm_compute; reflexivity).
    rewrite forallb_forall in Hall. intros Hin Hhit.
    specialize (Hall entry Hin).
    pose proof (hit_bounds entry c q Hhit) as Hb.
    destruct entry as [[[first last] step] target]. destruct Hb as [H1 [H2 _]].
    rewrite forallb_forall in Hall.
    assert (Hc : In c (enum first (S (N.to_nat (last - first)))))
      by (apply in_enum; lia).
    specialize (Hall c Hc). rewrite Hhit in Hall.
    destruct Hq as [-> | ->]; vm_compute in Hall; discriminate.
  - intros ->. destruct Hq as [-> | ->]; vm_compute; reflexivity.
Qed.

End UnicodeFacts.

(** The search of the pattern, in the words of the specification. *)
Module SearchFacts.

Local Open Scope N_scope.

Definition small_letter (p : N) : Prop := 97 <= p <= 122.

Lemma char_matches_iff (p c : N) :
  small_letter p ->
  (Sensitive.char_matches p c = true <-> Sensitive.same_letter p c).
Proof.
  intros Hp. unfold Sensitive.char_matches, Sensitive.same_letter.
  rewrite (UnicodeFacts.small_letters_fixed p Hp). cbn [existsb].
  rewrite orb_true_iff, N.eqb_eq, (UnicodeFacts.tolower_small_letter p c Hp).
  unfold Sensitive.extra_cases.
  destruct (p =? 105) eqn:E105; [apply N.eqb_eq in E105 |].
  - cbn [existsb]. rewrite orb_false_r, N.eqb_eq.
    rewrite (UnicodeFacts.tolower_extra_case 305 c) by auto. lia.
  - apply N.eqb_neq in E105.
    destruct (p =? 115) eqn:E115; [apply N.eqb_eq in E115 | apply N.eqb_neq in E115].
    + cbn [existsb]. rewrite orb_false_r, N.eqb_eq.
      rewrite (UnicodeFacts.tolower_extra_case 383 c) by auto. lia.
    + cbn [existsb]. split.
      * intros [Hc | Hf]; [lia | discriminate].
      * intros Hc. left. lia.
Qed.

Lemma match_literal_ignorecase_iff (lit s : list N) :
  Forall small_letter lit ->
  (Sensitive.match_literal_ignorecase lit s = true
   <-> exists mid post, s = mid ++ post /\ Forall2 Sensitive.same_letter lit mid).
Proof.
  intros Hlit. revert s. induction Hlit as [|p lit Hp Hlit IH]; intros s; simpl.
  - split; [intros _; exists [], s; split; [reflexivity | constructor] | reflexivity].
  - destruct s as [|c s].
    + split; [discriminate |].
      intros [mid [post [E F]]]. inversion F; subst. discriminate.
    + rewrite andb_true_iff, (char_matches_iff p c Hp), IH. split.
      * intros [Hc [mid [post [-> F]]]].
        exists (c :: mid), post. split; [reflexivity | now constructor].
      * intros [mid [post [E F]]]. inversion F as [|p' c' lit' mid' Hc F']; subst.
        injection E as -> ->. split; [exact Hc | now exists mid', post].
Qed.

Lemma re_search_iff (alts : list (list N)) (s : list N) :
  Forall (Forall small_letter) alts ->
  (Sensitive.re_search alts s = true
   <-> exists lit pre mid post,
         In lit alts /\ s = pre ++ mid ++ post
         /\ Forall2 Sensitive.same_letter lit mid).
Proof.
  intros Halts.
  assert (Hstart : forall s,
             Sensitive.match_alternation alts s = true
             <-> exists lit mid post,
                   In lit alts /\ s = mid ++ post
                   /\ Forall2 Sensitive.same_letter lit mid).
  { intros s0. unfold Sensitive.match_alternation. rewrite existsb_exists. split.
    - intros [lit [Hin Hm]].
      apply match_literal_ignorecase_iff in Hm as [mid [post [E F]]];
        [| now apply (proj1 (Forall_forall _ _) Halts)].
      now exists lit, mid, post.
    - intros [lit [mid [post [Hin [E F]]]]]. exists lit. split; [exact Hin |].
      apply match_literal_ignorecase_iff;
        [now apply (proj1 (Forall_forall _ _) Halts) | now exists mid, post]. }
  induction s as [|c s IH]; simpl.
  - rewrite orb_false_r, Hstart. split.
    + intros [lit [mid [post [Hin [E F]]]]]. now exists lit, [], mid, post.
    + intros [lit [pre [mid [post [Hin [E F]]]]]].
      destruct pre; [| discriminate]. now exists lit, mid, post.
  - rewrite orb_true_iff, IH, Hstart. split.
    + intros [[lit [mid [post [Hin [E F]]]]] | [lit [pre [mid [post [Hin [E F]]]]]]].
      * now exists lit, [], mid, post.
      * exists lit, (c :: pre), mid, post. subst s. auto.
    + intros [lit [pre [mid [post [Hin [E F]]]]]]. destruct pre as [|x pre].
      * left. now exists lit, mid, post.
      * right. simpl in E. injection E as _ ->. now exists lit, pre, mid, post.
Qed.

Lemma patterns_are_small_letters :
  Forall (Forall small_letter) (map Unicode.decode Sensitive._SENSITIVE_PATTERNS).
Proof.
  assert (Hall : forallb (forallb (fun p => (97 <=? p) && (p <=? 122)))
                         (map Unicode.decode Sensitive._SENSITIVE_PATTERNS) = true)
    by (vm_compute; reflexivity).
  rewrite forallb_forall in Hall. apply Forall_forall. intros lit Hin.
  specialize (Hall lit Hin). rewrite forallb_forall in Hall.
  apply Forall_forall. intros p Hp. specialize (Hall p Hp).
  apply andb_true_iff in Hall as [H1 H2]. apply N.leb_le in H1, H2.
  unfold small_letter. lia.
Qed.

End SearchFacts.

Lemma is_sensitive_selector_iff (selector : string) :
  Sensitive.is_sensitive_selector selector = true
  <-> exists w,
        In w ["password"; "passwd"; "card"; "cvv"; "ssn"; "credit"; "secret"; "token"]
        /\ Sensitive.ci_substring w selector.
Proof.
  unfold Sensitive.is_sensitive_selector, Sensitive.ci_substring.
  rewrite (SearchFacts.re_search_iff _ _ SearchFacts.patterns_are_small_letters).
  split.
  - intros [lit [pre [mid [post [Hin [E F]]]]]].
    apply in_map_iff in Hin as [w [<- Hin]].
    exists w. split; [exact Hin | now exists pre, mid, post].
  - intros [w [Hin [pre [mid [post [E F]]]]]].
    exists (Unicode.decode w), pre, mid, post.
    split; [apply in_map; exact Hin | auto].
Qed.

Lemma decision_iff (selector : string) (sensitive : bool) :
  sensitive || Sensitive.is_sensitive_selector selector = true
  <-> Sensitive.should_redact selector sensitive.
Proof.
  unfold Sensitive.should_redact.
  now rewrite orb_true_iff, is_sensitive_selector_iff.
Qed.

End StrFacts.

(** ** Redaction (sensitive.py) *)

(** C3. The condition under which [redact_if_needed] redacts holds exactly
    when the explicit flag is set or the selector contains one of password,
    passwd, card, cvv, ssn, credit, secret, token as a case-insensitive
    substring: some run of its characters spells the word letter by letter
    up to case, the Unicode letters that case-map onto s, k and i included
    (long s, Kelvin sign, dotted capital I, dotless i). The function
    returns the sentinel [[REDACTED]] in that case and the value unchanged
    otherwise. Being a function of its three arguments it has no other
    input and no effect. *)
Theorem redact_if_needed_decision (value selector : string) (sensitive : bool) :
  (sensitive || Sensitive.is_sensitive_selector selector = true
   <-> Sensitive.should_redact selector sensitive)
  /\ (Sensitive.should_redact selector sensitive
      -> Sensitive.redact_if_needed value selector sensitive = "[REDACTED]")
  /\ (~ Sensitive.should_redact selector sensitive
      -> Sensitive.redact_if_needed value selector sensitive = value).
Proof.
  pose proof (StrFacts.decision_iff selector sensitive) as D.
  unfold Sensitive.redact_if_needed.
  split; [exact D | split]; intros Hs.
  - apply D in Hs. now rewrite Hs.
  - destruct (sensitive || Sensitive.is_sensitive_selector selector) eqn:E.
    + exfalso. apply Hs, D. reflexivity.
    + reflexivity.
Qed.

(** The selectors of the unit tests: [INPUT#PASSWORD] is redacted without
    the flag, [input#email] is not; and a selector that writes the word
    with two long s is redacted as well. *)
Lemma redact_if_needed_decision_witness :
  Sensitive.redact_if_needed "secret123" "INPUT#PASSWORD" false = "[REDACTED]"
  /\ Sensitive.redact_if_needed "hello" "input#email" false = "hello"
  /\ Sensitive.redact_if_needed "secret123" "input#paſſword" false = "[REDACTED]".
Proof.
  split; [| split].
  - apply (redact_if_needed_decision "secret123" "INPUT#PASSWORD" false).
    apply StrFacts.decision_iff. vm_compute. reflexivity.
  - apply (redact_if_needed_decision "hello" "input#email" false).
    intros Hs. apply StrFacts.decision_iff in Hs. vm_compute in Hs. discriminate.
  - apply (redact_if_needed_decision "secret123" "input#paſſword" false).
    apply StrFacts.decision_iff. vm_compute. reflexivity.
Defined.

(** ** Frame properties: what the actions leave alone *)

Module Frame.

Section Frame.
Context {Page Element Owner : Type} `{Driver Page Element}.

Local Abbreviation W := (world Page Owner).

Lemma keeps_ret {St A O} (proj : St -> O) (a : A) : keeps proj (ret a).
Proof. intros s. reflexivity. Qed.

Lemma keeps_raise {St A O} (proj : St -> O) (e : exn) : keeps proj (@raise St A e).
Proof. intros s. reflexivity. Qed.

Lemma keeps_gets {St A O} (proj : St -> O) (f : St -> A) : keeps proj (gets f).
Proof. intros s. reflexivity. Qed.

Lemma keeps_bind {St A B O} (proj : St -> O) (m : M St A) (k : A -> M St B) :
  keeps proj m -> (forall a, keeps proj (k a)) -> keeps proj (bind m k).
Proof.
  intros Hm Hk s. unfold bind. specialize (Hm s).
  destruct (m s) as [[a|e] s']; simpl in *.
  - now rewrite Hk.
  - exact Hm.
Qed.

Lemma keeps_try {St O} (proj : St -> O) (body : M St unit) :
  keeps proj body -> keeps proj (try_except_Exception_pass body).
Proof.
  intros Hb s. unfold try_except_Exception_pass. specialize (Hb s).
  destruct (body s) as [[[]|e] s']; simpl in *; [exact Hb |].
  destruct (exc_is_exception e); exact Hb.
Qed.

Lemma keeps_on_page {A} (op : Page -> result A * Page) :
  keeps (@quiet Page Owner) (on_page op).
Proof. intros w. unfold on_page. destruct (op (w_page w)). reflexivity. Qed.

Lemma keeps_start_span tracer name ctx attrs :
  keeps (@quiet Page Owner) (start_span tracer name ctx attrs).
Proof. intros w. reflexivity. Qed.

Lemma keeps_on_span (c : span_call) :
  keeps (fun st : span * W => quiet (snd st)) (on_span c).
Proof. intros st. reflexivity. Qed.

Lemma keeps_in_world {X A} (m : M W A) :
  keeps quiet m -> keeps (fun st : X * W => quiet (snd st)) (in_world m).
Proof.
  intros Hm st. unfold in_world. specialize (Hm (snd st)).
  destruct (m (snd st)). exact Hm.
Qed.

Lemma keeps_with_span {A} (cm : M W span) (body : M (span * W) A) :
  keeps quiet cm ->
  keeps (fun st : span * W => quiet (snd st)) body ->
  keeps quiet (with_span cm body).
Proof.
  intros Hc Hb w. unfold with_span. specialize (Hc w).
  destruct (cm w) as [[sp|e] w1]; simpl in *; [|exact Hc].
  specialize (Hb (sp, w1)). destruct (body (sp, w1)) as [r st]. simpl in *.
  now rewrite <- Hc, <- Hb.
Qed.

End Frame.

(** Breaks a [keeps] goal down along the structure of the computation. *)
Ltac frame :=
  repeat first
    [ apply keeps_ret
    | apply keeps_raise
    | apply keeps_gets
    | apply keeps_on_page
    | apply keeps_start_span
    | apply keeps_on_span
    | apply keeps_in_world
    | apply keeps_try
    | apply keeps_with_span
    | apply keeps_bind; [| intros ?]
    | match goal with
      | |- keeps _ (match ?x with _ => _ end) => destruct x
      end ].

Section Actions.
Context {Page Element Owner : Type} `{Driver Page Element}.

Local Abbreviation W := (world Page Owner).

Lemma keeps_navigate (a : ActionInstrumentor) url :
  keeps (@quiet Page Owner) (navigate a url).
Proof. unfold navigate, action_span, set_page_url, current_url, page_call, getitem. frame. Qed.

Lemma keeps_click (a : ActionInstrumentor) selector :
  keeps (@quiet Page Owner) (click a selector).
Proof. unfold click, action_span, set_page_url, current_url, page_call. frame. Qed.

Lemma keeps_fill (a : ActionInstrumentor) selector value sensitive :
  keeps (@quiet Page Owner) (fill a selector value sensitive).
Proof. unfold fill, action_span, set_page_url, current_url, page_call. frame. Qed.

Lemma keeps_assert_visible (a : ActionInstrumentor) selector :
  keeps (@quiet Page Owner) (assert_visible a selector).
Proof. unfold assert_visible, action_span, set_page_url, current_url, page_call. frame. Qed.

Lemma keeps_assert_text (a : ActionInstrumentor) selector expected :
  keeps (@quiet Page Owner) (assert_text a selector expected).
Proof. unfold assert_text, action_span, set_page_url, current_url, page_call. frame. Qed.

Lemma keeps_assert_count (a : ActionInstrumentor) selector expected :
  keeps (@quiet Page Owner) (assert_count a selector expected).
Proof. unfold assert_count, action_span, set_page_url, current_url, page_call. frame. Qed.

Lemma keeps_assert_url (a : ActionInstrumentor) pattern :
  keeps (@quiet Page Owner) (assert_url a pattern).
Proof. unfold assert_url, action_span, set_page_url, current_url, page_call. frame. Qed.

Lemma keeps_custom_body calls exc :
  keeps (fun st : span * W => quiet (snd st)) (Script.custom_body calls exc).
Proof.
  unfold Script.custom_body. induction calls as [|c calls IH]; simpl.
  - destruct exc; frame.
  - apply keeps_bind; [apply keeps_on_span | intros _; exact IH].
Qed.

End Actions.

End Frame.

(** ** Hexadecimal rendering of ids *)

Module HexFacts.

Lemma below_16 (d : N) :
  (d < 16)%N ->
  In d [0; 1; 2; 3; 4; 5; 6; 7; 8; 9; 10; 11; 12; 13; 14; 15]%N.
Proof. intros Hd. simpl. lia. Qed.

Lemma hex_digit_ok (d : N) :
  (d < 16)%N -> is_hex_digit (hex_digit d) = true /\ digit_value (hex_digit d) = d.
Proof.
  intros Hd. apply below_16 in Hd. simpl in Hd.
  repeat (destruct Hd as [<- | Hd]; [split; reflexivity |]). contradiction.
Qed.

Lemma all_chars_append P (a b : string) :
  all_chars P (a ++ b) = all_chars P a && all_chars P b.
Proof. induction a as [|c a IH]; simpl; [reflexivity | now rewrite IH, andb_assoc]. Qed.

Lemma hex_value_from_append acc (a b : string) :
  hex_value_from acc (a ++ b) = hex_value_from (hex_value_from acc a) b.
Proof. revert acc; induction a as [|c a IH]; intros acc; simpl; [reflexivity | apply IH]. Qed.

Lemma pow16_succ (k : nat) : (16 ^ N.of_nat (S k) = 16 * 16 ^ N.of_nat k)%N.
Proof. rewrite Nat2N.inj_succ. apply N.pow_succ_r'. Qed.

Lemma div16_bound (n : N) (k : nat) :
  (n < 16 ^ N.of_nat (S k))%N -> (n / 16 < 16 ^ N.of_nat k)%N.
Proof.
  rewrite pow16_succ. intros Hn. apply N.Div0.div_lt_upper_bound. exact Hn.
Qed.

(** With enough fuel the digits put before [acc] are hexadecimal digits,
    at most [k] of them when [n < 16^k], and they denote [n]. *)
Lemma hex_aux_spec (fuel : nat) :
  forall (n : N) (acc : string),
    (n < 16 ^ N.of_nat fuel)%N ->
    exists ds, hex_aux fuel n acc = (ds ++ acc)%string
               /\ all_chars is_hex_digit ds = true
               /\ hex_value ds = n
               /\ forall k, 1 <= k -> (n < 16 ^ N.of_nat k)%N -> String.length ds <= k.
Proof.
  induction fuel as [|fuel IH]; intros n acc Hn.
  - exists ""%string. simpl in *. repeat split; try reflexivity; [unfold hex_value; simpl; lia | intros; lia].
  - simpl. assert (Hd : (n mod 16 < 16)%N) by (apply N.mod_lt; discriminate).
    destruct (hex_digit_ok _ Hd) as [Hx Hv].
    destruct (N.eqb_spec (n / 16) 0) as [Hz | Hz].
    + exists (String (hex_digit (n mod 16)) ""). simpl. rewrite Hx.
      repeat split; try reflexivity.
      * unfold hex_value. simpl. rewrite Hv.
        apply N.mod_small. apply N.div_small_iff in Hz; [exact Hz | discriminate].
      * intros; lia.
    + destruct (IH (n / 16)%N (String (hex_digit (n mod 16)) acc) (div16_bound _ _ Hn))
        as [ds [E [Hall [Hval Hlen]]]].
      exists (ds ++ String (hex_digit (n mod 16)) "")%string.
      rewrite E, StrFacts.append_assoc. simpl.
      rewrite all_chars_append, Hall. simpl. rewrite Hx.
      repeat split; try reflexivity.
      * unfold hex_value in *. rewrite hex_value_from_append, Hval.
        cbn [hex_value_from]. rewrite Hv.
        symmetry. apply N.div_mod. discriminate.
      * intros k Hk Hnk. rewrite StrFacts.length_append. simpl.
        destruct k as [|k]; [lia |]. destruct k as [|k].
        -- exfalso. apply Hz. apply N.div_small. simpl in Hnk. exact Hnk.
        -- specialize (Hlen (S k) ltac:(lia) (div16_bound _ _ Hnk)). lia.
Qed.

Lemma hex_fuel (n : N) : (n < 16 ^ N.of_nat (S (N.to_nat (N.log2 n))))%N.
Proof.
  rewrite Nat2N.inj_succ, N2Nat.id.
  apply N.lt_le_trans with (2 ^ N.succ (N.log2 n))%N.
  - destruct (N.eq_dec n 0) as [-> | Hn]; [reflexivity |].
    apply N.log2_spec. lia.
  - apply N.pow_le_mono_l. lia.
Qed.

Lemma zeros_spec (k : nat) :
  String.length (zeros k) = k
  /\ all_chars is_hex_digit (zeros k) = true
  /\ hex_value (zeros k) = 0%N.
Proof.
  induction k as [|k [L [A V]]]; simpl; [repeat split |].
  rewrite L, A. repeat split. exact V.
Qed.

(** [format(n, "0<width>x")]: only hexadecimal digits, denoting [n];
    exactly [width] of them when [n] fits in [width] digits. *)
Lemma format_0x_spec (width : nat) (n : N) :
  all_chars is_hex_digit (format_0x width n) = true
  /\ hex_value (format_0x width n) = n
  /\ (1 <= width -> (n < 16 ^ N.of_nat width)%N ->
      String.length (format_0x width n) = width).
Proof.
  unfold format_0x, hex.
  destruct (hex_aux_spec _ n "" (hex_fuel n)) as [ds [E [Hall [Hval Hlen]]]].
  rewrite E, StrFacts.append_nil_r.
  destruct (zeros_spec (width - String.length ds)) as [L [A V]].
  rewrite all_chars_append, A, Hall. unfold hex_value in *.
  rewrite hex_value_from_append, V, Hval.
  repeat split. intros Hw Hn. rewrite StrFacts.length_append, L.
  specialize (Hlen width Hw Hn). lia.
Qed.

End HexFacts.

(** ** Dictionaries and span views *)

Module SpanFacts.

Lemma dict_get_set_same {V} (k : string) (v : V) (d : dict V) :
  dict_get k (dict_set k v d) = Some v.
Proof.
  induction d as [|[k' v'] d IH]; simpl.
  - now rewrite String.eqb_refl.
  - destruct (String.eqb k' k) eqn:E; simpl; rewrite ?String.eqb_refl, ?E; auto.
Qed.

Lemma dict_get_set_other {V} (k k' : string) (v : V) (d : dict V) :
  String.eqb k' k = false -> dict_get k (dict_set k' v d) = dict_get k d.
Proof.
  intros Hk. induction d as [|[k0 v0] d IH]; simpl.
  - now rewrite Hk.
  - destruct (String.eqb k0 k') eqn:E; simpl.
    + apply String.eqb_eq in E. subst k0. now rewrite Hk.
    + destruct (String.eqb k0 k); auto.
Qed.

Lemma call_add_calls (c : span_call) (sp : span) : call c sp = add_calls [c] sp.
Proof. reflexivity. Qed.

Lemma add_calls_add_calls (a b : list span_call) (sp : span) :
  add_calls b (add_calls a sp) = add_calls (a ++ b) sp.
Proof. unfold add_calls. simpl. now rewrite app_assoc. Qed.

Lemma add_calls_nil (sp : span) : add_calls [] sp = sp.
Proof. destruct sp. unfold add_calls. simpl. now rewrite app_nil_r. Qed.

Lemma attributes_add_calls (cs : list span_call) (sp : span) :
  attributes (add_calls cs sp) = fold_left apply_attribute cs (attributes sp).
Proof. unfold attributes, add_calls. simpl. apply fold_left_app. Qed.

Lemma status_calls_only_attributes (cs : list span_call) :
  only_attributes cs ->
  flat_map (fun c => match c with SetStatus c d => [(c, d)] | _ => [] end) cs = [].
Proof.
  unfold only_attributes. induction cs as [|c cs IH]; simpl; [reflexivity |].
  destruct c; simpl; try discriminate. exact IH.
Qed.

Lemma exceptions_only_attributes (cs : list span_call) :
  only_attributes cs ->
  flat_map (fun c => match c with RecordException e => [e] | _ => [] end) cs = [].
Proof.
  unfold only_attributes. induction cs as [|c cs IH]; simpl; [reflexivity |].
  destruct c; simpl; try discriminate. exact IH.
Qed.

Lemma ends_only_attributes (cs : list span_call) :
  only_attributes cs ->
  filter (fun c => match c with End | ScopeExit _ => true | _ => false end) cs = [].
Proof.
  unfold only_attributes. induction cs as [|c cs IH]; simpl; [reflexivity |].
  destruct c; simpl; try discriminate. exact IH.
Qed.

(** A span that held only attribute writes and is then closed by
    [TestCase.__aexit__] on the failure path. *)
Lemma failure_exit_views (sp : span) (e : exn) (url : string) :
  only_attributes (span_calls sp) ->
  let final := add_calls (failure_calls e url) sp in
  end_count final = 1
  /\ dict_get "test.case.result" (attributes final) = Some (AStr "failed")
  /\ dict_get "test.case.failure_reason" (attributes final) = Some (AStr (exc_message e))
  /\ dict_get "test.case.failure_url" (attributes final) = Some (AStr url)
  /\ status final = (ERROR, Some (exc_message e))
  /\ recorded_exceptions final = [e].
Proof.
  intros Hsp final. subst final.
  unfold end_count, status, status_calls, recorded_exceptions.
  rewrite attributes_add_calls. unfold add_calls; simpl span_calls.
  rewrite filter_app, !flat_map_app.
  rewrite (ends_only_attributes _ Hsp), (status_calls_only_attributes _ Hsp),
    (exceptions_only_attributes _ Hsp).
  repeat split.
  - simpl.
    rewrite dict_get_set_other by reflexivity.
    rewrite dict_get_set_other by reflexivity.
    apply dict_get_set_same.
  - simpl. rewrite dict_get_set_other by reflexivity. apply dict_get_set_same.
  - simpl. apply dict_get_set_same.
Qed.

Lemma success_exit_views (sp : span) :
  only_attributes (span_calls sp) ->
  let final := add_calls success_calls sp in
  end_count final = 1
  /\ dict_get "test.case.result" (attributes final) = Some (AStr "passed")
  /\ status final = (OK, None)
  /\ recorded_exceptions final = [].
Proof.
  intros Hsp final. subst final.
  unfold end_count, status, status_calls, recorded_exceptions.
  rewrite attributes_add_calls. unfold add_calls; simpl span_calls.
  rewrite filter_app, !flat_map_app.
  rewrite (ends_only_attributes _ Hsp), (status_calls_only_attributes _ Hsp),
    (exceptions_only_attributes _ Hsp).
  repeat split. simpl. apply dict_get_set_same.
Qed.

End SpanFacts.

(** ** The test-case scope *)

Module CaseFacts.
Import Frame SpanFacts.

Section CaseFacts.
Context {Page Element Owner : Type} `{Driver Page Element}.

Local Abbreviation W := (world Page Owner).
Local Abbreviation TC := (TestCase.TestCase Owner).

Lemma in_world_fst {X A} (m : M W A) (st : X * W) :
  fst (snd (in_world m st)) = fst st.
Proof. unfold in_world. destruct (m (snd st)). reflexivity. Qed.

Lemma keeps_delegate (t : TC) (method : string) (f : ActionInstrumentor -> M W unit) :
  (forall a, keeps (@quiet Page Owner) (f a)) ->
  keeps (@quiet Page Owner) (TestCase.delegate t method f).
Proof. intros Hf. unfold TestCase.delegate. destruct (TestCase._actions t); [apply Hf | apply keeps_raise]. Qed.

Lemma keeps_case_action_span (t : TC) action_type selector extra_attrs :
  keeps (@quiet Page Owner) (TestCase.action_span t action_type selector extra_attrs).
Proof.
  unfold TestCase.action_span. destruct (TestCase._tracer t);
    [apply keeps_start_span | apply keeps_raise].
Qed.

(** A statement of a test body leaves the owner of the callback, the log
    and the flush count alone, and does nothing to the test case but
    attribute writes on its span. *)
Lemma run_step_inv (t1 : TC) (s : Script.step) (st : TC * W) :
  body_state_of t1 (fst st) ->
  body_state_of t1 (fst (snd (Script.run_step s st)))
  /\ quiet (snd (snd (Script.run_step s st))) = quiet (snd st).
Proof.
  intros Hinv.
  assert (Hw : forall m : M W unit, keeps quiet m ->
            body_state_of t1 (fst (snd (@in_world Page Owner TC unit m st)))
            /\ quiet (snd (snd (@in_world Page Owner TC unit m st))) = quiet (snd st)).
  { intros m Hm. rewrite in_world_fst. split; [exact Hinv |].
    apply (keeps_in_world (X := TC) m Hm st). }
  destruct s; simpl.
  - apply Hw, keeps_delegate. intros a. apply keeps_navigate.
  - apply Hw, keeps_delegate. intros a. apply keeps_click.
  - apply Hw, keeps_delegate. intros a. apply keeps_fill.
  - apply Hw, keeps_delegate. intros a. apply keeps_assert_visible.
  - apply Hw, keeps_delegate. intros a. apply keeps_assert_text.
  - apply Hw, keeps_delegate. intros a. apply keeps_assert_count.
  - apply Hw, keeps_delegate. intros a. apply keeps_assert_url.
  - destruct Hinv as [sp1 [extra [H1 [Hattr Ht]]]].
    unfold TestCase.set_attribute. rewrite Ht. simpl. split; [|reflexivity].
    exists sp1, (extra ++ [SetAttribute key value]). split; [exact H1 |]. split.
    + unfold only_attributes in *. rewrite app_assoc, forallb_app, Hattr. reflexivity.
    + rewrite call_add_calls, add_calls_add_calls. reflexivity.
  - apply Hw. apply keeps_with_span;
      [apply keeps_case_action_span | apply keeps_custom_body].
  - split; [exact Hinv | reflexivity].
Qed.

Lemma run_body_inv (t1 : TC) (body : list Script.step) :
  forall st : TC * W,
    body_state_of t1 (fst st) ->
    body_state_of t1 (fst (snd (Script.run_body body st)))
    /\ quiet (snd (snd (Script.run_body body st))) = quiet (snd st).
Proof.
  induction body as [|s body IH]; intros st Hinv; simpl.
  - split; [exact Hinv | reflexivity].
  - unfold bind. destruct (run_step_inv t1 s st Hinv) as [Hi Hq].
    destruct (Script.run_step s st) as [[[]|e] st1]; simpl in *.
    + destruct (IH st1 Hi) as [Hi' Hq']. split; [exact Hi' | congruence].
    + split; assumption.
Qed.

(** [__aenter__] that returns: the case span it started and the object it
    returns. *)
Lemma aenter_inv (tc t1 : TC) (w w1 : W) :
  TestCase.__aenter__ tc w = (Ok t1, w1) ->
  exists tracer sp1,
    TestCase._tracer tc = Some tracer
    /\ sp1 = mk_span (TestCase.case_span_name (TestCase._name tc))
                     (TestCase._suite_ctx tc)
                     (mk_span_context
                        (match TestCase._suite_ctx tc with
                         | Some parent => trace_id parent
                         | None => generate_trace_id tracer (w_spans_started w)
                         end)
                        (generate_span_id tracer (w_spans_started w)))
                     (TestCase.enter_attrs tc) []
    /\ t1 = TestCase.mk_test_case
              (TestCase._tracer tc) (TestCase._suite_ctx tc)
              (TestCase._record_result tc) (TestCase._logger tc)
              (TestCase._suite_name tc) (TestCase._name tc) (TestCase._case_id tc)
              (TestCase._tags tc) (TestCase._description tc)
              (Some sp1) (set_span_in_context sp1)
              (Some (mk_instrumentor tracer (set_span_in_context sp1)))
    /\ quiet w1 = quiet w
    /\ w_finished w1 = w_finished w
    /\ w_page w1 = w_page w.
Proof.
  unfold TestCase.__aenter__. destruct (TestCase._tracer tc) as [tracer|]; [|discriminate].
  unfold bind, start_span, ret. simpl. intros E. injection E as <- <-.
  exists tracer. eexists. repeat split.
Qed.

Lemma aenter_body_state (tc t1 : TC) (w w1 : W) :
  TestCase.__aenter__ tc w = (Ok t1, w1) -> body_state_of t1 t1.
Proof.
  intros E. apply aenter_inv in E as [tracer [sp1 [_ [Hsp [Ht _]]]]].
  exists sp1, []. subst t1. simpl. repeat split.
  - subst sp1. reflexivity.
  - now rewrite add_calls_nil.
Qed.

(** [__aexit__] on the failure path, for a test case that holds its span. *)
Lemma aexit_failure (t : TC) (sp : span) (e : exn) (w : W) :
  TestCase._case_span t = Some sp ->
  let url := page_url (w_page w) in
  let w1 := set_owner (TestCase._record_result t false (w_owner w)) w in
  let w2 := match TestCase._logger t with
            | Some logger => emit_log (TestCase.failure_log t logger sp e url) w1
            | None => w1
            end in
  TestCase.__aexit__ t (Some e) w
  = (Ok false, export (add_calls (failure_calls e url) sp) w2).
Proof.
  intros Hsp. unfold TestCase.__aexit__. rewrite Hsp.
  unfold bind, gets, modify, ret, TestCase.record_result. simpl.
  destruct (TestCase._logger t); simpl;
    unfold add_calls, failure_calls, call; simpl; rewrite <- !app_assoc; reflexivity.
Qed.

Lemma aexit_success (t : TC) (sp : span) (w : W) :
  TestCase._case_span t = Some sp ->
  TestCase.__aexit__ t None w
  = (Ok false, export (add_calls success_calls sp)
                      (set_owner (TestCase._record_result t true (w_owner w)) w)).
Proof.
  intros Hsp. unfold TestCase.__aexit__. rewrite Hsp.
  unfold bind, gets, modify, ret, TestCase.record_result. simpl.
  unfold add_calls, success_calls, call; simpl; rewrite <- !app_assoc; reflexivity.
Qed.

End CaseFacts.
End CaseFacts.

(** ** A test case that raises (test_case.py) *)

Section CaseFailure.
Context {Page Element Owner : Type} `{Driver Page Element}.

(** C2, amended. A test case whose body raises [e] closes its span exactly
    once, with [test.case.result = "failed"], [test.case.failure_reason] the
    message of [e] (whatever it is, the empty string included),
    [test.case.failure_url] the URL of the page at that moment, status
    ERROR with the message, and [e] recorded on the span; it reports
    [False] to the callback; with a logger it emits exactly one record, at
    level ERROR, whose message holds the case id (the name when the id is
    empty), the suite name, the message of [e], the page URL and the trace
    and span ids of the case span as 32 and 16 hexadecimal digits; and the
    [async with] statement raises [e] itself. *)
Theorem test_case_failure_path
  (tc t1 t2 : TestCase.TestCase Owner) (tracer : Tracer) (body : list Script.step)
  (w w1 w2 : world Page Owner) (e : exn) :
  TestCase._tracer tc = Some tracer ->
  ids_in_range tracer ->
  context_in_range (TestCase._suite_ctx tc) ->
  TestCase.__aenter__ tc w = (Ok t1, w1) ->
  Script.run_body body (t1, w1) = (Raise e, (t2, w2)) ->
  exists (sp : span) (w3 : world Page Owner),
    let url := page_url (w_page w2) in
    let final := add_calls (failure_calls e url) sp in
    Script.async_with tc body w = (Raise e, w3)
    /\ TestCase._case_span t2 = Some sp
    /\ span_name sp
       = ("test(" ++ String "034" (TestCase._name tc ++ String "034" ")"))%string
    /\ span_parent sp = TestCase._suite_ctx tc
    /\ w_finished w3 = w_finished w2 ++ [final]
    /\ end_count sp = 0
    /\ end_count final = 1
    /\ dict_get "test.case.result" (attributes final) = Some (AStr "failed")
    /\ dict_get "test.case.failure_reason" (attributes final)
       = Some (AStr (exc_message e))
    /\ dict_get "test.case.failure_url" (attributes final) = Some (AStr url)
    /\ status final = (ERROR, Some (exc_message e))
    /\ recorded_exceptions final = [e]
    /\ w_owner w3 = TestCase._record_result tc false (w_owner w)
    /\ match TestCase._logger tc with
       | None => w_logs w3 = w_logs w
       | Some logger =>
           exists (r : log_record) (tid sid : string),
             w_logs w3 = w_logs w ++ [r]
             /\ log_logger r = logger
             /\ log_levelno r = LOG_ERROR
             /\ String.length tid = 32
             /\ all_chars is_hex_digit tid = true
             /\ hex_value tid = trace_id (get_span_context sp)
             /\ String.length sid = 16
             /\ all_chars is_hex_digit sid = true
             /\ hex_value sid = span_id (get_span_context sp)
             /\ getMessage r
                = ("Test case FAILED: "
                   ++ (match TestCase._case_id tc with
                       | EmptyString => TestCase._name tc
                       | id => id
                       end)
                   ++ " [" ++ TestCase._suite_name tc ++ "] — " ++ exc_message e
                   ++ " (url=" ++ url ++ ", trace_id=" ++ tid
                   ++ ", span_id=" ++ sid ++ ")")%string
       end.
Proof.
  intros Htr Hids Hctx Hent Hbody.
  pose proof (CaseFacts.aenter_body_state _ _ _ _ Hent) as Hinv0.
  destruct (CaseFacts.run_body_inv t1 body (t1, w1) Hinv0) as [Hinv Hq].
  rewrite Hbody in Hinv, Hq. simpl in Hinv, Hq.
  destruct (CaseFacts.aenter_inv _ _ _ _ Hent)
    as [tracer' [sp1 [Htr' [Hsp1 [Ht1 [Hq1 [Hf1 Hp1]]]]]]].
  rewrite Htr in Htr'. injection Htr' as <-.
  destruct Hinv as [sp1' [extra [H1 [Hattr Ht2]]]].
  assert (sp1' = sp1) as ->
    by (rewrite Ht1 in H1; simpl in H1; injection H1 as H1; symmetry; exact H1).
  assert (Hcalls : span_calls sp1 = []) by (rewrite Hsp1; reflexivity).
  rewrite Hcalls in Hattr. simpl in Hattr.
  set (sp := add_calls extra sp1).
  assert (Hsp : TestCase._case_span t2 = Some sp) by (rewrite Ht2; reflexivity).
  assert (Honly : only_attributes (span_calls sp)).
  { unfold sp, add_calls. simpl. rewrite Hcalls. exact Hattr. }
  exists sp. eexists. cbv zeta.
  split.
  { unfold Script.async_with. rewrite Hent, Hbody. simpl.
    rewrite (CaseFacts.aexit_failure t2 sp e w2 Hsp). reflexivity. }
  destruct (SpanFacts.failure_exit_views sp e (page_url (w_page w2)) Honly)
    as [Hend [Hres [Hreason [Hurl [Hstatus Hexc]]]]].
  unfold quiet in Hq, Hq1.
  assert (Hlog2 : w_logs w2 = w_logs w) by congruence.
  assert (Hown2 : w_owner w2 = w_owner w) by congruence.
  assert (Hfields : TestCase._logger t2 = TestCase._logger tc
                    /\ TestCase._record_result t2 = TestCase._record_result tc
                    /\ TestCase._case_id t2 = TestCase._case_id tc
                    /\ TestCase._name t2 = TestCase._name tc
                    /\ TestCase._suite_name t2 = TestCase._suite_name tc).
  { rewrite Ht2, Ht1. repeat split. }
  destruct Hfields as [Hlg [Hrr [Hid [Hnm Hsn]]]].
  split; [exact Hsp |].
  split; [unfold sp; rewrite Hsp1; reflexivity |].
  split; [unfold sp; rewrite Hsp1; reflexivity |].
  split; [rewrite Hlg; destruct (TestCase._logger tc); reflexivity |].
  split; [unfold end_count; now rewrite (SpanFacts.ends_only_attributes _ Honly) |].
  do 6 (split; [assumption |]).
  split.
  { rewrite Hlg, Hrr, <- Hown2. destruct (TestCase._logger tc); reflexivity. }
  rewrite Hlg. destruct (TestCase._logger tc) as [logger|] eqn:Hlogger; cbn [w_logs export];
    [| exact Hlog2].
  assert (Htid : (trace_id (get_span_context sp) < 16 ^ N.of_nat 32)%N).
  { change (16 ^ N.of_nat 32)%N with (2 ^ 128)%N.
    unfold sp. rewrite Hsp1. simpl.
    unfold context_in_range in Hctx.
    destruct (TestCase._suite_ctx tc); [exact Hctx | apply Hids]. }
  assert (Hsid : (span_id (get_span_context sp) < 16 ^ N.of_nat 16)%N).
  { change (16 ^ N.of_nat 16)%N with (2 ^ 64)%N.
    unfold sp. rewrite Hsp1. simpl. apply Hids. }
  destruct (HexFacts.format_0x_spec 32 (trace_id (get_span_context sp)))
    as [Ta [Tv Tl]].
  destruct (HexFacts.format_0x_spec 16 (span_id (get_span_context sp)))
    as [Sa [Sv Sl]].
  eexists. exists (format_0x 32 (trace_id (get_span_context sp))),
    (format_0x 16 (span_id (get_span_context sp))).
  split; [cbn; rewrite Hlog2; reflexivity |].
  split; [reflexivity |]. split; [reflexivity |].
  split; [apply Tl; [lia | exact Htid] |].
  split; [exact Ta |]. split; [exact Tv |].
  split; [apply Sl; [lia | exact Hsid] |].
  split; [exact Sa |]. split; [exact Sv |].
  unfold getMessage, TestCase.failure_log. cbn [log_msg log_args].
  rewrite Hid, Hnm, Hsn. unfold str_or, str_exn.
  destruct (TestCase._case_id tc); reflexivity.
Qed.

End CaseFailure.

Lemma counting_tracer_in_range : ids_in_range Fake.counting_tracer.
Proof. intros k. split; apply N.mod_lt; discriminate. Qed.

(** The failing test of the unit tests: [RuntimeError("boom")] raised after
    a navigation to [http://localhost:8080/fail]. *)
Lemma test_case_failure_path_witness :
  TestCase._tracer Fake.login_case = Some Fake.counting_tracer
  /\ context_in_range (TestCase._suite_ctx Fake.login_case)
  /\ exists w3,
       Fake.boom_run = (Raise (Fake.RuntimeError "boom"), w3)
       /\ w_owner w3 = [false]
       /\ map getMessage (w_logs w3)
          = [("Test case FAILED: TC-001 [test-smoke] — boom "
              ++ "(url=http://localhost:8080/fail, "
              ++ "trace_id=000000000000000000000000000000ff, "
              ++ "span_id=0000000000000001)")%string].
Proof.
  split; [reflexivity |]. split; [reflexivity |].
  destruct (test_case_failure_path
              Fake.login_case (fst Fake.boom_entered) (fst Fake.boom_raised)
              Fake.counting_tracer Fake.boom_body
              (Fake.test_world Fake.mock_page) (snd Fake.boom_entered)
              (snd Fake.boom_raised) (Fake.RuntimeError "boom")
              eq_refl counting_tracer_in_range
              ltac:(reflexivity) ltac:(vm_compute; reflexivity)
              ltac:(vm_compute; reflexivity))
    as [sp [w3 [Hrun _]]].
  exists w3. split; [exact Hrun |].
  assert (E : w3 = snd Fake.boom_run)
    by (unfold Fake.boom_run; rewrite Hrun; reflexivity).
  rewrite E. split; vm_compute; reflexivity.
Defined.

(** C2 as stated fails on the non-emptiness of the failure reason: a test
    body that raises an exception without message closes its span with
    [test.case.failure_reason] the empty string. *)
Lemma failure_reason_can_be_empty :
  fst Fake.bare_raise_run = Raise (Fake.RuntimeError "")
  /\ exists final,
       w_finished (snd Fake.bare_raise_run) = [final]
       /\ dict_get "test.case.result" (attributes final) = Some (AStr "failed")
       /\ dict_get "test.case.failure_reason" (attributes final) = Some (AStr "").
Proof.
  split; [reflexivity |]. eexists. split; [vm_compute; reflexivity |].
  split; reflexivity.
Qed.

(** ** Suite aggregation (browser.py) *)

Module SuiteFacts.
Import Frame SpanFacts.

Section CaseOwner.
Context {Page Element Owner : Type} `{Driver Page Element}.

(** A test case calls the result callback exactly once, on its close, with
    [True] when its body returned and [False] when it raised; nothing else
    in the scope touches the owner of the callback. *)
Lemma async_with_owner (tc : TestCase.TestCase Owner) (tracer : Tracer)
      (body : list Script.step) (w : world Page Owner) :
  TestCase._tracer tc = Some tracer ->
  w_owner (snd (Script.async_with tc body w))
  = TestCase._record_result tc (is_ok (fst (Script.async_with tc body w))) (w_owner w).
Proof.
  intros Htr.
  destruct (TestCase.__aenter__ tc w) as [[t1|e0] w1] eqn:Hent.
  2: { unfold TestCase.__aenter__ in Hent. rewrite Htr in Hent. discriminate. }
  pose proof (CaseFacts.aenter_body_state _ _ _ _ Hent) as Hinv0.
  destruct (CaseFacts.aenter_inv _ _ _ _ Hent)
    as [tracer' [sp1 [_ [_ [Ht1 [Hq1 _]]]]]].
  destruct (CaseFacts.run_body_inv t1 body (t1, w1) Hinv0) as [Hinv Hq].
  unfold Script.async_with. rewrite Hent.
  destruct (Script.run_body body (t1, w1)) as [r [t2 w2]]. simpl in Hinv, Hq.
  destruct Hinv as [sp [extra [_ [_ Ht2]]]].
  assert (Hsp : TestCase._case_span t2 = Some (add_calls extra sp))
    by (rewrite Ht2; reflexivity).
  assert (Hrr : TestCase._record_result t2 = TestCase._record_result tc)
    by (rewrite Ht2, Ht1; reflexivity).
  unfold quiet in Hq, Hq1.
  assert (Hown : w_owner w2 = w_owner w) by congruence.
  destruct r as [[]|e]; simpl.
  - rewrite (CaseFacts.aexit_success t2 _ w2 Hsp). simpl. now rewrite Hrr, Hown.
  - rewrite (CaseFacts.aexit_failure t2 _ e w2 Hsp). simpl.
    rewrite Hrr, Hown. destruct (TestCase._logger t2); reflexivity.
Qed.

End CaseOwner.

Section Suite.
Context {Page Element : Type} `{Driver Page Element}.

Local Abbreviation W := (world Page Browser.InstrumentedBrowser).

Lemma count_passed_failed (seen : list (result unit)) :
  count_passed seen + count_failed seen = List.length seen.
Proof.
  unfold count_passed, count_failed.
  induction seen as [|r seen IH]; simpl; [reflexivity |].
  destruct (is_ok r); simpl; lia.
Qed.

(** [_record_result] moves one counter by one and nothing else. *)
Lemma record_result_effect (passed : bool) (b : Browser.InstrumentedBrowser) :
  same_suite b (Browser._record_result passed b)
  /\ Browser._total (Browser._record_result passed b) = Browser._total b
  /\ Browser._passed (Browser._record_result passed b)
     = (Browser._passed b + (if passed then 1 else 0))%Z
  /\ Browser._failed (Browser._record_result passed b)
     = (Browser._failed b + (if passed then 0 else 1))%Z.
Proof.
  unfold same_suite, Browser._record_result.
  destruct passed; simpl; repeat split; lia.
Qed.

(** [test_case] counts the case before the case runs and hands it the
    callback of the suite. *)
Lemma test_case_effect (name case_id tags description : string) (w : W)
      (logger : Logger) :
  Browser._logger (w_owner w) = Some logger ->
  exists tc w1,
    Browser.test_case name case_id tags description w = (Ok tc, w1)
    /\ TestCase._record_result tc = Browser._record_result
    /\ TestCase._tracer tc = Browser._tracer (w_owner w)
    /\ same_suite (w_owner w) (w_owner w1)
    /\ Browser._total (w_owner w1) = (Browser._total (w_owner w) + 1)%Z
    /\ Browser._passed (w_owner w1) = Browser._passed (w_owner w)
    /\ Browser._failed (w_owner w1) = Browser._failed (w_owner w).
Proof.
  intros Hlg. unfold Browser.test_case, bind, modify, gets, ret. simpl.
  rewrite Hlg.
  eexists. eexists. split; [reflexivity |]. unfold same_suite. simpl.
  rewrite Hlg. repeat split.
Qed.

(** What [__aenter__] leaves behind, whether or not the launch succeeds:
    the suite object holds the tracer, the logger and the suite span,
    which is started and not finished. *)
Lemma aenter_state (amb : Browser.Ambient) (w : W) :
  let out := Browser.__aenter__ amb w in
  let b := w_owner w in
  let cfg := Browser._config b in
  let sp := mk_span ("suite(" ++ Config.suite_name cfg ++ ")")%string None
                    (mk_span_context
                       (generate_trace_id (Browser.amb_tracer amb) (w_spans_started w))
                       (generate_span_id (Browser.amb_tracer amb) (w_spans_started w)))
                    (Browser.suite_attrs cfg amb) [] in
  w_owner (snd out)
  = Browser.mk_browser cfg (Some (Browser.amb_tracer amb)) (Some sp)
                       (Some (get_span_context sp))
                       (Some (mk_logger "smokeshow.test_results"))
                       (Browser._passed b) (Browser._failed b) (Browser._total b)
  /\ w_spans_started (snd out) = S (w_spans_started w)
  /\ w_finished (snd out) = w_finished w
  /\ w_logs (snd out) = w_logs w
  /\ w_flushes (snd out) = w_flushes w.
Proof.
  cbv zeta. unfold Browser.__aenter__, bind, gets, start_span, modify, on_page.
  cbn [fst snd w_owner w_page set_owner].
  destruct (playwright_start (w_page w)) as [[[]|e1] p1];
    cbn [fst snd w_owner w_page set_page set_owner w_spans_started w_finished
         w_logs w_flushes]; [| repeat split].
  destruct (browser_launch _ _ p1) as [[[]|e2] p2];
    cbn [fst snd w_owner w_page set_page set_owner w_spans_started w_finished
         w_logs w_flushes]; [| repeat split].
  destruct (browser_new_context _ _ p2) as [[[]|e3] p3];
    cbn [fst snd w_owner w_page set_page set_owner w_spans_started w_finished
         w_logs w_flushes]; [| repeat split].
  destruct (context_new_page p3) as [[[]|e4] p4];
    cbn [fst snd w_owner w_page set_page set_owner w_spans_started w_finished
         w_logs w_flushes]; repeat split.
Qed.

Lemma same_suite_trans (a b c : Browser.InstrumentedBrowser) :
  same_suite a b -> same_suite b c -> same_suite a c.
Proof. unfold same_suite. intuition congruence. Qed.

Lemma run_cases_cons (c : Browser.case_run) (cases : list Browser.case_run) (w : W) :
  Browser.run_cases (c :: cases) w
  = match Browser.test_case (Browser.cr_name c) (Browser.cr_case_id c)
                            (Browser.cr_tags c) (Browser.cr_description c) w with
    | (Raise e, w1) => ([], (Raise e, w1))
    | (Ok tc, w1) =>
        let '(r, w2) := Script.async_with tc (Browser.cr_body c) w1 in
        match r with
        | Ok _ =>
            let '(seen, out) := Browser.run_cases cases w2 in (r :: seen, out)
        | Raise e =>
            if Browser.cr_caught c
            then let '(seen, out) := Browser.run_cases cases w2 in (r :: seen, out)
            else ([r], (Raise e, w2))
        end
    end.
Proof. reflexivity. Qed.

(** The counters after the suite body: one more in total for every case
    the caller ran, one more passed or failed for every case that closed. *)
Lemma run_cases_counts (tracer : Tracer) (logger : Logger)
      (cases : list Browser.case_run) :
  forall w : W,
    Browser._tracer (w_owner w) = Some tracer ->
    Browser._logger (w_owner w) = Some logger ->
    let seen := fst (Browser.run_cases cases w) in
    let b := w_owner w in
    let b' := w_owner (snd (snd (Browser.run_cases cases w))) in
    same_suite b b'
    /\ Browser._total b' = (Browser._total b + Z.of_nat (List.length seen))%Z
    /\ Browser._passed b' = (Browser._passed b + Z.of_nat (count_passed seen))%Z
    /\ Browser._failed b' = (Browser._failed b + Z.of_nat (count_failed seen))%Z.
Proof.
  induction cases as [|c cases IH]; intros w Htr Hlg; cbv zeta.
  - simpl. unfold same_suite. repeat split; lia.
  - rewrite run_cases_cons.
    destruct (test_case_effect (Browser.cr_name c) (Browser.cr_case_id c)
                (Browser.cr_tags c) (Browser.cr_description c) w logger Hlg)
      as [tc [w1 [Etc [Hcb [Htc [Hs1 [Ht1 [Hp1 Hf1]]]]]]]].
    rewrite Etc.
    assert (Htr1 : TestCase._tracer tc = Some tracer) by congruence.
    pose proof (async_with_owner tc tracer (Browser.cr_body c) w1 Htr1) as Hown.
    destruct (Script.async_with tc (Browser.cr_body c) w1) as [r w2].
    simpl in Hown. rewrite Hcb in Hown.
    destruct (record_result_effect (is_ok r) (w_owner w1)) as [Hs2 [Ht2 [Hp2 Hf2]]].
    rewrite <- Hown in Hs2, Ht2, Hp2, Hf2.
    assert (Htr2 : Browser._tracer (w_owner w2) = Some tracer).
    { destruct Hs1 as [_ [E1 _]]. destruct Hs2 as [_ [E2 _]]. congruence. }
    assert (Hs : same_suite (w_owner w) (w_owner w2))
      by (eapply same_suite_trans; eassumption).
    assert (Hlg2 : Browser._logger (w_owner w2) = Some logger).
    { destruct Hs as [_ [_ [_ [_ E]]]]. congruence. }
    specialize (IH w2 Htr2 Hlg2). cbv zeta in IH.
    assert (Hrec :
      let out := Browser.run_cases cases w2 in
      same_suite (w_owner w) (w_owner (snd (snd out)))
      /\ Browser._total (w_owner (snd (snd out)))
         = (Browser._total (w_owner w) + Z.of_nat (S (List.length (fst out))))%Z
      /\ Browser._passed (w_owner (snd (snd out)))
         = (Browser._passed (w_owner w)
            + Z.of_nat (count_passed (r :: fst out)))%Z
      /\ Browser._failed (w_owner (snd (snd out)))
         = (Browser._failed (w_owner w)
            + Z.of_nat (count_failed (r :: fst out)))%Z).
    { cbv zeta. destruct IH as [I1 [I2 [I3 I4]]].
      split; [eapply same_suite_trans; eassumption |].
      unfold count_passed, count_failed in *. simpl.
      destruct r as [[]|e]; simpl in *; repeat split; lia. }
    cbv zeta in Hrec.
    destruct r as [[]|e].
    + destruct (Browser.run_cases cases w2) as [seen [r' w']]. exact Hrec.
    + destruct (Browser.cr_caught c).
      * destruct (Browser.run_cases cases w2) as [seen [r' w']]. exact Hrec.
      * simpl. split; [exact Hs |].
        unfold count_passed, count_failed. simpl in *. repeat split; lia.
Qed.

(** [__aexit__] stamps the counters and their classification on the suite
    span and ends it, whatever the teardown of the browser does next. *)
Lemma suite_aexit_finished (exc : option exn) (w : W) (sp : span) :
  Browser._suite_span (w_owner w) = Some sp ->
  let b := w_owner w in
  w_finished (snd (Browser.__aexit__ exc w))
  = w_finished w
    ++ [add_calls (suite_exit_calls (Browser._total b) (Browser._passed b)
                                     (Browser._failed b)
                                     (Browser.suite_result (Browser._passed b)
                                                           (Browser._failed b)))
                  sp].
Proof.
  intros Hsp. cbv zeta. unfold Browser.__aexit__, bind, gets. simpl. rewrite Hsp.
  unfold modify, on_page, force_flush. simpl.
  destruct (browser_close (w_page w)) as [[[]|e1] p1]; simpl;
    [destruct (playwright_stop p1) as [[[]|e2] p2]; simpl |];
    unfold add_calls, suite_exit_calls, call; simpl; rewrite <- !app_assoc; reflexivity.
Qed.

End Suite.
End SuiteFacts.

Section SuiteTotals.
Context {Page Element : Type} `{Driver Page Element}.

(** C1. Whatever the driver does, for every run of a suite that was
    entered (its [__aenter__] returned, so that its scope exits): with [N]
    the number of test cases the caller ran, [P] of which closed passed and
    [F] failed (so [P + F = N]), the suite scope exits with the root span
    finished last, ended once, carrying [test.suite.total_tests = N],
    [test.suite.passed = P], [test.suite.failed = F] and
    [test.suite.result] "passed" if [F = 0], "failed" if [P = 0] and
    [F > 0], "partial" otherwise. The total is counted by [test_case] when
    the case is created; passed and failed are counted by the callback the
    case calls on its close. *)
Theorem suite_totals_and_result
  (env : Config.environ) (kw : Config.kwargs) (page : Page)
  (amb : Browser.Ambient) (cases : list Browser.case_run) :
  let run := Browser.run_suite amb cases (Browser.initial_world env kw page) in
  let N := List.length (fst run) in
  let P := count_passed (fst run) in
  let F := count_failed (fst run) in
  P + F = N
  /\ (fst (Browser.__aenter__ amb (Browser.initial_world env kw page)) = Ok tt ->
      exists earlier root,
        w_finished (snd (snd run)) = earlier ++ [root]
        /\ span_name root
           = ("suite(" ++ Config.suite_name (Config.SmokeshowConfig_new env
                                               (Config.browser_kwargs kw)) ++ ")")%string
        /\ span_parent root = None
        /\ end_count root = 1
        /\ dict_get "test.suite.total_tests" (attributes root) = Some (AInt (Z.of_nat N))
        /\ dict_get "test.suite.passed" (attributes root) = Some (AInt (Z.of_nat P))
        /\ dict_get "test.suite.failed" (attributes root) = Some (AInt (Z.of_nat F))
        /\ dict_get "test.suite.result" (attributes root)
           = Some (AStr (match F, P with
                         | O, _ => "passed"
                         | S _, O => "failed"
                         | S _, S _ => "partial"
                         end)))
  /\ (forall name case_id tags description (w : world Page Browser.InstrumentedBrowser)
             logger,
        Browser._logger (w_owner w) = Some logger ->
        exists tc w1,
          Browser.test_case name case_id tags description w = (Ok tc, w1)
          /\ TestCase._record_result tc = Browser._record_result
          /\ Browser._total (w_owner w1) = (Browser._total (w_owner w) + 1)%Z
          /\ Browser._passed (w_owner w1) = Browser._passed (w_owner w)
          /\ Browser._failed (w_owner w1) = Browser._failed (w_owner w))
  /\ (forall (tc : TestCase.TestCase Browser.InstrumentedBrowser) tracer body
             (w : world Page Browser.InstrumentedBrowser),
        TestCase._tracer tc = Some tracer ->
        TestCase._record_result tc = Browser._record_result ->
        let out := Script.async_with tc body w in
        let b := w_owner w in
        let b' := w_owner (snd out) in
        Browser._total b' = Browser._total b
        /\ Browser._passed b'
           = (Browser._passed b + (if is_ok (fst out) then 1 else 0))%Z
        /\ Browser._failed b'
           = (Browser._failed b + (if is_ok (fst out) then 0 else 1))%Z).
Proof.
  cbv zeta. split; [apply SuiteFacts.count_passed_failed |].
  split; [| split].
  - intros Hentered. unfold Browser.run_suite.
    set (w0 := Browser.initial_world env kw page) in *.
    pose proof (SuiteFacts.aenter_state amb w0) as Hst. cbv zeta in Hst.
    destruct (Browser.__aenter__ amb w0) as [r1 w1].
    cbn [fst snd] in Hentered, Hst. subst r1. destruct Hst as [Hw1 _].
    set (cfg := Config.SmokeshowConfig_new env (Config.browser_kwargs kw)) in *.
    set (sp0 := mk_span ("suite(" ++ Config.suite_name cfg ++ ")") None
                        (mk_span_context
                           (generate_trace_id (Browser.amb_tracer amb) 0)
                           (generate_span_id (Browser.amb_tracer amb) 0))
                        (Browser.suite_attrs cfg amb) []) in *.
    assert (Htr : Browser._tracer (w_owner w1) = Some (Browser.amb_tracer amb))
      by (rewrite Hw1; reflexivity).
    assert (Hlg : Browser._logger (w_owner w1)
                  = Some (mk_logger "smokeshow.test_results"))
      by (rewrite Hw1; reflexivity).
    assert (Hsp : Browser._suite_span (w_owner w1) = Some sp0)
      by (rewrite Hw1; reflexivity).
    assert (Hzero : Browser._total (w_owner w1) = 0%Z
                    /\ Browser._passed (w_owner w1) = 0%Z
                    /\ Browser._failed (w_owner w1) = 0%Z)
      by (rewrite Hw1; repeat split).
    destruct Hzero as [Ht0 [Hp0 Hf0]].
    destruct (SuiteFacts.run_cases_counts (Browser.amb_tracer amb) _ cases w1 Htr Hlg)
      as [Hs [Ht [Hp Hf]]].
    destruct (Browser.run_cases cases w1) as [seen [r w2]]. simpl in Hs, Ht, Hp, Hf.
    destruct Hs as [_ [_ [Hsp2 _]]]. rewrite Hsp in Hsp2.
    pose proof (SuiteFacts.suite_aexit_finished (exc_val r) w2 sp0 Hsp2) as Hfin.
    cbv zeta in Hfin. rewrite Ht, Hp, Hf, Ht0, Hp0, Hf0 in Hfin. simpl Z.add in Hfin.
    set (root := add_calls _ sp0) in Hfin.
    assert (Hroot :
      span_name root = ("suite(" ++ Config.suite_name cfg ++ ")")%string
      /\ span_parent root = None
      /\ end_count root = 1
      /\ dict_get "test.suite.total_tests" (attributes root)
         = Some (AInt (Z.of_nat (List.length seen)))
      /\ dict_get "test.suite.passed" (attributes root)
         = Some (AInt (Z.of_nat (count_passed seen)))
      /\ dict_get "test.suite.failed" (attributes root)
         = Some (AInt (Z.of_nat (count_failed seen)))
      /\ dict_get "test.suite.result" (attributes root)
         = Some (AStr (match count_failed seen, count_passed seen with
                       | O, _ => "passed"
                       | S _, O => "failed"
                       | S _, S _ => "partial"
                       end))).
    { subst root. split; [reflexivity |]. split; [reflexivity |].
      split; [reflexivity |].
      rewrite SpanFacts.attributes_add_calls. unfold suite_exit_calls.
      cbn [fold_left apply_attribute].
      repeat split.
      - do 3 (rewrite SpanFacts.dict_get_set_other by reflexivity).
        apply SpanFacts.dict_get_set_same.
      - do 2 (rewrite SpanFacts.dict_get_set_other by reflexivity).
        apply SpanFacts.dict_get_set_same.
      - rewrite SpanFacts.dict_get_set_other by reflexivity.
        apply SpanFacts.dict_get_set_same.
      - rewrite SpanFacts.dict_get_set_same. unfold Browser.suite_result.
        destruct (count_failed seen) as [|f]; [reflexivity |].
        destruct (count_passed seen) as [|p]; reflexivity. }
    exists (w_finished w2), root.
    destruct (Browser.__aexit__ (exc_val r) w2) as [[suppress|e'] w3];
      simpl in Hfin; destruct r as [[]|e]; simpl;
      (split; [exact Hfin | exact Hroot]).
  - intros name case_id tags description w logger Hlg.
    destruct (SuiteFacts.test_case_effect name case_id tags description w logger Hlg)
      as [tc [w1 [E [Hcb [_ [_ [Ht [Hp Hf]]]]]]]].
    exists tc, w1. repeat split; assumption.
  - intros tc tracer body w Htr Hcb. cbv zeta.
    rewrite (SuiteFacts.async_with_owner tc tracer body w Htr), Hcb.
    destruct (SuiteFacts.record_result_effect
                (is_ok (fst (Script.async_with tc body w))) (w_owner w))
      as [_ [Ht [Hp Hf]]].
    repeat split; assumption.
Qed.

End SuiteTotals.

(** ** The instrumented actions (actions.py, spans.py) *)

Module ActionFacts.

(** Runs an action symbolically: unfolds it and splits on every outcome of
    the driver and every branch of the action. *)
Ltac unfold_action :=
  unfold navigate, click, fill, assert_visible, assert_text, assert_count,
    assert_url, with_span, action_span, start_span, set_page_url, current_url,
    page_call, getitem, in_world, on_page, on_span, try_except_Exception_pass,
    bind, ret, raise, gets;
  cbn [fst snd w_page w_finished set_page export].

Ltac innermost x :=
  lazymatch x with
  | context [match _ with _ => _ end] => fail
  | _ => idtac
  end.

Ltac split_outcomes :=
  repeat match goal with
         | |- context [match ?x with _ => _ end] =>
             innermost x; destruct x eqn:?;
             cbn [fst snd w_page w_finished set_page export exc_val]
         end.

Ltac recorded :=
  unfold action_recorded; unfold_action; split_outcomes;
  eexists; eexists;
  (split; [reflexivity |]); (split; [reflexivity |]); (split; [reflexivity |]);
  (split; [reflexivity |]); reflexivity.

Section ActionFacts.
Context {Page Element Owner : Type} `{Driver Page Element}.

Local Abbreviation W := (world Page Owner).

Lemma navigate_recorded (a : ActionInstrumentor) (url : string) (w : W) :
  action_recorded (page_url (w_page w)) w (snd (navigate a url w))
                  "navigate" None [("test.action.target_url", AStr url)].
Proof. recorded. Qed.

Lemma click_recorded (a : ActionInstrumentor) (selector : string) (w : W) :
  action_recorded (page_url (w_page w)) w (snd (click a selector w))
                  "click" (Some selector) [].
Proof. recorded. Qed.

Lemma fill_recorded (a : ActionInstrumentor) (selector value : string)
      (sensitive : bool) (w : W) :
  action_recorded (page_url (w_page w)) w (snd (fill a selector value sensitive w))
                  "fill" (Some selector) [].
Proof. recorded. Qed.

Lemma assert_visible_recorded (a : ActionInstrumentor) (selector : string) (w : W) :
  action_recorded (page_url (w_page w)) w (snd (assert_visible a selector w))
                  "assert_visible" (Some selector) [].
Proof. recorded. Qed.

Lemma assert_text_recorded (a : ActionInstrumentor) (selector expected : string) (w : W) :
  action_recorded (page_url (w_page w)) w (snd (assert_text a selector expected w))
                  "assert_text" (Some selector) [].
Proof. recorded. Qed.

Lemma assert_count_recorded (a : ActionInstrumentor) (selector : string)
      (expected_count : Z) (w : W) :
  action_recorded (page_url (w_page w)) w
                  (snd (assert_count a selector expected_count w))
                  "assert_count" (Some selector) [].
Proof. recorded. Qed.

Lemma assert_url_recorded (a : ActionInstrumentor) (pattern : string) (w : W) :
  action_recorded (page_url (w_page w)) w (snd (assert_url a pattern w))
                  "assert_url" None [].
Proof. recorded. Qed.

End ActionFacts.
End ActionFacts.

(** The suite of the unit tests: one case passes, one fails. *)
Lemma suite_totals_and_result_witness :
  fst Fake.pass_and_fail_run = [Ok tt; Raise (Fake.RuntimeError "intentional")]
  /\ exists earlier root,
       w_finished (snd (snd Fake.pass_and_fail_run)) = earlier ++ [root]
       /\ dict_get "test.suite.total_tests" (attributes root) = Some (AInt 2)
       /\ dict_get "test.suite.passed" (attributes root) = Some (AInt 1)
       /\ dict_get "test.suite.failed" (attributes root) = Some (AInt 1)
       /\ dict_get "test.suite.result" (attributes root) = Some (AStr "partial").
Proof.
  split; [vm_compute; reflexivity |].
  destruct (suite_totals_and_result [] Config.no_kwargs Fake.mock_page
              Fake.ambient Fake.pass_and_fail)
    as [_ [Hentered _]].
  destruct (Hentered ltac:(reflexivity))
    as [earlier [root [Hfin [_ [_ [_ [Ht [Hp [Hf Hr]]]]]]]]].
  exists earlier, root. split; [exact Hfin |].
  split; [exact Ht |]. split; [exact Hp |]. split; [exact Hf | exact Hr].
Defined.

(** ** fill: redaction touches the recorded copy only *)

Section Fill.
Context {Page Element Owner : Type} `{Driver Page Element}.

(** C4. For every [fill(selector, value, sensitive)]: the attribute
    [test.action.input_value] of the action span is the output of the
    redaction policy (the sentinel when the flag is set or the selector is
    sensitive, the literal value otherwise), and the driver's fill is
    called with the selector and the original value: the action returns
    what that call returns and leaves the page that call leaves. *)
Theorem fill_redacts_only_the_recorded_value
  (a : ActionInstrumentor) (selector value : string) (sensitive : bool)
  (w : world Page Owner) :
  let out := fill a selector value sensitive w in
  let driver := page_fill selector value (w_page w) in
  fst out = fst driver
  /\ w_page (snd out) = snd driver
  /\ exists sp,
       w_finished (snd out) = w_finished w ++ [sp]
       /\ dict_get "test.action.input_value" (attributes sp)
          = Some (AStr (Sensitive.redact_if_needed value selector sensitive))
       /\ (Sensitive.should_redact selector sensitive ->
           dict_get "test.action.input_value" (attributes sp)
           = Some (AStr "[REDACTED]"))
       /\ (~ Sensitive.should_redact selector sensitive ->
           dict_get "test.action.input_value" (attributes sp) = Some (AStr value)).
Proof.
  cbv zeta.
  assert (Hpol : forall v,
            v = Sensitive.redact_if_needed value selector sensitive ->
            (Sensitive.should_redact selector sensitive -> v = "[REDACTED]")
            /\ (~ Sensitive.should_redact selector sensitive -> v = value)).
  { intros v ->. unfold Sensitive.redact_if_needed.
    pose proof (StrFacts.decision_iff selector sensitive) as D.
    destruct (sensitive || Sensitive.is_sensitive_selector selector).
    - split; [reflexivity | intros Hn; exfalso; apply Hn, D; reflexivity].
    - split; [intros Hs; apply D in Hs; discriminate | reflexivity]. }
  destruct (Hpol _ eq_refl) as [Hyes Hno].
  ActionFacts.unfold_action.
  destruct (page_fill selector value (w_page w)) as [[[]|e] p];
    cbn [fst snd w_page w_finished set_page export exc_val];
    (split; [reflexivity |]); (split; [reflexivity |]);
    eexists; (split; [reflexivity |]);
    unfold attributes, call; cbn [span_calls span_init_attributes app fold_left apply_attribute];
    rewrite SpanFacts.dict_get_set_same;
    (split; [reflexivity |]); split; intros Hs;
    [rewrite (Hyes Hs) | rewrite (Hno Hs) | rewrite (Hyes Hs) | rewrite (Hno Hs)];
    reflexivity.
Qed.

End Fill.

(** The two fills of the unit tests: the password is recorded redacted and
    typed as it is, the e-mail address is recorded as it is. *)
Lemma fill_redacts_only_the_recorded_value_witness :
  (exists sp,
     w_finished (snd (fill Fake.instrumentor "input#password" "secret123" false
                           (Fake.test_world Fake.mock_page))) = [sp]
     /\ dict_get "test.action.input_value" (attributes sp) = Some (AStr "[REDACTED]"))
  /\ Fake.fake_calls
       (w_page (snd (fill Fake.instrumentor "input#password" "secret123" false
                          (Fake.test_world Fake.mock_page))))
     = [Fake.CallFill "input#password" "secret123"]
  /\ (exists sp,
        w_finished (snd (fill Fake.instrumentor "input#email" "test@example.com" false
                              (Fake.test_world Fake.mock_page))) = [sp]
        /\ dict_get "test.action.input_value" (attributes sp)
           = Some (AStr "test@example.com")).
Proof.
  split; [| split].
  - destruct (fill_redacts_only_the_recorded_value Fake.instrumentor
                "input#password" "secret123" false (Fake.test_world Fake.mock_page))
      as [_ [_ [sp [Hfin [Hv _]]]]].
    exists sp. split; [exact Hfin | exact Hv].
  - destruct (fill_redacts_only_the_recorded_value Fake.instrumentor
                "input#password" "secret123" false (Fake.test_world Fake.mock_page))
      as [_ [Hp _]].
    rewrite Hp. reflexivity.
  - destruct (fill_redacts_only_the_recorded_value Fake.instrumentor
                "input#email" "test@example.com" false (Fake.test_world Fake.mock_page))
      as [_ [_ [sp [Hfin [Hv _]]]]].
    exists sp. split; [exact Hfin | exact Hv].
Defined.

(** ** The assertions on text and count *)

Section Assertions.
Context {Page Element Owner : Type} `{Driver Page Element}.

(** C6. [assert_count(selector, expected)], once the elements are
    queried, succeeds exactly when their number equals [expected], with
    [test.action.result = "success"] and status OK; otherwise it sets
    [test.action.result = "failed"], sets the status to ERROR, and raises an
    [AssertionError] with the message
    [Expected <expected> elements matching '<selector>', got <actual>]. *)
Theorem assert_count_outcome
  (a : ActionInstrumentor) (selector : string) (expected_count : Z)
  (w : world Page Owner) (elements : list Element) (p1 : Page) :
  page_query_selector_all selector (w_page w) = (Ok elements, p1) ->
  let out := assert_count a selector expected_count w in
  let actual := List.length elements in
  let message := ("Expected " ++ str_of_int expected_count
                  ++ " elements matching '" ++ selector ++ "', got "
                  ++ str_of_int (Z.of_nat actual))%string in
  exists sp,
    w_finished (snd out) = w_finished w ++ [sp]
    /\ (fst out = Ok tt <-> Z.of_nat actual = expected_count)
    /\ (Z.of_nat actual = expected_count ->
        fst out = Ok tt
        /\ dict_get "test.action.result" (attributes sp) = Some (AStr "success")
        /\ status sp = (OK, None))
    /\ (Z.of_nat actual <> expected_count ->
        fst out = Raise (AssertionError message)
        /\ dict_get "test.action.result" (attributes sp) = Some (AStr "failed")
        /\ fst (status sp) = ERROR).
Proof.
  intros Hquery. cbv zeta.
  ActionFacts.unfold_action. rewrite Hquery.
  cbn [fst snd w_page w_finished set_page export exc_val].
  destruct (Z.eqb_spec (Z.of_nat (List.length elements)) expected_count) as [E | E];
    cbn [fst snd w_page w_finished set_page export exc_val];
    eexists; (split; [reflexivity |]); split.
  - split; [intros _; exact E | reflexivity].
  - split; [intros _ | intros Hn; contradiction].
    split; [reflexivity |]. split; [| reflexivity].
    unfold attributes, call; cbn [span_calls span_init_attributes app fold_left apply_attribute].
    apply SpanFacts.dict_get_set_same.
  - split; [discriminate | intros Hn; contradiction].
  - split; [intros Hn; contradiction | intros _].
    split; [reflexivity |]. split; [| reflexivity].
    unfold attributes, call; cbn [span_calls span_init_attributes app fold_left apply_attribute].
    apply SpanFacts.dict_get_set_same.
Qed.

End Assertions.

(** C5 fails on text outside ASCII. The heading reads [ΘΕΣΣΑΛΟΝΙΚΗ] and
    the expected text is [ΘΕΣ], which occurs in it as it is written. The
    action lower-cases both sides on their own: [ΘΕΣ] ends in a final
    sigma once lower-cased, the heading holds two medial ones, and
    [assert_text] raises its [AssertionError] with
    [test.action.result = "failed"] and status ERROR. *)
Theorem assert_text_misses_a_verbatim_occurrence :
  let expected := "ΘΕΣ"%string in
  let text := "ΘΕΣΣΑΛΟΝΙΚΗ"%string in
  let out := assert_text Fake.instrumentor "h1" expected
                         (Fake.test_world (Fake.page_with_heading text)) in
  contains expected text = true
  /\ lower expected = "θες"%string
  /\ lower text = "θεσσαλονικη"%string
  /\ fst out = Raise (AssertionError "Expected 'ΘΕΣ' in 'ΘΕΣΣΑΛΟΝΙΚΗ'")
  /\ exists sp,
       w_finished (snd out) = [sp]
       /\ dict_get "test.action.result" (attributes sp) = Some (AStr "failed")
       /\ status sp = (ERROR, Some "Expected 'ΘΕΣ' in 'ΘΕΣΣΑΛΟΝΙΚΗ'"%string).
Proof.
  cbv zeta. split; [vm_compute; reflexivity |].
  split; [vm_compute; reflexivity |]. split; [vm_compute; reflexivity |].
  split; [vm_compute; reflexivity |].
  eexists. split; [vm_compute; reflexivity |]. split; vm_compute; reflexivity.
Qed.

(** The list of the unit tests: three items are counted as three; one item
    where three are expected fails with the message of the claim. *)
Lemma assert_count_outcome_witness :
  fst (assert_count Fake.instrumentor "li" 3
                    (Fake.test_world (Fake.page_with_elements 3))) = Ok tt
  /\ fst (assert_count Fake.instrumentor "li" 3
                       (Fake.test_world (Fake.page_with_elements 1)))
     = Raise (AssertionError "Expected 3 elements matching 'li', got 1").
Proof.
  split.
  - destruct (assert_count_outcome (H := Fake.fake_driver) Fake.instrumentor "li" 3
                (Fake.test_world (Fake.page_with_elements 3)) [tt; tt; tt]
                (Fake.record (Fake.CallQuerySelectorAll "li")
                             (Fake.page_with_elements 3))
                ltac:(reflexivity))
      as [sp [_ [_ [Hyes _]]]].
    apply Hyes. reflexivity.
  - destruct (assert_count_outcome (H := Fake.fake_driver) Fake.instrumentor "li" 3
                (Fake.test_world (Fake.page_with_elements 1)) [tt]
                (Fake.record (Fake.CallQuerySelectorAll "li")
                             (Fake.page_with_elements 1))
                ltac:(reflexivity))
      as [sp [_ [_ [_ Hno]]]].
    apply Hno. discriminate.
Defined.

(** ** The page URL of an action *)

Section PageUrl.
Context {Page Element Owner : Type} `{Driver Page Element}.

Lemma recorded_page_url_after_creation (url_at_call : string)
      (before after : world Page Owner) action_type selector extra_attrs :
  action_recorded url_at_call before after action_type selector extra_attrs ->
  page_url_after_creation url_at_call before after action_type selector extra_attrs.
Proof.
  intros [sp [rest [Hfin [_ [Hinit [Hcalls _]]]]]].
  exists sp. eexists. split; [exact Hfin |].
  unfold attribute_writes. rewrite Hinit, Hcalls. reflexivity.
Qed.

(** C8, amended. For each of the seven instrumented actions the span is
    created with its creation-time attributes ([test.action.type] first,
    then [test.action.selector] when a selector is given, then
    [test.action.target_url] for navigate); after these the current page
    location is recorded as [test.action.page_url] before anything else is
    recorded on the span, and its value is the URL the driver reports for
    the page as it is when the action is invoked. *)
Theorem page_url_recorded_first_after_creation
  (a : ActionInstrumentor) (w : world Page Owner) :
  let now := page_url (w_page w) in
  (forall url,
      page_url_after_creation now w (snd (navigate a url w))
                              "navigate" None [("test.action.target_url", AStr url)])
  /\ (forall selector,
         page_url_after_creation now w (snd (click a selector w))
                                 "click" (Some selector) [])
  /\ (forall selector value sensitive,
         page_url_after_creation now w (snd (fill a selector value sensitive w))
                                 "fill" (Some selector) [])
  /\ (forall selector,
         page_url_after_creation now w (snd (assert_visible a selector w))
                                 "assert_visible" (Some selector) [])
  /\ (forall selector expected,
         page_url_after_creation now w (snd (assert_text a selector expected w))
                                 "assert_text" (Some selector) [])
  /\ (forall selector expected_count,
         page_url_after_creation now w (snd (assert_count a selector expected_count w))
                                 "assert_count" (Some selector) [])
  /\ (forall pattern,
         page_url_after_creation now w (snd (assert_url a pattern w))
                                 "assert_url" None [])
  /\ (forall action_type selector,
         hd_error (action_attrs action_type selector [])
         = Some ("test.action.type", AStr action_type))
  /\ (forall url,
         action_attrs "navigate" None [("test.action.target_url", AStr url)]
         = [("test.action.type", AStr "navigate");
            ("test.action.target_url", AStr url)]).
Proof.
  cbv zeta.
  split; [intros; apply recorded_page_url_after_creation,
            ActionFacts.navigate_recorded |].
  split; [intros; apply recorded_page_url_after_creation,
            ActionFacts.click_recorded |].
  split; [intros; apply recorded_page_url_after_creation,
            ActionFacts.fill_recorded |].
  split; [intros; apply recorded_page_url_after_creation,
            ActionFacts.assert_visible_recorded |].
  split; [intros; apply recorded_page_url_after_creation,
            ActionFacts.assert_text_recorded |].
  split; [intros; apply recorded_page_url_after_creation,
            ActionFacts.assert_count_recorded |].
  split; [intros; apply recorded_page_url_after_creation,
            ActionFacts.assert_url_recorded |].
  split; [| reflexivity].
  intros action_type selector. unfold action_attrs.
  destruct (selector_given selector); reflexivity.
Qed.

End PageUrl.

(** C8 as stated fails: on the span of a navigation the attributes
    [test.action.type] and [test.action.target_url] are recorded, at
    creation, before [test.action.page_url]. *)
Lemma page_url_is_not_the_first_attribute :
  exists sp,
    w_finished (snd (navigate Fake.instrumentor "http://localhost:8080/next"
                              (Fake.test_world Fake.mock_page))) = [sp]
    /\ attribute_writes sp
       = [("test.action.type", AStr "navigate");
          ("test.action.target_url", AStr "http://localhost:8080/next");
          ("test.action.page_url", AStr "http://localhost:8080/");
          ("test.navigation.response_status", AInt 200)].
Proof. eexists. split; reflexivity. Qed.

(** A click after a navigation records the URL the navigation led to, not
    the one recorded by the navigation. *)
Lemma page_url_recorded_first_after_creation_witness :
  exists sp later,
    w_finished (snd (click Fake.instrumentor "button#submit" Fake.after_navigation))
    = w_finished Fake.after_navigation ++ [sp]
    /\ attribute_writes sp
       = [("test.action.type", AStr "click");
          ("test.action.selector", AStr "button#submit");
          ("test.action.page_url", AStr "http://localhost:8080/next")] ++ later.
Proof.
  destruct (page_url_recorded_first_after_creation
              Fake.instrumentor Fake.after_navigation)
    as [_ [Hclick _]].
  destruct (Hclick "button#submit") as [sp [later [Hfin Hw]]].
  exists sp, later. split; [exact Hfin | exact Hw].
Defined.

(** ** navigate: failures of the timing collection *)

Section NavigateTiming.
Context {Page Element Owner : Type} `{Driver Page Element}.

(** C9, amended. A failure of the driver navigation propagates. Once the
    navigation has returned, an error in the timing collection does not
    fail the action: [navigate] returns normally with status OK. When the
    timing script itself raises (an error deriving from [Exception]), none
    of the four timing attributes is recorded. When the script returns,
    the four attributes are read from the entry in the order
    [domContentLoaded], [loadEvent], [transferSize], [domInteractive]: each
    is recorded with the value the entry holds, up to the first key the
    entry lacks, where the collection stops; no entry and an empty entry
    record nothing. *)
Theorem navigate_timing_failure
  (a : ActionInstrumentor) (url : string) (w : world Page Owner) :
  let out := navigate a url w in
  (forall e p1,
      page_goto url "domcontentloaded" (w_page w) = (Raise e, p1) ->
      fst out = Raise e)
  /\ (forall response p1 e p2,
         page_goto url "domcontentloaded" (w_page w) = (Ok response, p1) ->
         page_evaluate NAVIGATION_TIMING_SCRIPT p1 = (Raise e, p2) ->
         exc_is_exception e = true ->
         fst out = Ok tt
         /\ exists sp,
              w_finished (snd out) = w_finished w ++ [sp]
              /\ status sp = (OK, None)
              /\ dict_get "test.navigation.dom_content_loaded_ms" (attributes sp) = None
              /\ dict_get "test.navigation.load_event_ms" (attributes sp) = None
              /\ dict_get "test.navigation.transfer_size_bytes" (attributes sp) = None
              /\ dict_get "test.navigation.dom_interactive_ms" (attributes sp) = None)
  /\ (forall response p1 timing p2,
         page_goto url "domcontentloaded" (w_page w) = (Ok response, p1) ->
         page_evaluate NAVIGATION_TIMING_SCRIPT p1 = (Ok timing, p2) ->
         let held key :=
           match timing with
           | Some entry => dict_get key entry
           | None => None
           end in
         let after (earlier : option attr_value) (later : option attr_value) :=
           match earlier with Some _ => later | None => None end in
         let first := held "domContentLoaded" in
         let second := after first (held "loadEvent") in
         let third := after second (held "transferSize") in
         let fourth := after third (held "domInteractive") in
         fst out = Ok tt
         /\ exists sp,
              w_finished (snd out) = w_finished w ++ [sp]
              /\ status sp = (OK, None)
              /\ dict_get "test.navigation.dom_content_loaded_ms" (attributes sp) = first
              /\ dict_get "test.navigation.load_event_ms" (attributes sp) = second
              /\ dict_get "test.navigation.transfer_size_bytes" (attributes sp) = third
              /\ dict_get "test.navigation.dom_interactive_ms" (attributes sp)
                 = fourth).
Proof.
  cbv zeta. split; [| split].
  - intros e p1 Hgoto. ActionFacts.unfold_action. rewrite Hgoto. reflexivity.
  - intros response p1 e p2 Hgoto Heval Hexc.
    ActionFacts.unfold_action. rewrite Hgoto.
    cbn [fst snd w_page w_finished set_page export exc_val].
    destruct response as [r|];
      cbn [fst snd w_page w_finished set_page export exc_val];
      rewrite Heval; cbn [fst snd w_page w_finished set_page export exc_val];
      rewrite Hexc; cbn [fst snd w_page w_finished set_page export exc_val];
      (split; [reflexivity |]); eexists; (split; [reflexivity |]);
      repeat split.
  - intros response p1 timing p2 Hgoto Heval.
    ActionFacts.unfold_action. rewrite Hgoto.
    cbn [fst snd w_page w_finished set_page export exc_val].
    destruct response as [r|];
      cbn [fst snd w_page w_finished set_page export exc_val];
      rewrite Heval; cbn [fst snd w_page w_finished set_page export exc_val];
      (destruct timing as [[|kv entry]|];
       [| unfold getitem, raise, ret;
          destruct (dict_get "domContentLoaded" (kv :: entry)) as [v1|];
          [destruct (dict_get "loadEvent" (kv :: entry)) as [v2|];
           [destruct (dict_get "transferSize" (kv :: entry)) as [v3|];
            [destruct (dict_get "domInteractive" (kv :: entry)) as [v4|] | ] | ] | ]
        |]);
      cbn [fst snd w_page w_finished set_page export exc_val exc_is_exception KeyError];
      (split; [reflexivity |]); eexists; (split; [reflexivity |]);
      (split; [reflexivity |]); repeat split.
Qed.

End NavigateTiming.

(** A page whose timing evaluation raises a Playwright error: the
    navigation completes. *)
Lemma navigate_timing_failure_witness :
  fst (navigate Fake.instrumentor "http://localhost:8080/"
                (Fake.test_world
                   (Fake.page_without_timing (Fake.PlaywrightError "no timing"))))
  = Ok tt.
Proof.
  destruct (navigate_timing_failure (H := Fake.fake_driver)
              Fake.instrumentor "http://localhost:8080/"
              (Fake.test_world
                 (Fake.page_without_timing (Fake.PlaywrightError "no timing"))))
    as [_ [Hswallow _]].
  destruct (Hswallow
              (Some (mk_response 200))
              (Fake.moved_to "http://localhost:8080/"
                 (Fake.record (Fake.CallGoto "http://localhost:8080/" "domcontentloaded")
                    (Fake.page_without_timing (Fake.PlaywrightError "no timing"))))
              (Fake.PlaywrightError "no timing")
              (Fake.record (Fake.CallEvaluate NAVIGATION_TIMING_SCRIPT)
                 (Fake.moved_to "http://localhost:8080/"
                    (Fake.record
                       (Fake.CallGoto "http://localhost:8080/" "domcontentloaded")
                       (Fake.page_without_timing (Fake.PlaywrightError "no timing")))))
              ltac:(reflexivity) ltac:(reflexivity) ltac:(reflexivity))
    as [Hok _].
  exact Hok.
Defined.

(** C9 as stated fails: a timing collection that raises does not always
    omit all four timing attributes. The entry holds [domContentLoaded]
    only: reading [loadEvent] raises a [KeyError] inside the guarded
    block, after the first attribute has been recorded. [navigate]
    returns with status OK and the span carries
    [test.navigation.dom_content_loaded_ms]. *)
Lemma navigate_keeps_timing_read_before_the_error :
  let entry := [("domContentLoaded"%string, AInt 150)] in
  let out := navigate Fake.instrumentor "http://localhost:8080/"
                      (Fake.test_world (Fake.page_with_timing entry)) in
  dict_get "loadEvent" entry = None
  /\ fst out = Ok tt
  /\ exists sp,
       w_finished (snd out) = [sp]
       /\ status sp = (OK, None)
       /\ dict_get "test.navigation.dom_content_loaded_ms" (attributes sp)
          = Some (AInt 150)
       /\ dict_get "test.navigation.load_event_ms" (attributes sp) = None.
Proof.
  cbv zeta. split; [reflexivity |]. split; [vm_compute; reflexivity |].
  eexists. split; [vm_compute; reflexivity |]. repeat split.
Qed.

(** ** An empty selector *)

Section EmptySelector.
Context {Page Element Owner : Type} `{Driver Page Element}.

Lemma no_later_write (key : string) (cs : list span_call) :
  forall d : dict attr_value,
    forallb (fun c => negb (sets_key key c)) cs = true ->
    dict_get key d = None ->
    dict_get key (fold_left apply_attribute cs d) = None.
Proof.
  induction cs as [|c cs IH]; intros d Hcs Hd; simpl in *; [exact Hd |].
  apply andb_true_iff in Hcs as [Hc Hcs]. apply IH; [exact Hcs |].
  destruct c; simpl in *; try exact Hd.
  rewrite SpanFacts.dict_get_set_other; [exact Hd |].
  now apply negb_true_iff in Hc.
Qed.

(** An action on the selector [""] leaves a span named by the action type
    alone, without the attribute [test.action.selector]. *)
Lemma recorded_without_selector (url_at_call : string)
      (before after : world Page Owner) (action_type : string) :
  action_recorded url_at_call before after action_type (Some ""%string) [] ->
  exists sp,
    w_finished after = w_finished before ++ [sp]
    /\ span_name sp = action_type
    /\ dict_get "test.action.selector" (attributes sp) = None.
Proof.
  intros [sp [rest [Hfin [Hname [Hinit [Hcalls Hrest]]]]]].
  exists sp. split; [exact Hfin |]. split; [exact Hname |].
  unfold attributes. rewrite Hinit, Hcalls.
  apply no_later_write; [| reflexivity].
  simpl. exact Hrest.
Qed.

(** C10. An empty string given as the selector is no selector at all: the
    action span, asked for through [action_span] or through the escape
    hatch of a test case, is the one asked for without a selector, named
    by the action type alone and created with [test.action.type] and the
    extra attributes only; and each instrumented action that takes a
    selector, called with [""], leaves a span named by its type alone
    without the attribute [test.action.selector]. *)
Theorem empty_selector_is_no_selector
  (a : ActionInstrumentor) (w : world Page Owner) :
  (forall tracer ctx action_type extra_attrs,
      action_span tracer ctx action_type (Some ""%string) extra_attrs w
      = action_span tracer ctx action_type None extra_attrs w)
  /\ (forall (t : TestCase.TestCase Owner) action_type extra_attrs,
         TestCase.action_span t action_type (Some ""%string) extra_attrs w
         = TestCase.action_span t action_type None extra_attrs w)
  /\ (forall tracer ctx action_type extra_attrs,
         exists sp,
           fst (action_span tracer ctx action_type (Some ""%string) extra_attrs w)
           = Ok sp
           /\ span_name sp = action_type
           /\ span_init_attributes sp
              = dict_update [("test.action.type", AStr action_type)] extra_attrs
           /\ span_calls sp = [])
  /\ (forall action_type,
         dict_get "test.action.selector"
                  (dict_update [("test.action.type", AStr action_type)] []) = None)
  /\ (exists sp, w_finished (snd (click a "" w)) = w_finished w ++ [sp]
                 /\ span_name sp = "click"%string
                 /\ dict_get "test.action.selector" (attributes sp) = None)
  /\ (forall value sensitive,
         exists sp, w_finished (snd (fill a "" value sensitive w)) = w_finished w ++ [sp]
                    /\ span_name sp = "fill"%string
                    /\ dict_get "test.action.selector" (attributes sp) = None)
  /\ (exists sp, w_finished (snd (assert_visible a "" w)) = w_finished w ++ [sp]
                 /\ span_name sp = "assert_visible"%string
                 /\ dict_get "test.action.selector" (attributes sp) = None)
  /\ (forall expected,
         exists sp, w_finished (snd (assert_text a "" expected w)) = w_finished w ++ [sp]
                    /\ span_name sp = "assert_text"%string
                    /\ dict_get "test.action.selector" (attributes sp) = None)
  /\ (forall expected_count,
         exists sp, w_finished (snd (assert_count a "" expected_count w))
                    = w_finished w ++ [sp]
                    /\ span_name sp = "assert_count"%string
                    /\ dict_get "test.action.selector" (attributes sp) = None).
Proof.
  split; [reflexivity |]. split; [reflexivity |].
  split; [intros; eexists; repeat split |].
  split; [reflexivity |].
  split; [eapply recorded_without_selector, ActionFacts.click_recorded |].
  split; [intros; eapply recorded_without_selector, ActionFacts.fill_recorded |].
  split; [eapply recorded_without_selector, ActionFacts.assert_visible_recorded |].
  split; [intros; eapply recorded_without_selector, ActionFacts.assert_text_recorded |].
  intros; eapply recorded_without_selector, ActionFacts.assert_count_recorded.
Qed.

End EmptySelector.

(** A click on the empty selector, on the page of the unit tests. *)
Lemma empty_selector_is_no_selector_witness :
  exists sp,
    w_finished (snd (click Fake.instrumentor "" (Fake.test_world Fake.mock_page))) = [sp]
    /\ span_name sp = "click"%string
    /\ dict_get "test.action.selector" (attributes sp) = None
    /\ dict_get "test.action.type" (attributes sp) = Some (AStr "click").
Proof.
  destruct (empty_selector_is_no_selector (H := Fake.fake_driver)
              Fake.instrumentor (Fake.test_world Fake.mock_page))
    as [_ [_ [_ [_ [[sp [Hfin [Hname Hsel]]] _]]]]].
  exists sp. split; [exact Hfin |]. split; [exact Hname |]. split; [exact Hsel |].
  assert (E : sp = hd sp (w_finished (snd (click Fake.instrumentor ""
                                             (Fake.test_world Fake.mock_page)))))
    by (rewrite Hfin; reflexivity).
  rewrite E. reflexivity.
Defined.

(** ** Configuration precedence (config.py) *)

Module ConfigFacts.
Import Config.

(** Where the constructor does win: a string option given a non-empty
    value, the headless flag given as [False], and the options for which
    no environment variable is read at all. *)
Lemma constructor_value_kept (env : environ) (kw : kwargs) :
  let cfg := SmokeshowConfig_new env kw in
  (forall v, kw_service_name kw = Some v -> truthy v = true -> service_name cfg = v)
  /\ (forall v, kw_otlp_endpoint kw = Some v -> truthy v = true -> otlp_endpoint cfg = v)
  /\ (forall v, kw_environment kw = Some v -> truthy v = true -> environment cfg = v)
  /\ (forall v, kw_trigger kw = Some v -> truthy v = true -> trigger cfg = v)
  /\ (forall v, kw_browser_type kw = Some v -> truthy v = true -> browser_type cfg = v)
  /\ (kw_headless kw = Some false -> headless cfg = false)
  /\ (forall v, kw_suite_name kw = Some v -> suite_name cfg = v)
  /\ (forall v, kw_base_url kw = Some v -> base_url cfg = v)
  /\ (forall v, kw_otlp_insecure kw = Some v -> otlp_insecure cfg = v)
  /\ (forall v, kw_viewport_width kw = Some v -> viewport_width cfg = v)
  /\ (forall v, kw_viewport_height kw = Some v -> viewport_height cfg = v).
Proof.
  cbv zeta. unfold SmokeshowConfig_new, __post_init__, fields_of_kwargs. simpl.
  do 5 (split; [intros v Hkw Hv; rewrite Hkw; simpl; rewrite Hv; reflexivity |]).
  split.
  { intros Hkw. rewrite Hkw. simpl.
    destruct (dict_get "PLAYWRIGHT_OTEL_HEADLESS" env); reflexivity. }
  do 4 (split; [intros v Hkw; rewrite Hkw; reflexivity |]).
  intros v Hkw. rewrite Hkw. reflexivity.
Qed.

(** The constructor value of a string option left empty, or of the
    headless flag left or given as [True], gives way to the environment. *)
Lemma environment_consulted (env : environ) (kw : kwargs) (v : string) :
  dict_get "PLAYWRIGHT_OTEL_HEADLESS" env = Some v ->
  arg (kw_headless kw) true = true ->
  headless (SmokeshowConfig_new env kw) = negb (is_false_word (lower v)).
Proof.
  intros Henv Hkw. unfold SmokeshowConfig_new, __post_init__, fields_of_kwargs.
  simpl. now rewrite Henv, Hkw.
Qed.

End ConfigFacts.

(** C7 fails on the headless flag. [SmokeshowConfig(headless=True)], and
    [InstrumentedBrowser(headless=True)] alike, built while
    [PLAYWRIGHT_OTEL_HEADLESS=false] is set, end with [headless = False]:
    the environment overrides the value the constructor was given. *)
Theorem explicit_headless_true_gives_way_to_environment :
  Config.kw_headless Fake.headless_true = Some true
  /\ Config.headless (Config.SmokeshowConfig_new Fake.headed_environ Fake.headless_true)
     = false
  /\ Config.headless (Browser._config (Browser.__init__ Fake.headed_environ
                                                        Fake.headless_true))
     = false.
Proof. repeat split. Qed.

(* ================================================================== *)
(** * Further properties of the code *)

(** ** The remaining actions (actions.py) *)

Section MoreActions.
Context {Page Element Owner : Type} `{Driver Page Element}.

(** [assert_url(pattern)] never calls the driver: it reads the URL of the
    page and leaves the page as it is. It succeeds exactly when [pattern]
    occurs in the URL as it is written (case matters), in particular for
    the empty pattern; then [test.action.result = "success"] and the status
    is OK. Otherwise [test.action.result = "failed"], the status is ERROR
    with [Expected '<pattern>' in URL '<url>'], and the [AssertionError]
    raised says [Expected '<pattern>' in URL, got <url>]. *)
Theorem assert_url_outcome
  (a : ActionInstrumentor) (pattern : string) (w : world Page Owner) :
  let out := assert_url a pattern w in
  let url := page_url (w_page w) in
  w_page (snd out) = w_page w
  /\ (pattern = ""%string -> fst out = Ok tt)
  /\ exists sp,
       w_finished (snd out) = w_finished w ++ [sp]
       /\ span_name sp = "assert_url"%string
       /\ ((exists pre post, url = (pre ++ pattern ++ post)%string) ->
           fst out = Ok tt
           /\ dict_get "test.action.result" (attributes sp) = Some (AStr "success")
           /\ status sp = (OK, None))
       /\ (~ (exists pre post, url = (pre ++ pattern ++ post)%string) ->
           fst out
           = Raise (AssertionError
                      ("Expected '" ++ pattern ++ "' in URL, got " ++ url)%string)
           /\ dict_get "test.action.result" (attributes sp) = Some (AStr "failed")
           /\ status sp
              = (ERROR, Some ("Expected '" ++ pattern ++ "' in URL '" ++ url ++ "'")%string)).
Proof.
  cbv zeta.
  pose proof (StrFacts.contains_iff pattern (page_url (w_page w))) as Hiff.
  ActionFacts.unfold_action.
  destruct (contains pattern (page_url (w_page w))) eqn:Hc;
    cbn [fst snd w_page w_finished set_page export exc_val].
  - split; [reflexivity |]. split; [reflexivity |].
    eexists. split; [reflexivity |]. split; [reflexivity |]. split; intros Ho.
    + split; [reflexivity |]. split; reflexivity.
    + exfalso. apply Ho, Hiff. reflexivity.
  - split; [reflexivity |]. split.
    { intros ->. simpl in Hc. destruct (page_url (w_page w)); discriminate. }
    eexists. split; [reflexivity |]. split; [reflexivity |]. split; intros Ho.
    + apply Hiff in Ho. discriminate.
    + split; [reflexivity |]. split; reflexivity.
Qed.

(** [assert_visible(selector)] waits for the selector to be visible with a
    timeout of 5000 ms; the page is the one the wait leaves. When the wait
    returns, [test.action.result = "success"] and the status is OK. When
    the wait raises (a timeout), that exception leaves the action as it is
    and the action itself records no [test.action.result] and sets no
    status; the exit of the span's block then records the exception and,
    for an exception deriving from [Exception], the span is exported with
    status ERROR and the description [<Class>: <message>]. *)
Theorem assert_visible_outcome
  (a : ActionInstrumentor) (selector : string) (w : world Page Owner) :
  let out := assert_visible a selector w in
  let wait := page_wait_for_selector selector "visible" 5000 (w_page w) in
  w_page (snd out) = snd wait
  /\ exists sp,
       w_finished (snd out) = w_finished w ++ [sp]
       /\ (forall e, fst wait = Raise e ->
             fst out = Raise e
             /\ dict_get "test.action.result" (attributes sp) = None
             /\ status_calls sp = []
             /\ (exc_is_exception e = true ->
                 exported_status sp
                 = (ERROR, Some (exc_class e ++ ": " ++ exc_message e)%string)
                 /\ exported_exceptions sp = [e]))
       /\ (forall element, fst wait = Ok element ->
             fst out = Ok tt
             /\ dict_get "test.action.result" (attributes sp) = Some (AStr "success")
             /\ status sp = (OK, None)
             /\ exported_status sp = (OK, None)
             /\ exported_exceptions sp = []).
Proof.
  cbv zeta. ActionFacts.unfold_action.
  destruct (page_wait_for_selector selector "visible" 5000 (w_page w))
    as [[element|e] p1];
    cbn [fst snd w_page w_finished set_page export exc_val];
    (split; [reflexivity |]); eexists; (split; [reflexivity |]);
    split; intros x Hx; try discriminate.
  - split; [reflexivity |]. split; [| repeat split].
    unfold attributes, call; cbn [span_calls span_init_attributes app fold_left apply_attribute].
    apply SpanFacts.dict_get_set_same.
  - injection Hx as <-. split; [reflexivity |]. split; [| split; [reflexivity |]].
    + unfold attributes, call; cbn [span_calls span_init_attributes app fold_left apply_attribute].
      rewrite SpanFacts.dict_get_set_other by reflexivity.
      unfold action_attrs. destruct (selector_given (Some selector)); reflexivity.
    + intros He. unfold exported_status, exported_exceptions, exported_calls, call.
      cbn [span_calls app flat_map scope_exit_calls]. rewrite He.
      split; reflexivity.
Qed.

(** [click(selector)] returns what the driver's click returns and leaves
    the page that call leaves: a driver failure goes through unchanged, and
    a click never records [test.action.result]. When the click returned
    the status is OK. When it raised, the action itself sets no status; the
    exit of the span's block then records the exception and, for an
    exception deriving from [Exception], the span is exported with status
    ERROR and the description [<Class>: <message>]. *)
Theorem click_outcome
  (a : ActionInstrumentor) (selector : string) (w : world Page Owner) :
  let out := click a selector w in
  let driver := page_click selector (w_page w) in
  fst out = fst driver
  /\ w_page (snd out) = snd driver
  /\ exists sp,
       w_finished (snd out) = w_finished w ++ [sp]
       /\ dict_get "test.action.result" (attributes sp) = None
       /\ (fst driver = Ok tt ->
           status sp = (OK, None)
           /\ exported_status sp = (OK, None)
           /\ exported_exceptions sp = [])
       /\ (forall e, fst driver = Raise e ->
             status_calls sp = []
             /\ (exc_is_exception e = true ->
                 exported_status sp
                 = (ERROR, Some (exc_class e ++ ": " ++ exc_message e)%string)
                 /\ exported_exceptions sp = [e])).
Proof.
  cbv zeta. ActionFacts.unfold_action.
  destruct (page_click selector (w_page w)) as [[[]|e] p1];
    cbn [fst snd w_page w_finished set_page export exc_val];
    (split; [reflexivity |]); (split; [reflexivity |]);
    eexists; (split; [reflexivity |]);
    (split;
     [unfold attributes, call;
      cbn [span_calls span_init_attributes app fold_left apply_attribute];
      rewrite SpanFacts.dict_get_set_other by reflexivity;
      unfold action_attrs; destruct (selector_given (Some selector)); reflexivity |]).
  - split; [intros _; repeat split | intros e He; discriminate].
  - split; [discriminate |]. intros e' He. injection He as <-.
    split; [reflexivity |].
    intros Hexc. unfold exported_status, exported_exceptions, exported_calls, call.
    cbn [span_calls app flat_map scope_exit_calls]. rewrite Hexc.
    split; reflexivity.
Qed.

End MoreActions.

(** The witnesses of the three outcomes, on the pages of the unit tests. *)
Lemma assert_url_outcome_witness :
  fst (assert_url Fake.instrumentor "localhost" (Fake.test_world Fake.mock_page)) = Ok tt
  /\ fst (assert_url Fake.instrumentor "/arc/" (Fake.test_world Fake.mock_page))
     = Raise (AssertionError "Expected '/arc/' in URL, got http://localhost:8080/").
Proof.
  split.
  - destruct (assert_url_outcome (H := Fake.fake_driver) Fake.instrumentor "localhost"
                (Fake.test_world Fake.mock_page))
      as [_ [_ [sp [_ [_ [Hyes _]]]]]].
    apply Hyes. now exists "http://"%string, ":8080/"%string.
  - destruct (assert_url_outcome (H := Fake.fake_driver) Fake.instrumentor "/arc/"
                (Fake.test_world Fake.mock_page))
      as [_ [_ [sp [_ [_ [_ Hno]]]]]].
    apply Hno. intros Ho. apply StrFacts.contains_iff in Ho. vm_compute in Ho.
    discriminate.
Defined.

Lemma assert_visible_outcome_witness :
  fst (assert_visible Fake.instrumentor "h1" (Fake.test_world Fake.page_never_visible))
  = Raise (Fake.TimeoutError "Timeout 5000ms exceeded.")
  /\ exists sp,
       w_finished (snd (assert_visible Fake.instrumentor "h1"
                                       (Fake.test_world Fake.page_never_visible)))
       = [sp]
       /\ exported_status sp
          = (ERROR, Some "TimeoutError: Timeout 5000ms exceeded."%string).
Proof.
  destruct (assert_visible_outcome (H := Fake.fake_driver) Fake.instrumentor "h1"
              (Fake.test_world Fake.page_never_visible))
    as [_ [sp [Hfin [Hraise _]]]].
  destruct (Hraise (Fake.TimeoutError "Timeout 5000ms exceeded.") ltac:(reflexivity))
    as [Hout [_ [_ Hexit]]].
  split; [exact Hout |]. exists sp. split; [exact Hfin |].
  destruct (Hexit ltac:(reflexivity)) as [Hst _]. exact Hst.
Defined.

(** A click on an element that is gone: the Playwright error goes through
    and the span is exported with it. *)
Lemma click_outcome_witness :
  fst (click Fake.instrumentor "button#submit" (Fake.test_world Fake.page_detached))
  = Raise (Fake.PlaywrightError "element is not attached")
  /\ exists sp,
       w_finished (snd (click Fake.instrumentor "button#submit"
                              (Fake.test_world Fake.page_detached)))
       = [sp]
       /\ exported_status sp = (ERROR, Some "Error: element is not attached"%string).
Proof.
  destruct (click_outcome (H := Fake.fake_driver) Fake.instrumentor "button#submit"
              (Fake.test_world Fake.page_detached))
    as [Hout [_ [sp [Hfin [_ [_ Hraise]]]]]].
  split; [exact Hout |]. exists sp. split; [exact Hfin |].
  destruct (Hraise (Fake.PlaywrightError "element is not attached") ltac:(reflexivity))
    as [_ Hexit].
  destruct (Hexit ltac:(reflexivity)) as [Hst _]. exact Hst.
Defined.

(** ** Every action ends its span once *)

Section ActionScope.
Context {Page Element Owner : Type} `{Driver Page Element}.

(** Solves, for one action, the goal that it finishes one span closed by
    the exit of its block. *)
Ltac closed :=
  unfold closed_by_scope_exit, end_count;
  ActionFacts.unfold_action; ActionFacts.split_outcomes;
  eexists; (split; [reflexivity |]); split; reflexivity.

(** Each of the seven instrumented actions finishes exactly one span, on
    every path: the span is ended once, by the exit of the [with] block, as
    the last thing done to it, and that exit receives the exception the
    action raises ([None] when it returns). An action never ends its span
    early and never leaves it open. *)
Theorem actions_close_their_span_once
  (a : ActionInstrumentor) (w : world Page Owner) :
  (forall url,
      let out := navigate a url w in
      exists sp, w_finished (snd out) = w_finished w ++ [sp]
                 /\ closed_by_scope_exit (exc_val (fst out)) sp)
  /\ (forall selector,
         let out := click a selector w in
         exists sp, w_finished (snd out) = w_finished w ++ [sp]
                    /\ closed_by_scope_exit (exc_val (fst out)) sp)
  /\ (forall selector value sensitive,
         let out := fill a selector value sensitive w in
         exists sp, w_finished (snd out) = w_finished w ++ [sp]
                    /\ closed_by_scope_exit (exc_val (fst out)) sp)
  /\ (forall selector,
         let out := assert_visible a selector w in
         exists sp, w_finished (snd out) = w_finished w ++ [sp]
                    /\ closed_by_scope_exit (exc_val (fst out)) sp)
  /\ (forall selector expected,
         let out := assert_text a selector expected w in
         exists sp, w_finished (snd out) = w_finished w ++ [sp]
                    /\ closed_by_scope_exit (exc_val (fst out)) sp)
  /\ (forall selector expected_count,
         let out := assert_count a selector expected_count w in
         exists sp, w_finished (snd out) = w_finished w ++ [sp]
                    /\ closed_by_scope_exit (exc_val (fst out)) sp)
  /\ (forall pattern,
         let out := assert_url a pattern w in
         exists sp, w_finished (snd out) = w_finished w ++ [sp]
                    /\ closed_by_scope_exit (exc_val (fst out)) sp).
Proof.
  split; [intros; subst out; closed |].
  split; [intros; subst out; closed |].
  split; [intros; subst out; closed |].
  split; [intros; subst out; closed |].
  split; [intros; subst out; closed |].
  split; [intros; subst out; closed |].
  intros; subst out; closed.
Qed.

End ActionScope.

(** ** navigate: what is recorded of the response and of the timing *)

Section NavigateRecords.
Context {Page Element Owner : Type} `{Driver Page Element}.

(** When the navigation returns a response and the timing script returns
    an entry with the four keys, [navigate] returns normally with status
    OK, and the span carries the target URL, the status of the response and
    the four timing values under their attribute names, as they came. *)
Theorem navigate_records_response_and_timing
  (a : ActionInstrumentor) (url : string) (w : world Page Owner)
  (r : Response) (p1 p2 : Page) (t : dict attr_value)
  (dcl load size inter : attr_value) :
  page_goto url "domcontentloaded" (w_page w) = (Ok (Some r), p1) ->
  page_evaluate NAVIGATION_TIMING_SCRIPT p1 = (Ok (Some t), p2) ->
  dict_get "domContentLoaded" t = Some dcl ->
  dict_get "loadEvent" t = Some load ->
  dict_get "transferSize" t = Some size ->
  dict_get "domInteractive" t = Some inter ->
  let out := navigate a url w in
  fst out = Ok tt
  /\ w_page (snd out) = p2
  /\ exists sp,
       w_finished (snd out) = w_finished w ++ [sp]
       /\ span_name sp = "navigate"%string
       /\ status sp = (OK, None)
       /\ dict_get "test.action.target_url" (attributes sp) = Some (AStr url)
       /\ dict_get "test.navigation.response_status" (attributes sp)
          = Some (AInt (response_status r))
       /\ dict_get "test.navigation.dom_content_loaded_ms" (attributes sp) = Some dcl
       /\ dict_get "test.navigation.load_event_ms" (attributes sp) = Some load
       /\ dict_get "test.navigation.transfer_size_bytes" (attributes sp) = Some size
       /\ dict_get "test.navigation.dom_interactive_ms" (attributes sp) = Some inter.
Proof.
  intros Hgoto Heval H1 H2 H3 H4. cbv zeta.
  ActionFacts.unfold_action. rewrite Hgoto.
  cbn [fst snd w_page w_finished set_page export exc_val]. rewrite Heval.
  cbn [fst snd w_page w_finished set_page export exc_val].
  destruct t as [|kv t']; [discriminate |].
  cbn [fst snd w_page w_finished set_page export exc_val].
  rewrite H1. cbn [fst snd]. rewrite H2. cbn [fst snd].
  rewrite H3. cbn [fst snd]. rewrite H4.
  cbn [fst snd w_page w_finished set_page export exc_val].
  split; [reflexivity |]. split; [reflexivity |].
  eexists. split; [reflexivity |]. repeat split.
Qed.

(** Whatever the timing script returns, [navigate] returns normally with
    status OK once the navigation has returned: no entry, an empty entry or
    an entry with keys missing never fail the action. The response status
    is recorded exactly when there is a response, and a timing attribute is
    recorded only with the value the entry holds under its key. *)
Theorem navigate_tolerates_any_timing
  (a : ActionInstrumentor) (url : string) (w : world Page Owner)
  (response : option Response) (p1 p2 : Page) (timing : option (dict attr_value)) :
  page_goto url "domcontentloaded" (w_page w) = (Ok response, p1) ->
  page_evaluate NAVIGATION_TIMING_SCRIPT p1 = (Ok timing, p2) ->
  let out := navigate a url w in
  let from_entry (attribute key : string) (sp : span) :=
    forall v, dict_get attribute (attributes sp) = Some v ->
              exists t, timing = Some t /\ dict_get key t = Some v in
  fst out = Ok tt
  /\ w_page (snd out) = p2
  /\ exists sp,
       w_finished (snd out) = w_finished w ++ [sp]
       /\ status sp = (OK, None)
       /\ dict_get "test.navigation.response_status" (attributes sp)
          = option_map (fun r => AInt (response_status r)) response
       /\ from_entry "test.navigation.dom_content_loaded_ms" "domContentLoaded" sp
       /\ from_entry "test.navigation.load_event_ms" "loadEvent" sp
       /\ from_entry "test.navigation.transfer_size_bytes" "transferSize" sp
       /\ from_entry "test.navigation.dom_interactive_ms" "domInteractive" sp.
Proof.
  intros Hgoto Heval. cbv zeta.
  ActionFacts.unfold_action. rewrite Hgoto.
  cbn [fst snd w_page w_finished set_page export exc_val].
  destruct response as [r|];
    cbn [fst snd w_page w_finished set_page export exc_val];
    rewrite Heval; cbn [fst snd w_page w_finished set_page export exc_val];
    (destruct timing as [[|kv t']|];
     [ | destruct (dict_get "domContentLoaded" (kv :: t')) eqn:E1;
         [destruct (dict_get "loadEvent" (kv :: t')) eqn:E2;
          [destruct (dict_get "transferSize" (kv :: t')) eqn:E3;
           [destruct (dict_get "domInteractive" (kv :: t')) eqn:E4 | ] | ] | ] | ]);
    cbn [fst snd w_page w_finished set_page export exc_val];
    (split; [reflexivity |]); (split; [reflexivity |]);
    eexists; (split; [reflexivity |]); (split; [reflexivity |]);
    (split; [reflexivity |]);
    repeat split; intros v Hv;
    vm_compute in Hv;
    first [ discriminate Hv
          | injection Hv as <-; eexists; split; [reflexivity | assumption] ].
Qed.

End NavigateRecords.

(** The navigation of the unit tests that finds a timing entry. *)
Lemma navigate_records_response_and_timing_witness :
  exists sp,
    w_finished (snd (navigate Fake.instrumentor "http://localhost:8080/"
                       (Fake.test_world (Fake.page_with_timing Fake.full_timing))))
    = [sp]
    /\ dict_get "test.navigation.dom_content_loaded_ms" (attributes sp)
       = Some (AInt 150)
    /\ dict_get "test.navigation.transfer_size_bytes" (attributes sp)
       = Some (AInt 1024).
Proof.
  destruct (navigate_records_response_and_timing (H := Fake.fake_driver)
              Fake.instrumentor "http://localhost:8080/"
              (Fake.test_world (Fake.page_with_timing Fake.full_timing))
              (mk_response 200)
              (Fake.moved_to "http://localhost:8080/"
                 (Fake.record (Fake.CallGoto "http://localhost:8080/" "domcontentloaded")
                    (Fake.page_with_timing Fake.full_timing)))
              (Fake.record (Fake.CallEvaluate NAVIGATION_TIMING_SCRIPT)
                 (Fake.moved_to "http://localhost:8080/"
                    (Fake.record
                       (Fake.CallGoto "http://localhost:8080/" "domcontentloaded")
                       (Fake.page_with_timing Fake.full_timing))))
              Fake.full_timing (AInt 150) (AInt 300) (AInt 1024) (AInt 100)
              ltac:(reflexivity) ltac:(reflexivity) ltac:(reflexivity)
              ltac:(reflexivity) ltac:(reflexivity) ltac:(reflexivity))
    as [_ [_ [sp [Hfin [_ [_ [_ [_ [Hd [_ [Hs _]]]]]]]]]]].
  exists sp. split; [exact Hfin |]. split; [exact Hd | exact Hs].
Defined.

(** A timing entry that lacks [loadEvent]: the navigation completes, with
    the first timing attribute only. *)
Lemma navigate_tolerates_any_timing_witness :
  fst (navigate Fake.instrumentor "http://localhost:8080/"
         (Fake.test_world (Fake.page_with_timing [("domContentLoaded", AInt 150)])))
  = Ok tt.
Proof.
  destruct (navigate_tolerates_any_timing (H := Fake.fake_driver)
              Fake.instrumentor "http://localhost:8080/"
              (Fake.test_world (Fake.page_with_timing [("domContentLoaded", AInt 150)]))
              (Some (mk_response 200))
              (Fake.moved_to "http://localhost:8080/"
                 (Fake.record (Fake.CallGoto "http://localhost:8080/" "domcontentloaded")
                    (Fake.page_with_timing [("domContentLoaded", AInt 150)])))
              (Fake.record (Fake.CallEvaluate NAVIGATION_TIMING_SCRIPT)
                 (Fake.moved_to "http://localhost:8080/"
                    (Fake.record
                       (Fake.CallGoto "http://localhost:8080/" "domcontentloaded")
                       (Fake.page_with_timing [("domContentLoaded", AInt 150)]))))
              (Some [("domContentLoaded", AInt 150)])
              ltac:(reflexivity) ltac:(reflexivity))
    as [Hok _].
  exact Hok.
Defined.

(** ** Attribute dictionaries and the action-span factory (spans.py) *)

Module DictFacts.

Lemma dict_get_set (k k' : string) {V} (v : V) (d : dict V) :
  dict_get k (dict_set k' v d) = if String.eqb k' k then Some v else dict_get k d.
Proof.
  destruct (String.eqb k' k) eqn:E.
  - apply String.eqb_eq in E. subst. apply SpanFacts.dict_get_set_same.
  - now apply SpanFacts.dict_get_set_other.
Qed.

Lemma dict_get_app {V} (k : string) (a b : dict V) :
  dict_get k (a ++ b)
  = match dict_get k a with Some v => Some v | None => dict_get k b end.
Proof.
  induction a as [|[k0 v0] a IH]; simpl; [reflexivity |].
  destruct (String.eqb k0 k); [reflexivity | exact IH].
Qed.

(** [d.update(e)]: a key of [e] reads as its last value in [e], any other
    key as it read in [d]. *)
Lemma dict_get_update {V} (k : string) (e : dict V) :
  forall d : dict V,
    dict_get k (dict_update d e)
    = match dict_get k (rev e) with Some v => Some v | None => dict_get k d end.
Proof.
  unfold dict_update. induction e as [|[k' v'] e IH]; intros d; simpl; [reflexivity |].
  rewrite IH, dict_get_app, dict_get_set. simpl.
  destruct (dict_get k (rev e)); [reflexivity |].
  destruct (String.eqb k' k); reflexivity.
Qed.

End DictFacts.

Section ActionSpanFactory.
Context {Page Owner : Type}.

(** [action_span] with a selector that is not empty starts a span named
    [type(selector)], child of the given context, with nothing done to it
    yet and not finished. An attribute reads as the last value the extra
    attributes give it, if any: the extras are merged as they are and win
    over [test.action.type] and [test.action.selector]; otherwise these two
    read as the action type and the selector, and no other attribute is
    set. *)
Theorem action_span_with_selector
  (tracer : Tracer) (ctx : context) (action_type selector : string)
  (extra_attrs : dict attr_value) (w : world Page Owner) :
  selector <> ""%string ->
  exists sp w',
    action_span tracer ctx action_type (Some selector) extra_attrs w = (Ok sp, w')
    /\ span_name sp = (action_type ++ "(" ++ selector ++ ")")%string
    /\ span_parent sp = ctx
    /\ span_calls sp = []
    /\ w_finished w' = w_finished w
    /\ w_spans_started w' = S (w_spans_started w)
    /\ forall key,
         dict_get key (span_init_attributes sp)
         = match dict_get key (rev extra_attrs) with
           | Some v => Some v
           | None =>
               if String.eqb key "test.action.type" then Some (AStr action_type)
               else if String.eqb key "test.action.selector" then Some (AStr selector)
               else None
           end.
Proof.
  intros Hsel. unfold action_span, start_span. eexists. eexists.
  split; [reflexivity |]. cbn [span_name span_parent span_calls w_finished
                               w_spans_started span_init_attributes].
  assert (Hgiven : selector_given (Some selector) = Some selector).
  { destruct selector; [contradiction | reflexivity]. }
  unfold action_name, action_attrs. rewrite Hgiven.
  repeat split. intros key. rewrite DictFacts.dict_get_update.
  destruct (dict_get key (rev extra_attrs)); [reflexivity |].
  rewrite DictFacts.dict_get_set. cbn [dict_get].
  rewrite (String.eqb_sym key "test.action.type"),
    (String.eqb_sym key "test.action.selector").
  destruct (String.eqb_spec "test.action.selector" key) as [E1 | E1];
    destruct (String.eqb_spec "test.action.type" key) as [E2 | E2];
    try reflexivity.
  rewrite <- E1 in E2. discriminate.
Qed.

End ActionSpanFactory.

(** The span of the unit test that passes a custom attribute. *)
Lemma action_span_with_selector_witness :
  exists sp w',
    action_span Fake.counting_tracer None "fill" (Some "input#email")
                [("custom_key", AStr "custom_val")] (Fake.test_world Fake.mock_page)
    = (Ok sp, w')
    /\ span_name sp = "fill(input#email)"%string
    /\ dict_get "custom_key" (span_init_attributes sp) = Some (AStr "custom_val")
    /\ dict_get "test.action.selector" (span_init_attributes sp)
       = Some (AStr "input#email").
Proof.
  destruct (action_span_with_selector Fake.counting_tracer None "fill" "input#email"
              [("custom_key", AStr "custom_val")] (Fake.test_world Fake.mock_page)
              ltac:(discriminate))
    as [sp [w' [Hrun [Hname [_ [_ [_ [_ Hget]]]]]]]].
  exists sp, w'. split; [exact Hrun |]. split; [exact Hname |].
  split; [apply (Hget "custom_key"%string) | apply (Hget "test.action.selector"%string)].
Defined.

(** ** Entering a test case, and leaving it when the body returns *)

Section CaseScope.
Context {Page Element Owner : Type} `{Driver Page Element}.

(** [TestCase.__aenter__] with a tracer starts one span named
    [test("<name>")] (the name between double quotes, the character 34,
    between [test(] and [)]), child of the suite context and in its trace, not yet
    finished, and returns the test case holding it; the instrumentor of the
    test case works under the context of that span, so action spans become
    its children. [test.case.name] is always set; [test.case.id],
    [test.case.tags] and [test.case.description] are set exactly when the
    given string is not empty. Nothing is reported or logged on entry. *)
Theorem test_case_enter
  (tc : TestCase.TestCase Owner) (tracer : Tracer) (w : world Page Owner) :
  TestCase._tracer tc = Some tracer ->
  let optional (s : string) :=
    match s with EmptyString => None | _ => Some (AStr s) end in
  exists t sp w',
    TestCase.__aenter__ tc w = (Ok t, w')
    /\ TestCase._case_span t = Some sp
    /\ TestCase._case_ctx t = Some (get_span_context sp)
    /\ TestCase._actions t
       = Some (mk_instrumentor tracer (Some (get_span_context sp)))
    /\ span_name sp
       = ("test(" ++ String "034" (TestCase._name tc ++ String "034" ")"))%string
    /\ span_parent sp = TestCase._suite_ctx tc
    /\ (forall parent, TestCase._suite_ctx tc = Some parent ->
          trace_id (get_span_context sp) = trace_id parent)
    /\ span_calls sp = []
    /\ dict_get "test.case.name" (span_init_attributes sp)
       = Some (AStr (TestCase._name tc))
    /\ dict_get "test.case.id" (span_init_attributes sp)
       = optional (TestCase._case_id tc)
    /\ dict_get "test.case.tags" (span_init_attributes sp)
       = optional (TestCase._tags tc)
    /\ dict_get "test.case.description" (span_init_attributes sp)
       = optional (TestCase._description tc)
    /\ w_finished w' = w_finished w
    /\ w_spans_started w' = S (w_spans_started w)
    /\ quiet w' = quiet w.
Proof.
  intros Htr. cbv zeta. unfold TestCase.__aenter__. rewrite Htr.
  unfold bind, start_span, ret. eexists. eexists. eexists.
  split; [reflexivity |].
  cbn [TestCase._case_span TestCase._case_ctx TestCase._actions span_name span_parent
       span_calls get_span_context set_span_in_context span_init_attributes
       w_finished w_spans_started trace_id].
  do 5 (split; [reflexivity |]).
  split; [intros parent Hp; rewrite Hp; reflexivity |].
  split; [reflexivity |].
  unfold TestCase.enter_attrs.
  destruct (TestCase._case_id tc), (TestCase._tags tc), (TestCase._description tc);
    repeat split.
Qed.

(** A test case whose body returns closes its span exactly once, with
    [test.case.result = "passed"] (whatever attributes the body wrote),
    status OK and no exception recorded; it reports [True] to the callback,
    emits no log record, and the [async with] statement returns. *)
Theorem test_case_success_path
  (tc t1 t2 : TestCase.TestCase Owner) (body : list Script.step)
  (w w1 w2 : world Page Owner) :
  TestCase.__aenter__ tc w = (Ok t1, w1) ->
  Script.run_body body (t1, w1) = (Ok tt, (t2, w2)) ->
  exists (sp : span) (w3 : world Page Owner),
    let final := add_calls success_calls sp in
    Script.async_with tc body w = (Ok tt, w3)
    /\ TestCase._case_span t2 = Some sp
    /\ w_finished w3 = w_finished w2 ++ [final]
    /\ end_count sp = 0
    /\ end_count final = 1
    /\ dict_get "test.case.result" (attributes final) = Some (AStr "passed")
    /\ dict_get "test.case.failure_reason" (attributes final)
       = dict_get "test.case.failure_reason" (attributes sp)
    /\ status final = (OK, None)
    /\ recorded_exceptions final = []
    /\ w_owner w3 = TestCase._record_result tc true (w_owner w)
    /\ w_logs w3 = w_logs w
    /\ w_page w3 = w_page w2.
Proof.
  intros Hent Hbody.
  pose proof (CaseFacts.aenter_body_state _ _ _ _ Hent) as Hinv0.
  destruct (CaseFacts.run_body_inv t1 body (t1, w1) Hinv0) as [Hinv Hq].
  rewrite Hbody in Hinv, Hq. simpl in Hinv, Hq.
  destruct (CaseFacts.aenter_inv _ _ _ _ Hent)
    as [tracer [sp1 [Htr [Hsp1 [Ht1 [Hq1 [Hf1 Hp1]]]]]]].
  destruct Hinv as [sp1' [extra [H1 [Hattr Ht2]]]].
  assert (sp1' = sp1) as ->
    by (rewrite Ht1 in H1; simpl in H1; injection H1 as H1; symmetry; exact H1).
  assert (Hcalls : span_calls sp1 = []) by (rewrite Hsp1; reflexivity).
  rewrite Hcalls in Hattr. simpl in Hattr.
  set (sp := add_calls extra sp1).
  assert (Hsp : TestCase._case_span t2 = Some sp) by (rewrite Ht2; reflexivity).
  assert (Honly : only_attributes (span_calls sp)).
  { unfold sp, add_calls. simpl. rewrite Hcalls. exact Hattr. }
  exists sp. eexists. cbv zeta.
  split.
  { unfold Script.async_with. rewrite Hent, Hbody. simpl.
    rewrite (CaseFacts.aexit_success t2 sp w2 Hsp). reflexivity. }
  destruct (SpanFacts.success_exit_views sp Honly) as [Hend [Hres [Hstatus Hexc]]].
  unfold quiet in Hq, Hq1.
  assert (Hrr : TestCase._record_result t2 = TestCase._record_result tc)
    by (rewrite Ht2, Ht1; reflexivity).
  split; [exact Hsp |]. split; [reflexivity |].
  split; [unfold end_count; now rewrite (SpanFacts.ends_only_attributes _ Honly) |].
  split; [exact Hend |]. split; [exact Hres |].
  split.
  { rewrite SpanFacts.attributes_add_calls. unfold success_calls.
    cbn [fold_left apply_attribute].
    now rewrite SpanFacts.dict_get_set_other by reflexivity. }
  split; [exact Hstatus |]. split; [exact Hexc |].
  split; [cbn; rewrite Hrr; congruence |].
  split; [cbn; congruence | reflexivity].
Qed.

(** A custom attribute written with [set_attribute] just before the body
    returns is on the finished case span with the value written, unless its
    key is [test.case.result], which the exit overwrites with "passed". *)
Theorem custom_attribute_survives_exit
  (t : TestCase.TestCase Owner) (sp : span) (key : string) (value : attr_value)
  (w : world Page Owner) :
  TestCase._case_span t = Some sp ->
  exists t' final w',
    TestCase.set_attribute t key value = Ok t'
    /\ TestCase.__aexit__ t' None w = (Ok false, w')
    /\ w_finished w' = w_finished w ++ [final]
    /\ dict_get "test.case.result" (attributes final) = Some (AStr "passed")
    /\ (key <> "test.case.result"%string ->
        dict_get key (attributes final) = Some value).
Proof.
  intros Hsp. unfold TestCase.set_attribute. rewrite Hsp.
  eexists. eexists. eexists. split; [reflexivity |].
  rewrite (CaseFacts.aexit_success _ (call (SetAttribute key value) sp) w)
    by reflexivity.
  split; [reflexivity |]. split; [reflexivity |].
  rewrite SpanFacts.call_add_calls, SpanFacts.add_calls_add_calls,
    SpanFacts.attributes_add_calls.
  cbn [app fold_left apply_attribute success_calls].
  split; [apply SpanFacts.dict_get_set_same |].
  intros Hkey. rewrite SpanFacts.dict_get_set_other.
  - apply SpanFacts.dict_get_set_same.
  - apply String.eqb_neq. congruence.
Qed.

(** A test case that was not entered holds no span and no instrumentor:
    each of the seven actions, [set_attribute] and [__aexit__] raise an
    [AttributeError], and nothing is started, finished, reported or
    logged. *)
Theorem test_case_not_entered
  (tracer : option Tracer) (suite_ctx : context)
  (record_result_fn : bool -> Owner -> Owner) (logger : option Logger)
  (suite_name name case_id tags description : string) (w : world Page Owner) :
  let tc := TestCase.__init__ tracer suite_ctx record_result_fn logger
                              suite_name name case_id tags description in
  let refused (attr : string) (out : result unit * world Page Owner) :=
    out = (Raise (AttributeError
                    ("'NoneType' object has no attribute '" ++ attr ++ "'")%string), w) in
  (forall url, refused "navigate" (TestCase.navigate tc url w))
  /\ (forall selector, refused "click" (TestCase.click tc selector w))
  /\ (forall selector value sensitive,
         refused "fill" (TestCase.fill tc selector value sensitive w))
  /\ (forall selector, refused "assert_visible" (TestCase.assert_visible tc selector w))
  /\ (forall selector expected,
         refused "assert_text" (TestCase.assert_text tc selector expected w))
  /\ (forall selector expected_count,
         refused "assert_count" (TestCase.assert_count tc selector expected_count w))
  /\ (forall pattern, refused "assert_url" (TestCase.assert_url tc pattern w))
  /\ (forall key value,
         TestCase.set_attribute tc key value
         = Raise (AttributeError "'NoneType' object has no attribute 'set_attribute'"))
  /\ (forall exc,
         TestCase.__aexit__ tc exc w
         = (Raise (AttributeError "'NoneType' object has no attribute 'set_attribute'"),
            w)).
Proof. cbv zeta. repeat split. Qed.

End CaseScope.

(** The test case of the unit tests: entered, it holds a span named after
    it with its id and tags; its body returns and it closes as passed; a
    custom attribute stays on its span. *)
Lemma test_case_enter_witness :
  exists t sp w',
    TestCase.__aenter__ Fake.login_case (Fake.test_world Fake.mock_page) = (Ok t, w')
    /\ TestCase._case_span t = Some sp
    /\ dict_get "test.case.id" (span_init_attributes sp) = Some (AStr "TC-001")
    /\ dict_get "test.case.tags" (span_init_attributes sp) = Some (AStr "smoke,auth").
Proof.
  destruct (test_case_enter Fake.login_case Fake.counting_tracer
              (Fake.test_world Fake.mock_page) eq_refl)
    as [t [sp [w' [Hrun [Hsp [_ [_ [_ [_ [_ [_ [_ [Hid [Htags _]]]]]]]]]]]]]].
  exists t, sp, w'. split; [exact Hrun |]. split; [exact Hsp |].
  split; [exact Hid | exact Htags].
Defined.

Lemma test_case_success_path_witness :
  exists w3,
    Fake.pass_run = (Ok tt, w3) /\ w_owner w3 = [true] /\ w_logs w3 = [].
Proof.
  destruct (test_case_success_path (H := Fake.fake_driver)
              Fake.login_case (fst Fake.boom_entered) (fst Fake.pass_returned)
              Fake.pass_body (Fake.test_world Fake.mock_page)
              (snd Fake.boom_entered) (snd Fake.pass_returned)
              ltac:(reflexivity) ltac:(vm_compute; reflexivity))
    as [sp [w3 [Hrun [_ [_ [_ [_ [_ [_ [_ [_ [Hown [Hlogs _]]]]]]]]]]]]].
  exists w3. split; [exact Hrun |]. split; [exact Hown | exact Hlogs].
Defined.

Lemma custom_attribute_survives_exit_witness :
  exists t' final w',
    TestCase.set_attribute (fst Fake.boom_entered) "arc.home.total_links" (AInt 42)
    = Ok t'
    /\ TestCase.__aexit__ t' None (snd Fake.boom_entered) = (Ok false, w')
    /\ w_finished w' = [final]
    /\ dict_get "arc.home.total_links" (attributes final) = Some (AInt 42).
Proof.
  destruct (custom_attribute_survives_exit (H := Fake.fake_driver)
              (fst Fake.boom_entered) Fake.login_span "arc.home.total_links" (AInt 42)
              (snd Fake.boom_entered) ltac:(vm_compute; reflexivity))
    as [t' [final [w' [Hset [Hexit [Hfin [_ Hget]]]]]]].
  exists t', final, w'. split; [exact Hset |]. split; [exact Hexit |].
  split; [exact Hfin |]. apply Hget. discriminate.
Defined.

(** ** Entering and leaving the suite (browser.py) *)

Section SuiteScope.
Context {Page Element : Type} `{Driver Page Element}.

(** [InstrumentedBrowser.__aenter__] starts the suite span as a root span
    named [suite(<suite name>)], not finished, and keeps it with its
    context, the tracer and the logger [smokeshow.test_results]; the
    counters are left alone. The span is created with the ten suite, run,
    target, browser and viewport attributes read from the configuration,
    the run id and the timestamp; [vcs.commit.sha] and [vcs.branch] are
    present exactly when git gave them. Then Playwright is started, the
    browser of the configured type is launched with the configured
    headless flag, a context with the configured viewport and a page are
    opened, in this order: [__aenter__] returns when the four calls
    return, and the exception of the first one that raises leaves
    [__aenter__] with the calls after it not made, and with the suite span
    started and not finished. *)
Theorem suite_enter
  (amb : Browser.Ambient) (w : world Page Browser.InstrumentedBrowser) :
  let b := w_owner w in
  let cfg := Browser._config b in
  let out := Browser.__aenter__ amb w in
  let w' := snd out in
  let start := playwright_start (w_page w) in
  let launch :=
    browser_launch (Config.browser_type cfg) (Config.headless cfg) (snd start) in
  let context :=
    browser_new_context (Config.viewport_width cfg) (Config.viewport_height cfg)
                        (snd launch) in
  let page := context_new_page (snd context) in
  (exists sp,
      Browser._suite_span (w_owner w') = Some sp
      /\ Browser._suite_ctx (w_owner w') = Some (get_span_context sp)
      /\ Browser._tracer (w_owner w') = Some (Browser.amb_tracer amb)
      /\ Browser._logger (w_owner w') = Some (mk_logger "smokeshow.test_results")
      /\ Browser._config (w_owner w') = cfg
      /\ (Browser._total (w_owner w'), Browser._passed (w_owner w'),
          Browser._failed (w_owner w'))
         = (Browser._total b, Browser._passed b, Browser._failed b)
      /\ span_name sp = ("suite(" ++ Config.suite_name cfg ++ ")")%string
      /\ span_parent sp = None
      /\ span_calls sp = []
      /\ w_finished w' = w_finished w
      /\ w_spans_started w' = S (w_spans_started w)
      /\ dict_get "test.suite.name" (span_init_attributes sp)
         = Some (AStr (Config.suite_name cfg))
      /\ dict_get "test.suite.id" (span_init_attributes sp)
         = Some (AStr (Browser.amb_uuid4 amb))
      /\ dict_get "test.run.trigger" (span_init_attributes sp)
         = Some (AStr (Config.trigger cfg))
      /\ dict_get "test.run.timestamp" (span_init_attributes sp)
         = Some (AStr (Browser.amb_now_isoformat amb))
      /\ dict_get "test.target.base_url" (span_init_attributes sp)
         = Some (AStr (Config.base_url cfg))
      /\ dict_get "test.target.environment" (span_init_attributes sp)
         = Some (AStr (Config.environment cfg))
      /\ dict_get "test.browser.name" (span_init_attributes sp)
         = Some (AStr (Config.browser_type cfg))
      /\ dict_get "test.browser.headless" (span_init_attributes sp)
         = Some (ABool (Config.headless cfg))
      /\ dict_get "test.viewport.width" (span_init_attributes sp)
         = Some (AInt (Config.viewport_width cfg))
      /\ dict_get "test.viewport.height" (span_init_attributes sp)
         = Some (AInt (Config.viewport_height cfg))
      /\ dict_get "vcs.commit.sha" (span_init_attributes sp)
         = option_map AStr (Browser.amb_git_sha amb)
      /\ dict_get "vcs.branch" (span_init_attributes sp)
         = option_map AStr (Browser.amb_git_branch amb))
  /\ (fst start = Ok tt -> fst launch = Ok tt -> fst context = Ok tt ->
      fst out = fst page /\ w_page w' = snd page)
  /\ (forall e, fst start = Raise e -> fst out = Raise e /\ w_page w' = snd start)
  /\ (forall e, fst start = Ok tt -> fst launch = Raise e ->
        fst out = Raise e /\ w_page w' = snd launch)
  /\ (forall e, fst start = Ok tt -> fst launch = Ok tt -> fst context = Raise e ->
        fst out = Raise e /\ w_page w' = snd context).
Proof.
  cbv zeta. split.
  - destruct (SuiteFacts.aenter_state amb w) as [Hown [Hst [Hfin _]]].
    cbv zeta in Hown. eexists. rewrite Hown, Hst, Hfin.
    cbn [w_owner Browser._suite_span Browser._suite_ctx Browser._tracer Browser._logger
         Browser._config Browser._total Browser._passed Browser._failed
         span_name span_parent span_calls span_init_attributes get_span_context
         set_span_in_context w_finished w_spans_started].
    do 11 (split; [reflexivity |]).
    unfold Browser.suite_attrs, get_git_info.
    destruct (Browser.amb_git_sha amb), (Browser.amb_git_branch amb); repeat split.
  - unfold Browser.__aenter__, bind, gets, start_span, modify, on_page.
    cbn [fst snd w_owner w_page set_owner Browser._config].
    destruct (playwright_start (w_page w)) as [[[]|e1] p1];
      cbn [fst snd w_owner w_page set_page set_owner].
    2: { split; [discriminate |]. split; [intros e [= <-]; auto |].
         split; intros; discriminate. }
    destruct (browser_launch _ _ p1) as [[[]|e2] p2];
      cbn [fst snd w_owner w_page set_page set_owner].
    2: { split; [discriminate |]. split; [discriminate |].
         split; [intros e _ [= <-]; auto | intros; discriminate]. }
    destruct (browser_new_context _ _ p2) as [[[]|e3] p3];
      cbn [fst snd w_owner w_page set_page set_owner].
    2: { split; [discriminate |]. split; [discriminate |].
         split; [discriminate | intros e _ _ [= <-]; auto]. }
    destruct (context_new_page p3) as [r4 p4];
      cbn [fst snd w_owner w_page set_page set_owner].
    split; [intros _ _ _; destruct r4 as [[]|e4]; auto |].
    split; [discriminate |]. split; discriminate.
Qed.

(** [InstrumentedBrowser.__aexit__] ends the suite span first, then tears
    down. When closing the browser and stopping Playwright both return,
    traces and logs are flushed (two flushes) and the method returns
    [False], so an exception of the suite body goes on to the caller, after
    the flush. When closing the browser raises, that exception leaves
    [__aexit__], Playwright is not stopped and nothing is flushed; when
    stopping Playwright raises, nothing is flushed either. In every case
    the suite span is already finished. *)
Theorem suite_exit_teardown
  (exc : option exn) (w : world Page Browser.InstrumentedBrowser) (sp : span) :
  Browser._suite_span (w_owner w) = Some sp ->
  let out := Browser.__aexit__ exc w in
  let close := browser_close (w_page w) in
  let stop := playwright_stop (snd close) in
  (exists root, w_finished (snd out) = w_finished w ++ [root]
                /\ span_name root = span_name sp
                /\ end_count root = end_count sp + 1)
  /\ w_logs (snd out) = w_logs w
  /\ (fst close = Ok tt -> fst stop = Ok tt ->
      fst out = Ok false
      /\ w_page (snd out) = snd stop
      /\ w_flushes (snd out) = w_flushes w + 2)
  /\ (forall e, fst close = Raise e ->
      fst out = Raise e
      /\ w_page (snd out) = snd close
      /\ w_flushes (snd out) = w_flushes w)
  /\ (forall e, fst close = Ok tt -> fst stop = Raise e ->
      fst out = Raise e
      /\ w_page (snd out) = snd stop
      /\ w_flushes (snd out) = w_flushes w).
Proof.
  intros Hsp. cbv zeta.
  unfold Browser.__aexit__, bind, gets. cbn [fst snd]. rewrite Hsp.
  unfold modify, on_page, force_flush, ret. cbn [fst snd w_page set_owner export].
  destruct (browser_close (w_page w)) as [[[]|e1] p1]; cbn [fst snd set_page w_page];
    [destruct (playwright_stop p1) as [[[]|e2] p2]; cbn [fst snd set_page w_page] |].
  - split.
    { eexists. split; [reflexivity |]. split; [reflexivity |].
      unfold end_count, call. cbn [span_calls]. rewrite <- !app_assoc.
      rewrite filter_app, length_app. reflexivity. }
    split; [reflexivity |].
    split; [intros _ _; repeat split; cbn; lia |].
    split; [intros e He; discriminate | intros e _ He; discriminate].
  - split.
    { eexists. split; [reflexivity |]. split; [reflexivity |].
      unfold end_count, call. cbn [span_calls]. rewrite <- !app_assoc.
      rewrite filter_app, length_app. reflexivity. }
    split; [reflexivity |].
    split; [intros _ He; discriminate |].
    split; [intros e He; discriminate |].
    intros e _ He. injection He as <-. repeat split.
  - split.
    { eexists. split; [reflexivity |]. split; [reflexivity |].
      unfold end_count, call. cbn [span_calls]. rewrite <- !app_assoc.
      rewrite filter_app, length_app. reflexivity. }
    split; [reflexivity |].
    split; [intros He; discriminate |].
    split; [| intros e He; discriminate].
    intros e He. injection He as <-. repeat split.
Qed.

(** A suite that was not entered has no [_logger]: the constructor does
    not assign it. [test_case] on such a suite counts the case in the total
    and then raises an [AttributeError] for the missing attribute: no test
    case is returned, nothing is started, reported or logged, and the
    total stays one ahead. *)
Theorem test_case_of_suite_not_entered
  (name case_id tags description : string)
  (w : world Page Browser.InstrumentedBrowser) :
  Browser._logger (w_owner w) = None ->
  let out := Browser.test_case name case_id tags description w in
  fst out
  = Raise (AttributeError "'InstrumentedBrowser' object has no attribute '_logger'")
  /\ Browser._total (w_owner (snd out)) = (Browser._total (w_owner w) + 1)%Z
  /\ Browser._passed (w_owner (snd out)) = Browser._passed (w_owner w)
  /\ Browser._failed (w_owner (snd out)) = Browser._failed (w_owner w)
  /\ w_spans_started (snd out) = w_spans_started w
  /\ w_finished (snd out) = w_finished w
  /\ w_logs (snd out) = w_logs w
  /\ forall env kw (page : Page),
       Browser._logger (w_owner (Browser.initial_world env kw page)) = None.
Proof.
  intros Hlg. cbv zeta. unfold Browser.test_case, bind, modify, gets, raise.
  cbn [fst snd w_owner set_owner Browser._logger]. rewrite Hlg.
  repeat split.
Qed.

End SuiteScope.

(** A machine without the browser: the launch raises, [__aenter__] raises
    with it. *)
Lemma suite_enter_witness :
  fst (Browser.__aenter__ Fake.ambient
         (Browser.initial_world [] Config.no_kwargs Fake.page_without_browser))
  = Raise (Fake.PlaywrightError "Executable doesn't exist").
Proof.
  destruct (suite_enter (H := Fake.fake_driver) Fake.ambient
              (Browser.initial_world [] Config.no_kwargs Fake.page_without_browser))
    as [_ [_ [_ [Hlaunch _]]]].
  destruct (Hlaunch (Fake.PlaywrightError "Executable doesn't exist")
                    ltac:(reflexivity) ltac:(reflexivity)) as [Hout _].
  exact Hout.
Defined.

(** The first test case asked of a suite before [async with]. *)
Lemma test_case_of_suite_not_entered_witness :
  let out := Browser.test_case "login" "TC-001" "" ""
               (Browser.initial_world [] Config.no_kwargs Fake.mock_page) in
  fst out
  = Raise (AttributeError "'InstrumentedBrowser' object has no attribute '_logger'")
  /\ Browser._total (w_owner (snd out)) = 1%Z.
Proof.
  destruct (test_case_of_suite_not_entered (Page := Fake.FakePage)
              "login" "TC-001" "" ""
              (Browser.initial_world [] Config.no_kwargs Fake.mock_page)
              ltac:(reflexivity))
    as [Hout [Htotal _]].
  split; [exact Hout | exact Htotal].
Defined.

(** ** The trace of a suite run *)

Module Lineage.
Import Frame SpanFacts.

Section Lineage.
Context {Page Element Owner : Type} `{Driver Page Element}.

Local Abbreviation W := (world Page Owner).
Local Abbreviation TC := (TestCase.TestCase Owner).

Lemma grown_refl (T : N) (w : W) : grown T w w.
Proof. exists []. rewrite app_nil_r. simpl. repeat split; [constructor | lia]. Qed.

Lemma grown_trans (T : N) (a b c : W) : grown T a b -> grown T b c -> grown T a c.
Proof.
  intros [n1 [F1 [D1 S1]]] [n2 [F2 [D2 S2]]]. exists (n1 ++ n2).
  rewrite F2, F1, app_assoc, length_app. repeat split.
  - apply Forall_app. split; assumption.
  - lia.
Qed.

(** Solves, for one action, the goal that the action finishes one span,
    child of the context of the instrumentor. *)
Ltac one_child Hc :=
  unfold grown, descends; ActionFacts.unfold_action; rewrite Hc;
  cbn [fst snd w_page w_finished set_page export];
  ActionFacts.split_outcomes;
  eexists (cons _ nil); (split; [reflexivity |]);
  (split;
   [ constructor; [split; [reflexivity | eexists; split; reflexivity] | constructor]
   | cbn; lia ]).

Lemma navigate_grown (a : ActionInstrumentor) (c : span_context) url (w : W) :
  _ctx a = Some c -> grown (trace_id c) w (snd (navigate a url w)).
Proof. intros Hc. one_child Hc. Qed.

Lemma click_grown (a : ActionInstrumentor) (c : span_context) selector (w : W) :
  _ctx a = Some c -> grown (trace_id c) w (snd (click a selector w)).
Proof. intros Hc. one_child Hc. Qed.

Lemma fill_grown (a : ActionInstrumentor) (c : span_context) selector value sensitive
      (w : W) :
  _ctx a = Some c -> grown (trace_id c) w (snd (fill a selector value sensitive w)).
Proof. intros Hc. one_child Hc. Qed.

Lemma assert_visible_grown (a : ActionInstrumentor) (c : span_context) selector (w : W) :
  _ctx a = Some c -> grown (trace_id c) w (snd (assert_visible a selector w)).
Proof. intros Hc. one_child Hc. Qed.

Lemma assert_text_grown (a : ActionInstrumentor) (c : span_context) selector expected
      (w : W) :
  _ctx a = Some c -> grown (trace_id c) w (snd (assert_text a selector expected w)).
Proof. intros Hc. one_child Hc. Qed.

Lemma assert_count_grown (a : ActionInstrumentor) (c : span_context) selector expected
      (w : W) :
  _ctx a = Some c -> grown (trace_id c) w (snd (assert_count a selector expected w)).
Proof. intros Hc. one_child Hc. Qed.

Lemma assert_url_grown (a : ActionInstrumentor) (c : span_context) pattern (w : W) :
  _ctx a = Some c -> grown (trace_id c) w (snd (assert_url a pattern w)).
Proof. intros Hc. one_child Hc. Qed.

(** The calls of a custom block act on the span only, and leave its
    parent and context alone. *)
Lemma custom_body_span (calls : list span_call) (exc : option exn) :
  forall st : span * W,
    snd (snd (Script.custom_body calls exc st)) = snd st
    /\ span_parent (fst (snd (Script.custom_body calls exc st))) = span_parent (fst st)
    /\ get_span_context (fst (snd (Script.custom_body calls exc st)))
       = get_span_context (fst st).
Proof.
  unfold Script.custom_body. induction calls as [|c calls IH]; intros st; simpl.
  - destruct exc; repeat split.
  - set (rest := fold_right _ _ calls) in *.
    unfold bind, on_span. specialize (IH (call c (fst st), snd st)).
    destruct (rest (call c (fst st), snd st)) as [[[]|e] st']; simpl in *; exact IH.
Qed.

Lemma custom_action_grown (t : TC) (c : span_context) action_type selector extra_attrs
      calls exc (w : W) :
  TestCase._case_ctx t = Some c ->
  grown (trace_id c) w
        (snd (with_span (TestCase.action_span t action_type selector extra_attrs)
                        (Script.custom_body calls exc) w)).
Proof.
  intros Hc. unfold with_span, TestCase.action_span.
  destruct (TestCase._tracer t) as [tracer|]; [| apply grown_refl].
  unfold action_span, start_span. rewrite Hc.
  match goal with
  | |- context [Script.custom_body calls exc ?st] =>
      destruct (custom_body_span calls exc st) as [Hw [Hp Hx]];
      destruct (Script.custom_body calls exc st) as [r st']
  end.
  simpl in *. exists [call (ScopeExit (exc_val r)) (fst st')].
  rewrite Hw. simpl. split; [reflexivity |]. split; [| lia].
  constructor; [| constructor]. unfold descends. simpl. rewrite Hp, Hx. simpl.
  split; [reflexivity |]. eexists. split; reflexivity.
Qed.

(** The fields of a test case that a body never touches. *)
Lemma body_state_fields (t1 t : TC) :
  body_state_of t1 t ->
  TestCase._actions t = TestCase._actions t1
  /\ TestCase._case_ctx t = TestCase._case_ctx t1
  /\ TestCase._tracer t = TestCase._tracer t1.
Proof. intros [sp1 [extra [_ [_ ->]]]]. repeat split. Qed.

Lemma delegate_grown (t : TC) (c : span_context) tracer (method : string)
      (f : ActionInstrumentor -> M W unit) (w : W) :
  TestCase._actions t = Some (mk_instrumentor tracer (Some c)) ->
  (forall a, _ctx a = Some c -> grown (trace_id c) w (snd (f a w))) ->
  grown (trace_id c) w (snd (TestCase.delegate t method f w)).
Proof.
  intros Ha Hf. unfold TestCase.delegate. rewrite Ha. apply Hf. reflexivity.
Qed.

Lemma in_world_snd {X A} (m : M W A) (st : X * W) :
  snd (snd (in_world m st)) = snd (m (snd st)).
Proof. unfold in_world. destruct (m (snd st)). reflexivity. Qed.

Lemma run_step_grown (t1 : TC) (c : span_context) tracer (s : Script.step)
      (st : TC * W) :
  TestCase._actions t1 = Some (mk_instrumentor tracer (Some c)) ->
  TestCase._case_ctx t1 = Some c ->
  body_state_of t1 (fst st) ->
  grown (trace_id c) (snd st) (snd (snd (Script.run_step s st))).
Proof.
  intros Ha Hc Hinv. destruct (body_state_fields _ _ Hinv) as [Ha' [Hc' _]].
  rewrite Ha in Ha'. rewrite Hc in Hc'.
  destruct s; simpl; try rewrite in_world_snd.
  - eapply delegate_grown; [exact Ha' | intros a Hac; now apply navigate_grown].
  - eapply delegate_grown; [exact Ha' | intros a Hac; now apply click_grown].
  - eapply delegate_grown; [exact Ha' | intros a Hac; now apply fill_grown].
  - eapply delegate_grown; [exact Ha' | intros a Hac; now apply assert_visible_grown].
  - eapply delegate_grown; [exact Ha' | intros a Hac; now apply assert_text_grown].
  - eapply delegate_grown; [exact Ha' | intros a Hac; now apply assert_count_grown].
  - eapply delegate_grown; [exact Ha' | intros a Hac; now apply assert_url_grown].
  - destruct (TestCase.set_attribute (fst st) key value); apply grown_refl.
  - now apply custom_action_grown.
  - apply grown_refl.
Qed.

Lemma run_body_grown (t1 : TC) (c : span_context) tracer (body : list Script.step) :
  TestCase._actions t1 = Some (mk_instrumentor tracer (Some c)) ->
  TestCase._case_ctx t1 = Some c ->
  forall st : TC * W,
    body_state_of t1 (fst st) ->
    grown (trace_id c) (snd st) (snd (snd (Script.run_body body st))).
Proof.
  intros Ha Hc. induction body as [|s body IH]; intros st Hinv; simpl.
  - apply grown_refl.
  - unfold bind.
    pose proof (run_step_grown t1 c tracer s st Ha Hc Hinv) as Hg.
    destruct (CaseFacts.run_step_inv t1 s st Hinv) as [Hi _].
    destruct (Script.run_step s st) as [[[]|e] st1]; simpl in *.
    + eapply grown_trans; [exact Hg | apply IH; exact Hi].
    + exact Hg.
Qed.

(** A test case under a suite context of the trace [T]: its span and the
    spans of its actions are started and finished within the scope, as
    descendants in [T]. *)
Lemma async_with_grown (tc : TC) (tracer : Tracer) (c0 : span_context)
      (body : list Script.step) (w : W) :
  TestCase._tracer tc = Some tracer ->
  TestCase._suite_ctx tc = Some c0 ->
  grown (trace_id c0) w (snd (Script.async_with tc body w)).
Proof.
  intros Htr Hctx.
  destruct (TestCase.__aenter__ tc w) as [[t1|e0] w1] eqn:Hent.
  2: { unfold TestCase.__aenter__ in Hent. rewrite Htr in Hent. discriminate. }
  pose proof (CaseFacts.aenter_body_state _ _ _ _ Hent) as Hinv0.
  destruct (CaseFacts.aenter_inv _ _ _ _ Hent)
    as [tracer' [sp1 [Htr' [Hsp1 [Ht1 [_ [Hf1 _]]]]]]].
  rewrite Htr in Htr'. injection Htr' as <-.
  assert (Hs1 : w_spans_started w1 = S (w_spans_started w)).
  { unfold TestCase.__aenter__ in Hent. rewrite Htr in Hent.
    unfold bind, start_span, ret in Hent. injection Hent as _ <-. reflexivity. }
  set (c1 := get_span_context sp1).
  assert (Hc1 : trace_id c1 = trace_id c0)
    by (unfold c1; rewrite Hsp1, Hctx; reflexivity).
  assert (Ha : TestCase._actions t1 = Some (mk_instrumentor tracer (Some c1)))
    by (rewrite Ht1; reflexivity).
  assert (Hcc : TestCase._case_ctx t1 = Some c1) by (rewrite Ht1; reflexivity).
  pose proof (run_body_grown t1 c1 tracer body Ha Hcc (t1, w1) Hinv0) as Hg.
  destruct (CaseFacts.run_body_inv t1 body (t1, w1) Hinv0) as [Hinv _].
  unfold Script.async_with. rewrite Hent.
  destruct (Script.run_body body (t1, w1)) as [r [t2 w2]]. simpl in Hg, Hinv.
  destruct Hinv as [sp1' [extra [H1 [_ Ht2]]]].
  assert (sp1' = sp1) as ->
    by (rewrite Ht1 in H1; simpl in H1; injection H1 as H1; symmetry; exact H1).
  assert (Hsp : TestCase._case_span t2 = Some (add_calls extra sp1))
    by (rewrite Ht2; reflexivity).
  rewrite Hc1 in Hg. destruct Hg as [news [Fn [Dn Sn]]].
  assert (Hd : forall cs, descends (trace_id c0) (add_calls cs (add_calls extra sp1))).
  { intros cs. unfold descends, add_calls. simpl. fold c1. split; [exact Hc1 |].
    exists c0. rewrite Hsp1. simpl. split; [exact Hctx | reflexivity]. }
  assert (Hgoal : forall cs (w3 : W),
            w_finished w3 = w_finished w2 ++ [add_calls cs (add_calls extra sp1)] ->
            w_spans_started w3 = w_spans_started w2 ->
            grown (trace_id c0) w w3).
  { intros cs w3 F3 S3. exists (news ++ [add_calls cs (add_calls extra sp1)]).
    rewrite F3, Fn, Hf1, <- app_assoc, length_app. simpl.
    split; [reflexivity |]. split.
    - apply Forall_app. split; [exact Dn | constructor; [apply Hd | constructor]].
    - lia. }
  destruct r as [[]|e]; simpl.
  - rewrite (CaseFacts.aexit_success t2 _ w2 Hsp). simpl.
    eapply Hgoal; reflexivity.
  - rewrite (CaseFacts.aexit_failure t2 _ e w2 Hsp). simpl.
    eapply Hgoal; destruct (TestCase._logger t2); reflexivity.
Qed.

End Lineage.
End Lineage.

Module SuiteTrace.
Import Frame SpanFacts.

Section CaseLogs.
Context {Page Element Owner : Type} `{Driver Page Element}.

(** A test case emits one log record when it has a logger and its body
    raised, and none otherwise. *)
Lemma async_with_logs (tc : TestCase.TestCase Owner) (tracer : Tracer)
      (body : list Script.step) (w : world Page Owner) :
  TestCase._tracer tc = Some tracer ->
  List.length (w_logs (snd (Script.async_with tc body w)))
  = List.length (w_logs w)
    + match TestCase._logger tc with
      | Some _ => if is_ok (fst (Script.async_with tc body w)) then 0 else 1
      | None => 0
      end.
Proof.
  intros Htr.
  destruct (TestCase.__aenter__ tc w) as [[t1|e0] w1] eqn:Hent.
  2: { unfold TestCase.__aenter__ in Hent. rewrite Htr in Hent. discriminate. }
  pose proof (CaseFacts.aenter_body_state _ _ _ _ Hent) as Hinv0.
  destruct (CaseFacts.aenter_inv _ _ _ _ Hent)
    as [tracer' [sp1 [_ [_ [Ht1 [Hq1 _]]]]]].
  destruct (CaseFacts.run_body_inv t1 body (t1, w1) Hinv0) as [Hinv Hq].
  unfold Script.async_with. rewrite Hent.
  destruct (Script.run_body body (t1, w1)) as [r [t2 w2]]. simpl in Hinv, Hq.
  destruct Hinv as [sp [extra [_ [_ Ht2]]]].
  assert (Hsp : TestCase._case_span t2 = Some (add_calls extra sp))
    by (rewrite Ht2; reflexivity).
  assert (Hlg : TestCase._logger t2 = TestCase._logger tc)
    by (rewrite Ht2, Ht1; reflexivity).
  unfold quiet in Hq, Hq1.
  assert (Hlogs : w_logs w2 = w_logs w) by congruence.
  destruct r as [[]|e]; simpl.
  - rewrite (CaseFacts.aexit_success t2 _ w2 Hsp). simpl. rewrite Hlogs.
    destruct (TestCase._logger tc); lia.
  - rewrite (CaseFacts.aexit_failure t2 _ e w2 Hsp). simpl. rewrite Hlg.
    destruct (TestCase._logger tc); simpl; rewrite ?length_app, Hlogs; simpl; lia.
Qed.

End CaseLogs.

Section SuiteTrace.
Context {Page Element : Type} `{Driver Page Element}.

Local Abbreviation W := (world Page Browser.InstrumentedBrowser).

(** [test_case] changes nothing of the world but the total, and hands the
    new test case the context and the logger of the suite. *)
Lemma test_case_world (name case_id tags description : string) (w : W)
      (logger : Logger) :
  Browser._logger (w_owner w) = Some logger ->
  exists tc w1,
    Browser.test_case name case_id tags description w = (Ok tc, w1)
    /\ TestCase._suite_ctx tc = Browser._suite_ctx (w_owner w)
    /\ TestCase._logger tc = Browser._logger (w_owner w)
    /\ w_finished w1 = w_finished w
    /\ w_spans_started w1 = w_spans_started w
    /\ w_logs w1 = w_logs w.
Proof.
  intros Hlg. unfold Browser.test_case, bind, modify, gets, ret. simpl.
  rewrite Hlg. eexists. eexists. split; [reflexivity |]. repeat split.
Qed.

Lemma grown_from (T : N) (w0 w1 w2 : W) :
  w_finished w1 = w_finished w0 ->
  w_spans_started w1 = w_spans_started w0 ->
  grown T w1 w2 -> grown T w0 w2.
Proof.
  intros F S [news [Fn [Dn Sn]]]. exists news. rewrite Fn, Sn, F, S. repeat split.
  exact Dn.
Qed.

(** The suite body under a suite span of the trace [T]: every span it
    starts is finished, as a descendant in [T]; one log record is emitted
    for each case that failed. *)
Lemma run_cases_trace (tracer : Tracer) (c0 : span_context) (logger : Logger)
      (cases : list Browser.case_run) :
  forall w : W,
    Browser._tracer (w_owner w) = Some tracer ->
    Browser._suite_ctx (w_owner w) = Some c0 ->
    Browser._logger (w_owner w) = Some logger ->
    grown (trace_id c0) w (snd (snd (Browser.run_cases cases w)))
    /\ List.length (w_logs (snd (snd (Browser.run_cases cases w))))
       = List.length (w_logs w) + count_failed (fst (Browser.run_cases cases w)).
Proof.
  induction cases as [|c cases IH]; intros w Htr Hctx Hlg.
  - simpl. split; [apply Lineage.grown_refl |].
    unfold count_failed. simpl. lia.
  - rewrite SuiteFacts.run_cases_cons.
    destruct (SuiteFacts.test_case_effect (Browser.cr_name c) (Browser.cr_case_id c)
                (Browser.cr_tags c) (Browser.cr_description c) w logger Hlg)
      as [tc [w1 [Etc [Hcb [Htc [Hs1 _]]]]]].
    destruct (test_case_world (Browser.cr_name c) (Browser.cr_case_id c)
                (Browser.cr_tags c) (Browser.cr_description c) w logger Hlg)
      as [tc' [w1' [Etc' [Hsc [Hl [Hf1 [Hst1 Hlog1]]]]]]].
    rewrite Etc in Etc'. injection Etc' as <- <-. rewrite Etc.
    assert (Htr1 : TestCase._tracer tc = Some tracer) by congruence.
    assert (Hctx1 : TestCase._suite_ctx tc = Some c0) by congruence.
    assert (Hlg1 : TestCase._logger tc = Some logger) by congruence.
    pose proof (SuiteFacts.async_with_owner tc tracer (Browser.cr_body c) w1 Htr1) as Hown.
    pose proof (Lineage.async_with_grown tc tracer c0 (Browser.cr_body c) w1 Htr1 Hctx1)
      as Hg.
    pose proof (async_with_logs tc tracer (Browser.cr_body c) w1 Htr1) as Hlogs.
    rewrite Hlg1 in Hlogs.
    destruct (Script.async_with tc (Browser.cr_body c) w1) as [r w2].
    simpl in Hown, Hg, Hlogs. rewrite Hcb in Hown.
    destruct (SuiteFacts.record_result_effect (is_ok r) (w_owner w1)) as [Hs2 _].
    rewrite <- Hown in Hs2.
    destruct Hs1 as [_ [T1 [_ [C1 L1]]]]. destruct Hs2 as [_ [T2 [_ [C2 L2]]]].
    assert (Htr2 : Browser._tracer (w_owner w2) = Some tracer) by congruence.
    assert (Hctx2 : Browser._suite_ctx (w_owner w2) = Some c0) by congruence.
    assert (Hlg2 : Browser._logger (w_owner w2) = Some logger) by congruence.
    specialize (IH w2 Htr2 Hctx2 Hlg2).
    pose proof (grown_from _ _ _ _ Hf1 Hst1 Hg) as Hg0.
    assert (Hrec :
      grown (trace_id c0) w (snd (snd (Browser.run_cases cases w2)))
      /\ List.length (w_logs (snd (snd (Browser.run_cases cases w2))))
         = List.length (w_logs w)
           + count_failed (r :: fst (Browser.run_cases cases w2))).
    { destruct IH as [I1 I2]. split.
      - eapply Lineage.grown_trans; eassumption.
      - rewrite I2, Hlogs, Hlog1. unfold count_failed. simpl.
        destruct (is_ok r); simpl; lia. }
    destruct r as [[]|e].
    + destruct (Browser.run_cases cases w2) as [seen [r' w']]. exact Hrec.
    + destruct (Browser.cr_caught c).
      * destruct (Browser.run_cases cases w2) as [seen [r' w']]. exact Hrec.
      * simpl. split; [exact Hg0 |]. simpl in Hlogs. rewrite Hlogs, Hlog1.
        unfold count_failed. simpl. lia.
Qed.

(** What [__aexit__] leaves alone. *)
Lemma suite_aexit_frame (exc : option exn) (w : W) :
  w_spans_started (snd (Browser.__aexit__ exc w)) = w_spans_started w
  /\ w_logs (snd (Browser.__aexit__ exc w)) = w_logs w.
Proof.
  unfold Browser.__aexit__, bind, gets. cbn [fst snd].
  destruct (Browser._suite_span (w_owner w)); [| split; reflexivity].
  unfold modify, on_page, force_flush, ret. cbn [fst snd w_page set_owner export].
  destruct (browser_close (w_page w)) as [[[]|e1] p1]; cbn [fst snd set_page w_page];
    [destruct (playwright_stop p1) as [[[]|e2] p2]; cbn [fst snd set_page w_page] |];
    split; reflexivity.
Qed.

(** The whole run. When the suite is entered, the finished spans are some
    descendants in the trace of the root span and then the root span, and
    as many spans are finished as were started. When [__aenter__] raises,
    no case is run and [__aexit__] is not called: the exception goes to
    the caller, the suite span is started and never finished, nothing is
    flushed. Either way as many log records are emitted as cases failed. *)
Lemma run_suite_trace (env : Config.environ) (kw : Config.kwargs) (page : Page)
      (amb : Browser.Ambient) (cases : list Browser.case_run) :
  let enter := Browser.__aenter__ amb (Browser.initial_world env kw page) in
  let run := Browser.run_suite amb cases (Browser.initial_world env kw page) in
  let final := snd (snd run) in
  (fst enter = Ok tt ->
   (exists earlier root,
       w_finished final = earlier ++ [root]
       /\ span_parent root = None
       /\ Forall (descends (trace_id (get_span_context root))) earlier)
   /\ w_spans_started final = List.length (w_finished final))
  /\ (forall e, fst enter = Raise e ->
        fst run = [] /\ fst (snd run) = Raise e
        /\ w_spans_started final = 1 /\ w_finished final = []
        /\ w_flushes final = 0)
  /\ List.length (w_logs final) = count_failed (fst run).
Proof.
  cbv zeta. unfold Browser.run_suite.
  set (w0 := Browser.initial_world env kw page).
  pose proof (SuiteFacts.aenter_state amb w0) as Hst0. cbv zeta in Hst0.
  destruct (Browser.__aenter__ amb w0) as [[[]|e0] w1];
    cbn [fst snd] in Hst0 |- *;
    destruct Hst0 as [Hw1 [Hs1 [Hf1 [Hl1 Hfl1]]]].
  2: { split; [discriminate |]. split; [| rewrite Hl1; reflexivity].
       intros e [= <-]. rewrite Hs1, Hf1, Hfl1. repeat split. }
  set (cfg := Config.SmokeshowConfig_new env (Config.browser_kwargs kw)) in *.
  set (c0 := mk_span_context (generate_trace_id (Browser.amb_tracer amb) 0)
                             (generate_span_id (Browser.amb_tracer amb) 0)) in *.
  set (sp0 := mk_span ("suite(" ++ Config.suite_name cfg ++ ")") None c0
                      (Browser.suite_attrs cfg amb) []) in *.
  assert (Htr : Browser._tracer (w_owner w1) = Some (Browser.amb_tracer amb))
    by (rewrite Hw1; reflexivity).
  assert (Hctx : Browser._suite_ctx (w_owner w1) = Some c0)
    by (rewrite Hw1; reflexivity).
  assert (Hlg : Browser._logger (w_owner w1) = Some (mk_logger "smokeshow.test_results"))
    by (rewrite Hw1; reflexivity).
  assert (Hsp : Browser._suite_span (w_owner w1) = Some sp0)
    by (rewrite Hw1; reflexivity).
  simpl in Hs1, Hf1, Hl1.
  destruct (run_cases_trace (Browser.amb_tracer amb) c0 _ cases w1 Htr Hctx Hlg)
    as [[news [Fn [Dn Sn]]] Hlogs].
  destruct (SuiteFacts.run_cases_counts (Browser.amb_tracer amb) _ cases w1 Htr Hlg)
    as [[_ [_ [Hsp2 _]]] _].
  destruct (Browser.run_cases cases w1) as [seen [r w2]].
  simpl in Fn, Sn, Hlogs, Hsp2. rewrite Hsp in Hsp2.
  pose proof (SuiteFacts.suite_aexit_finished (exc_val r) w2 sp0 Hsp2) as Hfin.
  destruct (suite_aexit_frame (exc_val r) w2) as [Hst Hlg3].
  cbv zeta in Hfin. set (root := add_calls _ sp0) in Hfin.
  rewrite Fn, Hf1 in Hfin. simpl in Hfin.
  assert (Hall :
    forall w3 : W,
      w_finished w3 = news ++ [root] ->
      w_spans_started w3 = w_spans_started w2 ->
      w_logs w3 = w_logs w2 ->
      ((exists earlier root0,
           w_finished w3 = earlier ++ [root0]
           /\ span_parent root0 = None
           /\ Forall (descends (trace_id (get_span_context root0))) earlier)
       /\ w_spans_started w3 = List.length (w_finished w3))
      /\ List.length (w_logs w3) = count_failed seen).
  { intros w3 F3 S3 L3. split; [split |].
    - exists news, root. split; [exact F3 |]. split; [reflexivity | exact Dn].
    - rewrite F3, S3, Sn, Hs1, length_app. simpl. lia.
    - rewrite L3, Hlogs, Hl1. reflexivity. }
  destruct (Browser.__aexit__ (exc_val r) w2) as [[suppress|e'] w3];
    simpl in Hfin, Hst, Hlg3; destruct r as [[]|e]; simpl;
    destruct (Hall w3 Hfin Hst Hlg3) as [Hyes Hlogs3];
    (split; [intros _; exact Hyes |]); (split; [discriminate | exact Hlogs3]).
Qed.

End SuiteTrace.
End SuiteTrace.

Section SuiteRun.
Context {Page Element : Type} `{Driver Page Element}.

(** For every run of a suite that was entered, whatever the driver does
    and whether or not the cases fail: the finished spans form one trace.
    The root span, without parent, is finished last; every span finished
    before it (test cases, actions, custom action spans) carries the trace
    id of the root span and is the child of a span of that trace. When
    [__aenter__] raises, no span is finished at all. *)
Theorem suite_spans_form_one_trace
  (env : Config.environ) (kw : Config.kwargs) (page : Page)
  (amb : Browser.Ambient) (cases : list Browser.case_run) :
  let enter := Browser.__aenter__ amb (Browser.initial_world env kw page) in
  let final := snd (snd (Browser.run_suite amb cases
                                           (Browser.initial_world env kw page))) in
  (fst enter = Ok tt ->
   exists earlier root,
     w_finished final = earlier ++ [root]
     /\ span_parent root = None
     /\ Forall (fun sp =>
                  trace_id (get_span_context sp) = trace_id (get_span_context root)
                  /\ exists parent,
                       span_parent sp = Some parent
                       /\ trace_id parent = trace_id (get_span_context root))
               earlier)
  /\ (forall e, fst enter = Raise e -> w_finished final = []).
Proof.
  destruct (SuiteTrace.run_suite_trace env kw page amb cases) as [Hyes [Hno _]].
  split.
  - intros Hent. destruct (Hyes Hent) as [Htree _]. exact Htree.
  - intros e Hent. destruct (Hno e Hent) as [_ [_ [_ [Hfin _]]]]. exact Hfin.
Qed.

(** For every run of a suite that was entered, every span the package
    started has been finished when the suite scope is left: the suite span,
    each test-case span and each action span, on passing and failing paths
    alike and even when the teardown of the browser raises. When
    [__aenter__] raises (Playwright cannot start, the browser type is
    unknown or cannot be launched, no context or page can be opened), the
    exception goes to the caller without [__aexit__] being called: no case
    is run, the suite span is started and never finished, and nothing is
    flushed. *)
Theorem suite_finishes_every_span_it_starts
  (env : Config.environ) (kw : Config.kwargs) (page : Page)
  (amb : Browser.Ambient) (cases : list Browser.case_run) :
  let enter := Browser.__aenter__ amb (Browser.initial_world env kw page) in
  let run := Browser.run_suite amb cases (Browser.initial_world env kw page) in
  let final := snd (snd run) in
  (fst enter = Ok tt -> w_spans_started final = List.length (w_finished final))
  /\ (forall e, fst enter = Raise e ->
        fst run = [] /\ fst (snd run) = Raise e
        /\ w_spans_started final = 1 /\ w_finished final = []
        /\ w_flushes final = 0).
Proof.
  destruct (SuiteTrace.run_suite_trace env kw page amb cases) as [Hyes [Hno _]].
  split.
  - intros Hent. destruct (Hyes Hent) as [_ Hcount]. exact Hcount.
  - exact Hno.
Qed.

(** For every suite run, the number of log records emitted is the number
    of test cases that failed: one error log per failed case, none for a
    case that passed, none from the actions or from the suite itself. *)
Theorem suite_logs_once_per_failed_case
  (env : Config.environ) (kw : Config.kwargs) (page : Page)
  (amb : Browser.Ambient) (cases : list Browser.case_run) :
  let run := Browser.run_suite amb cases (Browser.initial_world env kw page) in
  List.length (w_logs (snd (snd run))) = count_failed (fst run).
Proof.
  destruct (SuiteTrace.run_suite_trace env kw page amb cases) as [_ [_ Hlogs]].
  exact Hlogs.
Qed.

End SuiteRun.

(** The suite of the unit tests: its spans end with the root span. *)
Lemma suite_spans_form_one_trace_witness :
  exists earlier root,
    w_finished (snd (snd Fake.pass_and_fail_run)) = earlier ++ [root]
    /\ span_parent root = None.
Proof.
  destruct (suite_spans_form_one_trace (H := Fake.fake_driver) [] Config.no_kwargs
              Fake.mock_page Fake.ambient Fake.pass_and_fail)
    as [Hyes _].
  destruct (Hyes ltac:(reflexivity)) as [earlier [root [Hfin [Hroot _]]]].
  exists earlier, root. split; [exact Hfin | exact Hroot].
Defined.

(** The suite of the unit tests on a machine without the browser: the
    suite span is started and stays open. *)
Lemma suite_finishes_every_span_it_starts_witness :
  let final := snd (snd (Browser.run_suite Fake.ambient Fake.pass_and_fail
                           (Browser.initial_world [] Config.no_kwargs
                                                  Fake.page_without_browser))) in
  w_spans_started final = 1 /\ w_finished final = [].
Proof.
  destruct (suite_finishes_every_span_it_starts (H := Fake.fake_driver)
              [] Config.no_kwargs Fake.page_without_browser Fake.ambient
              Fake.pass_and_fail)
    as [_ Hno].
  destruct (Hno (Fake.PlaywrightError "Executable doesn't exist") ltac:(reflexivity))
    as [_ [_ [Hs [Hf _]]]].
  split; [exact Hs | exact Hf].
Defined.

Section BodyFrame.
Context {Page Element Owner : Type} `{Driver Page Element}.

(** No statement of a test body (the seven actions, [set_attribute], a
    custom action span, a [raise]) calls the result callback, emits a log
    record or flushes telemetry: these happen only when a test case or the
    suite is left. *)
Theorem test_body_reports_nothing
  (body : list Script.step) (st : TestCase.TestCase Owner * world Page Owner) :
  let after := snd (snd (Script.run_body body st)) in
  w_owner after = w_owner (snd st)
  /\ w_logs after = w_logs (snd st)
  /\ w_flushes after = w_flushes (snd st).
Proof.
  cbv zeta.
  assert (Hq : quiet (snd (snd (Script.run_body body st))) = quiet (snd st)).
  { revert st. induction body as [|s body IH]; intros st; simpl; [reflexivity |].
    unfold bind.
    assert (Hs : quiet (snd (snd (Script.run_step s st))) = quiet (snd st)).
    { assert (Hw : forall m : M (world Page Owner) unit,
                keeps quiet m ->
                quiet (snd (snd (@in_world Page Owner (TestCase.TestCase Owner)
                                           unit m st)))
                = quiet (snd st)).
      { intros m Hm.
        apply (Frame.keeps_in_world (X := TestCase.TestCase Owner) m Hm st). }
      destruct s; simpl.
      - apply Hw, CaseFacts.keeps_delegate. intros a. apply Frame.keeps_navigate.
      - apply Hw, CaseFacts.keeps_delegate. intros a. apply Frame.keeps_click.
      - apply Hw, CaseFacts.keeps_delegate. intros a. apply Frame.keeps_fill.
      - apply Hw, CaseFacts.keeps_delegate. intros a. apply Frame.keeps_assert_visible.
      - apply Hw, CaseFacts.keeps_delegate. intros a. apply Frame.keeps_assert_text.
      - apply Hw, CaseFacts.keeps_delegate. intros a. apply Frame.keeps_assert_count.
      - apply Hw, CaseFacts.keeps_delegate. intros a. apply Frame.keeps_assert_url.
      - destruct (TestCase.set_attribute (fst st) key value); reflexivity.
      - apply Hw. apply Frame.keeps_with_span;
          [apply CaseFacts.keeps_case_action_span | apply Frame.keeps_custom_body].
      - reflexivity. }
    destruct (Script.run_step s st) as [[[]|e] st1]; simpl in *.
    - rewrite IH. exact Hs.
    - exact Hs. }
  unfold quiet in Hq. injection Hq as Ho Hl Hf. repeat split; assumption.
Qed.

End BodyFrame.

(** ** How the configuration is resolved (config.py, browser.py) *)

Section ConfigResolution.
Import Config.

(** The five options backed by an environment variable are resolved in
    three steps: a constructor value that is not empty is kept; otherwise
    the value of the environment variable is taken whenever the variable
    is set, even to the empty string; otherwise the built-in default. *)
Theorem string_options_resolution (env : environ) (kw : kwargs) :
  let cfg := SmokeshowConfig_new env kw in
  let resolve (given : option string) (variable default : string) :=
    let from_environment :=
      match dict_get variable env with Some v => v | None => default end in
    match given with
    | Some (String c s) => String c s
    | Some EmptyString | None => from_environment
    end in
  service_name cfg
  = resolve (kw_service_name kw) "OTEL_SERVICE_NAME" "playwright-otel"
  /\ otlp_endpoint cfg
     = resolve (kw_otlp_endpoint kw) "OTEL_EXPORTER_OTLP_ENDPOINT" "http://localhost:4317"
  /\ environment cfg
     = resolve (kw_environment kw) "PLAYWRIGHT_OTEL_ENVIRONMENT" "development"
  /\ trigger cfg = resolve (kw_trigger kw) "PLAYWRIGHT_OTEL_TRIGGER" "manual"
  /\ browser_type cfg
     = resolve (kw_browser_type kw) "PLAYWRIGHT_OTEL_BROWSER" "chromium".
Proof.
  cbv zeta. unfold SmokeshowConfig_new, __post_init__, fields_of_kwargs, environ_get.
  cbn [service_name otlp_endpoint environment trigger browser_type].
  repeat split.
  - destruct (kw_service_name kw) as [[|c s]|]; reflexivity.
  - destruct (kw_otlp_endpoint kw) as [[|c s]|]; reflexivity.
  - destruct (kw_environment kw) as [[|c s]|]; reflexivity.
  - destruct (kw_trigger kw) as [[|c s]|]; reflexivity.
  - destruct (kw_browser_type kw) as [[|c s]|]; reflexivity.
Qed.

(** The headless flag: [headless=False] given to the constructor is kept.
    Otherwise, when [PLAYWRIGHT_OTEL_HEADLESS] is not set the flag is true,
    and when it is set the flag is false exactly for the values that read
    [false], [0] or [no] once lower-cased; any other value, the empty
    string and [off] included, leaves the browser headless. *)
Theorem headless_resolution (env : environ) (kw : kwargs) :
  let cfg := SmokeshowConfig_new env kw in
  (kw_headless kw = Some false -> headless cfg = false)
  /\ (kw_headless kw <> Some false ->
      dict_get "PLAYWRIGHT_OTEL_HEADLESS" env = None ->
      headless cfg = true)
  /\ (forall v,
         kw_headless kw <> Some false ->
         dict_get "PLAYWRIGHT_OTEL_HEADLESS" env = Some v ->
         (headless cfg = false
          <-> lower v = "false"%string \/ lower v = "0"%string \/ lower v = "no"%string)).
Proof.
  cbv zeta. unfold SmokeshowConfig_new, __post_init__, fields_of_kwargs.
  cbn [headless]. split; [| split].
  - intros ->. simpl. destruct (dict_get "PLAYWRIGHT_OTEL_HEADLESS" env); reflexivity.
  - intros Hkw Henv. rewrite Henv.
    destruct (kw_headless kw) as [[]|]; try reflexivity. contradiction.
  - intros v Hkw Henv. rewrite Henv.
    assert (Harg : arg (kw_headless kw) true = true)
      by (destruct (kw_headless kw) as [[]|]; try reflexivity; contradiction).
    rewrite Harg. unfold is_false_word. rewrite negb_false_iff, existsb_exists.
    split.
    + intros [w [Hin Heq]]. apply String.eqb_eq in Heq. subst w. simpl in Hin.
      intuition.
    + intros Hv. exists (lower v). split; [| apply String.eqb_refl].
      simpl. intuition.
Qed.

(** [InstrumentedBrowser(...)] builds the configuration that
    [SmokeshowConfig(...)] builds from the same keyword arguments in the
    same environment: the defaults the browser fills in before passing
    every option on are the defaults of the configuration itself. *)
Theorem browser_configuration_is_the_constructor_s
  (env : environ) (kw : kwargs) :
  Browser._config (Browser.__init__ env kw) = SmokeshowConfig_new env kw
  /\ Browser._total (Browser.__init__ env kw) = 0%Z
  /\ Browser._passed (Browser.__init__ env kw) = 0%Z
  /\ Browser._failed (Browser.__init__ env kw) = 0%Z
  /\ Browser._suite_span (Browser.__init__ env kw) = None.
Proof.
  split; [| repeat split].
  unfold Browser.__init__. cbn [Browser._config].
  unfold SmokeshowConfig_new, browser_kwargs, fields_of_kwargs.
  destruct kw as [a b c d e f g h i j k]. cbn.
  destruct a, b, c, d, e, f, g, h, i, j, k; reflexivity.
Qed.

End ConfigResolution.

(** [PLAYWRIGHT_OTEL_HEADLESS=No] asks for a headed browser. *)
Lemma headless_resolution_witness :
  Config.headless (Config.SmokeshowConfig_new [("PLAYWRIGHT_OTEL_HEADLESS", "No")]
                                              Config.no_kwargs) = false.
Proof.
  destruct (headless_resolution [("PLAYWRIGHT_OTEL_HEADLESS", "No")] Config.no_kwargs)
    as [_ [_ Hiff]].
  apply (Hiff "No"%string); [discriminate | reflexivity |].
  right. right. reflexivity.
Defined.

(** ** Sensitivity of selectors (sensitive.py) *)

Module SensitiveFacts.

Lemma match_literal_lower (lit s t : list N) :
  map Unicode.tolower s = map Unicode.tolower t ->
  Sensitive.match_literal_ignorecase lit s = Sensitive.match_literal_ignorecase lit t.
Proof.
  revert s t. induction lit as [|p lit IH]; intros s t E; [reflexivity |].
  destruct s as [|c s], t as [|c' t]; try discriminate; [reflexivity |].
  simpl in E. injection E as Hc E. simpl.
  unfold Sensitive.char_matches. rewrite Hc, (IH s t E). reflexivity.
Qed.

Lemma match_alternation_lower (alts : list (list N)) (s t : list N) :
  map Unicode.tolower s = map Unicode.tolower t ->
  Sensitive.match_alternation alts s = Sensitive.match_alternation alts t.
Proof.
  intros E. unfold Sensitive.match_alternation.
  induction alts as [|lit alts IH]; [reflexivity |].
  simpl. now rewrite IH, (match_literal_lower lit s t E).
Qed.

(** The search reads the subject through the lower case of its characters
    only. *)
Lemma re_search_lower (alts : list (list N)) (s t : list N) :
  map Unicode.tolower s = map Unicode.tolower t ->
  Sensitive.re_search alts s = Sensitive.re_search alts t.
Proof.
  revert t. induction s as [|c s IH]; intros t E.
  - destruct t; [reflexivity | discriminate].
  - destruct t as [|c' t]; [discriminate |].
    pose proof (match_alternation_lower alts (c :: s) (c' :: t) E) as Hhere.
    simpl in E. injection E as _ E.
    simpl Sensitive.re_search. rewrite Hhere, (IH t E). reflexivity.
Qed.

End SensitiveFacts.

(** Whether a selector is sensitive depends on its characters up to their
    lower case only: two selectors whose characters have the same lower
    case one by one are both sensitive or both not. And sensitivity
    survives context: a selector that holds the characters of a sensitive
    selector is sensitive, whatever stands before and after them, and its
    value is redacted with or without the flag. *)
Theorem sensitivity_ignores_case_and_context :
  (forall s t,
      map Unicode.tolower (Unicode.decode s) = map Unicode.tolower (Unicode.decode t) ->
      Sensitive.is_sensitive_selector s = Sensitive.is_sensitive_selector t)
  /\ (forall inner selector pre post,
        Unicode.decode selector = pre ++ Unicode.decode inner ++ post ->
        Sensitive.is_sensitive_selector inner = true ->
        Sensitive.is_sensitive_selector selector = true
        /\ forall value sensitive,
             Sensitive.redact_if_needed value selector sensitive = "[REDACTED]"%string).
Proof.
  split.
  - intros s t E. unfold Sensitive.is_sensitive_selector.
    now apply SensitiveFacts.re_search_lower.
  - intros inner selector pre post E Hs.
    assert (Hsel : Sensitive.is_sensitive_selector selector = true).
    { apply StrFacts.is_sensitive_selector_iff in Hs
        as [w [Hin [p [mid [q [Ei F]]]]]].
      apply StrFacts.is_sensitive_selector_iff. exists w. split; [exact Hin |].
      exists (pre ++ p), mid, (q ++ post). split; [| exact F].
      rewrite E, Ei, <- !app_assoc. reflexivity. }
    split; [exact Hsel |].
    intros value sensitive. unfold Sensitive.redact_if_needed.
    rewrite Hsel, orb_true_r. reflexivity.
Qed.

(** A password field in capitals inside a longer selector. *)
Lemma sensitivity_ignores_case_and_context_witness :
  Sensitive.is_sensitive_selector "INPUT#PASSWORD"
  = Sensitive.is_sensitive_selector "input#password"
  /\ Sensitive.is_sensitive_selector "form#login INPUT#PASSWORD.wide" = true.
Proof.
  destruct sensitivity_ignores_case_and_context as [Hcase Hctx].
  split.
  - apply Hcase. vm_compute. reflexivity.
  - apply (Hctx "INPUT#PASSWORD"%string "form#login INPUT#PASSWORD.wide"%string
                (Unicode.decode "form#login ") (Unicode.decode ".wide")).
    + vm_compute. reflexivity.
    + vm_compute. reflexivity.
Defined.

(** ** The ids in the failure log (test_case.py) *)

(** The rendering of an id in the failure log, [format(id, "0<width>x")],
    loses nothing: it holds hexadecimal digits only, at least [width] of
    them, it reads back as the id, and two ids rendered with the same width
    give the same string only if they are equal. So the trace and span ids
    in the log identify the span exactly. *)
Theorem id_rendering_round_trip (width : nat) (n m : N) :
  all_chars is_hex_digit (format_0x width n) = true
  /\ width <= String.length (format_0x width n)
  /\ hex_value (format_0x width n) = n
  /\ (format_0x width n = format_0x width m -> n = m).
Proof.
  destruct (HexFacts.format_0x_spec width n) as [Ha [Hv _]].
  destruct (HexFacts.format_0x_spec width m) as [_ [Hvm _]].
  split; [exact Ha |]. split; [| split; [exact Hv |]].
  - unfold format_0x. rewrite StrFacts.length_append.
    destruct (HexFacts.zeros_spec (width - String.length (hex n))) as [L _].
    rewrite L. lia.
  - intros E. rewrite <- Hv, <- Hvm, E. reflexivity.
Qed.

(** The trace id [0xff] as the log shows it. *)
Lemma id_rendering_round_trip_witness :
  hex_value "000000000000000000000000000000ff" = 255%N.
Proof.
  destruct (id_rendering_round_trip 32 255 255) as [_ [_ [Hv _]]].
  exact Hv.
Defined.

(** Leaving the suite of the unit tests: browser and Playwright close, the
    method returns [False] and the exporters are flushed twice. *)
Lemma suite_exit_teardown_witness :
  fst (Browser.__aexit__ None Fake.suite_entered) = Ok false
  /\ w_flushes (snd (Browser.__aexit__ None Fake.suite_entered)) = 2.
Proof.
  destruct (suite_exit_teardown (H := Fake.fake_driver) None Fake.suite_entered
              Fake.suite_root ltac:(vm_compute; reflexivity))
    as [_ [_ [Hok _]]].
  destruct (Hok ltac:(reflexivity) ltac:(reflexivity)) as [Hr [_ Hf]].
  split; [exact Hr | exact Hf].
Defined.

(** ** assert_text on any text (actions.py) *)

Section TextOutcome.
Context {Page Element Owner : Type} `{Driver Page Element}.

(** [assert_text(selector, expected)], once the element is found and its
    text read, leaves the page as the reading left it and succeeds exactly
    when the lower-casing of [expected] occurs in the lower-casing of the
    text. Then [test.action.result = "success"] and the status is OK.
    Otherwise the action sets [test.action.result = "failed"] and the
    status ERROR with [Expected '<expected>' in '<actual>'], and raises an
    [AssertionError] with that message; the exit of the span's block
    records that exception and sets the status again, so that the span is
    exported with status ERROR and the description
    [AssertionError: Expected '<expected>' in '<actual>']. *)
Theorem assert_text_outcome
  (a : ActionInstrumentor) (selector expected text : string)
  (w : world Page Owner) (element : Element) (p1 p2 : Page) :
  page_wait_for_selector selector "visible" 5000 (w_page w) = (Ok element, p1) ->
  element_text_content element p1 = (Ok (Some text), p2) ->
  let out := assert_text a selector expected w in
  let message := ("Expected '" ++ expected ++ "' in '" ++ text ++ "'")%string in
  let found := contains (lower expected) (lower text) in
  w_page (snd out) = p2
  /\ exists sp,
       w_finished (snd out) = w_finished w ++ [sp]
       /\ (found = true ->
           fst out = Ok tt
           /\ dict_get "test.action.result" (attributes sp) = Some (AStr "success")
           /\ status sp = (OK, None)
           /\ exported_status sp = (OK, None))
       /\ (found = false ->
           fst out = Raise (AssertionError message)
           /\ dict_get "test.action.result" (attributes sp) = Some (AStr "failed")
           /\ status sp = (ERROR, Some message)
           /\ exported_status sp
              = (ERROR, Some ("AssertionError: " ++ message)%string)
           /\ exported_exceptions sp = [AssertionError message]).
Proof.
  intros Hwait Htext. cbv zeta.
  ActionFacts.unfold_action. rewrite Hwait.
  cbn [fst snd w_page w_finished set_page export exc_val]. rewrite Htext.
  cbn [fst snd w_page w_finished set_page export exc_val].
  destruct (contains (lower expected) (lower text));
    cbn [fst snd w_page w_finished set_page export exc_val];
    (split; [reflexivity |]); eexists; (split; [reflexivity |]);
    split; intros Hc; try discriminate.
  - split; [reflexivity |]. split; [| repeat split].
    unfold attributes, call; cbn [span_calls span_init_attributes app fold_left apply_attribute].
    apply SpanFacts.dict_get_set_same.
  - split; [reflexivity |]. split; [| repeat split].
    unfold attributes, call; cbn [span_calls span_init_attributes app fold_left apply_attribute].
    apply SpanFacts.dict_get_set_same.
Qed.

End TextOutcome.

(** The heading of the unit tests, [Hello World]: [Hello] is found in it,
    and so is [hello]; [Missing] is not. *)
Lemma assert_text_outcome_witness :
  fst (assert_text Fake.instrumentor "h1" "hello" (Fake.test_world Fake.mock_page))
  = Ok tt
  /\ fst (assert_text Fake.instrumentor "h1" "Missing" (Fake.test_world Fake.mock_page))
     = Raise (AssertionError "Expected 'Missing' in 'Hello World'").
Proof.
  split.
  - destruct (assert_text_outcome (H := Fake.fake_driver) Fake.instrumentor "h1" "hello"
                "Hello World" (Fake.test_world Fake.mock_page) tt
                (Fake.record (Fake.CallWaitForSelector "h1" "visible" 5000)
                             Fake.mock_page)
                (Fake.record Fake.CallTextContent
                   (Fake.record (Fake.CallWaitForSelector "h1" "visible" 5000)
                                Fake.mock_page))
                ltac:(reflexivity) ltac:(reflexivity))
      as [_ [sp [_ [Hyes _]]]].
    apply Hyes. vm_compute. reflexivity.
  - destruct (assert_text_outcome (H := Fake.fake_driver) Fake.instrumentor "h1" "Missing"
                "Hello World" (Fake.test_world Fake.mock_page) tt
                (Fake.record (Fake.CallWaitForSelector "h1" "visible" 5000)
                             Fake.mock_page)
                (Fake.record Fake.CallTextContent
                   (Fake.record (Fake.CallWaitForSelector "h1" "visible" 5000)
                                Fake.mock_page))
                ltac:(reflexivity) ltac:(reflexivity))
      as [_ [sp [_ [_ Hno]]]].
    apply Hno. vm_compute. reflexivity.
Defined.
